(** * S.A.V.E disaster-response coordinator: the allocation core in Rocq

    A shallow embedding of the Python sources under [backend/app]:
    the negotiation engine, the constraint checker, the failure handler,
    the hospital ledger and the simulator's tick, followed by the
    properties of the specification that concern them; then the state
    checks of the constraint checker, the failure summary, the endpoint
    that runs several ticks and the logger's timeline, with further
    properties of the code.

    Conventions of the embedding.
    - Python [int] is [Z]; Python [float] is the kernel's binary64 [float]
      (IEEE 754 round-to-nearest-even, which is what CPython uses);
      [x ** 2] is written [x * x], the correctly rounded square: the C
      library's [pow] may differ from it in the last bit, and where the
      square overflows Python raises [OverflowError] and the product is
      [inf].
    - A [dict] that the code iterates over is an insertion-ordered
      association list ([odict]); a [dict] that is only looked up is a
      [gmap].
    - The message and patient dictionaries are read as records.  Every key
      the code reads with [.get(key, default)] is present in the
      dictionaries that the agents and the data generator build, with one
      exception that is kept as an [option]: ambulance messages carry no
      ["location"].
    - Methods that mutate [self] return the new object; methods that can
      raise return a [Py.result].
    - Wall-clock stamps ([datetime.now().isoformat()]) are strings read from
      an explicit clock. *)

From Stdlib Require Import ZArith Lia Floats Sorted.
From stdpp Require Import base option list strings gmap pretty.

Set Warnings "-inexact-float,-clear-no-such-hyp".
Open Scope Z_scope.

(** ** Python values, exceptions and numbers *)

Module Py.

Inductive exn : Type :=
| TypeError | KeyError | ZeroDivisionError | AttributeError.

Inductive result (A : Type) : Type :=
| Ok (a : A)
| Raise (e : exn).
Arguments Ok {A} a.
Arguments Raise {A} e.

Definition bind {A B} (r : result A) (k : A -> result B) : result B :=
  match r with
  | Ok a => k a
  | Raise e => Raise e
  end.

(** A dynamically typed argument: the simulator hands a severity string
    to a method that compares its argument with an integer. *)
Inductive val : Type :=
| Int (n : Z)
| Str (s : string).

(** [v <= n] for an [int] literal [n]: ordering a [str] against an
    [int] raises [TypeError]. *)
Definition le_int (v : val) (n : Z) : result bool :=
  match v with
  | Int m => Ok (m <=? n)
  | Str _ => Raise TypeError
  end.

(** [float(z)]; exact for [|z| < 2^53] and rounded to nearest below
    [2^63].  The conversion goes through the 63-bit integers, so it is not
    meant for larger numbers, and it never raises [OverflowError]. *)
Definition float_of_Z (z : Z) : float :=
  match z with
  | Z0 => 0%float
  | Zpos _ => PrimFloat.of_uint63 (Uint63.of_Z z)
  | Zneg p => (- PrimFloat.of_uint63 (Uint63.of_Z (Zpos p)))%float
  end.

(** [max(a, b)] and [min(a, b)] keep their first argument unless the
    second is strictly better. *)
Definition max (a b : float) : float := if (a <? b)%float then b else a.
Definition min (a b : float) : float := if (b <? a)%float then b else a.

(** [round(x, 1)]: the multiple of [0.1] nearest to the exact value of
    [x], ties to the even multiple, then the binary64 nearest to that
    decimal.  A float whose exponent is not negative is an integer and is
    returned as it is. *)
Definition round_half_even (n d : Z) : Z :=
  let q := n / d in
  match 2 * (n mod d) ?= d with
  | Lt => q
  | Gt => q + 1
  | Eq => if Z.even q then q else q + 1
  end.

Definition round1 (x : float) : float :=
  match Prim2SF x with
  | S754_finite s m e =>
      if 0 <=? e then x
      else
        let q := round_half_even (10 * Zpos m) (2 ^ (- e)) in
        let r := (float_of_Z q / 10)%float in
        if s then (- r)%float else r
  | _ => x
  end.

(** [max(xs, key=key)]: the first element whose key no later element
    exceeds; [None] stands for the empty-sequence case the callers guard. *)
Definition max_by {A} (key : A -> float) (xs : list A) : option A :=
  match xs with
  | [] => None
  | x :: xs' =>
      Some (foldl (fun best y => if (key best <? key y)%float then y else best) x xs')
  end.

(** [sorted(xs, key=...)] / [list.sort]: stable, driven by [<] on keys. *)
Fixpoint insert_by {A} (lt : A -> A -> bool) (x : A) (l : list A) : list A :=
  match l with
  | [] => [x]
  | y :: l' => if lt x y then x :: y :: l' else y :: insert_by lt x l'
  end.

Definition sorted {A} (lt : A -> A -> bool) (l : list A) : list A :=
  foldl (fun acc x => insert_by lt x acc) [] l.

(** Truth value of a list: [not l]. *)
Definition is_empty {A} (l : list A) : bool :=
  match l with
  | [] => true
  | _ :: _ => false
  end.

(** [l.remove(x)]: drops the first element equal to [x]. *)
Fixpoint remove {A} (eqb : A -> A -> bool) (x : A) (l : list A) : list A :=
  match l with
  | [] => []
  | y :: l' => if eqb y x then l' else y :: remove eqb x l'
  end.

End Py.

(** ** Insertion-ordered dictionaries with string keys *)

Section odict.
Context {V : Type}.

Definition odict : Type := list (string * V).

Fixpoint od_get (k : string) (d : odict) : option V :=
  match d with
  | [] => None
  | (k', v) :: d' => if String.eqb k' k then Some v else od_get k d'
  end.

(** [d[k] = v]: an existing key keeps its position. *)
Fixpoint od_set (k : string) (v : V) (d : odict) : odict :=
  match d with
  | [] => [(k, v)]
  | (k', v') :: d' =>
      if String.eqb k' k then (k', v) :: d' else (k', v') :: od_set k v d'
  end.

(** In-place update of the value stored under [k]. *)
Fixpoint od_alter (f : V -> V) (k : string) (d : odict) : odict :=
  match d with
  | [] => []
  | (k', v) :: d' =>
      if String.eqb k' k then (k', f v) :: d' else (k', v) :: od_alter f k d'
  end.

Definition od_keys (d : odict) : list string := map fst d.
Definition od_values (d : odict) : list V := map snd d.

(** The loop [for a in l: d[key(a)] = val(a)]. *)
Definition od_fill {A} (key : A -> string) (val : A -> V) (d : odict) (l : list A)
    : odict :=
  foldl (fun d a => od_set (key a) (val a) d) d l.
End odict.
Arguments odict V : clear implicits.

(** ** Messages exchanged on a tick *)

Definition loc : Type := float * float.

(** The fallback location [(50, 50)] of the [.get] calls. *)
Definition default_location : loc := (50%float, 50%float).

(** A casualty as [DataGenerator] builds it. *)
Record patient : Type := {
  p_id : string;
  p_severity : string;
  p_location : loc;
  p_status : string;
  p_assigned_hospital : option string;
}.

(** One entry of a hospital's ["requests"] list. *)
Record request : Type := {
  rq_resource : string;
  rq_quantity : Z;
  rq_urgency : string;
}.

(** [HospitalAgent.generate_message], with the ["location"] and ["name"]
    that the simulator adds; ["offers"] is read by nobody and left out. *)
Record hospital_msg : Type := {
  hm_agent_id : string;
  hm_name : string;
  hm_location : loc;
  hm_available_beds : Z;
  hm_icu_available : Z;
  hm_oxygen_units : float;
  hm_oxygen_hours_remaining : float;
  hm_requests : list request;
  hm_priority_score : float;
}.

(** [AmbulanceAgent.generate_message]: no ["location"] key is set by the
    agent, so the field is optional. *)
Record ambulance_msg : Type := {
  am_agent_id : string;
  am_available_slots : Z;
  am_fuel_level : float;
  am_location : option loc;
}.

(** [SupplyAgent.generate_message]: the inventory is a copy of the depot's. *)
Record supply_msg : Type := {
  sm_inventory : gmap string Z;
  sm_vehicles_available : Z;
}.


(** ** negotiation/negotiation_engine.py *)

Module NegotiationEngine.

(** The local [hospital_capacity] entry built for each hospital: the
    tentative bed and ICU counters of the round. *)
Record h_data : Type := {
  beds : Z;
  icu : Z;
  hd_location : loc;
  hd_priority_score : float;
  hd_name : string;
}.

(** A candidate of [_find_best_hospital].  The ["reason"] text is formatted
    from [distance] and [capacity], which are kept instead. *)
Record candidate : Type := {
  c_id : string;
  c_name : string;
  c_score : float;
  c_distance : float;
  c_capacity : Z;
}.

(** An entry of ["patient_assignments"]. *)
Record assignment : Type := {
  patient_id : string;
  patient_severity : string;
  patient_location : loc;
  assigned_hospital : string;
  hospital_name : string;
  score : float;
  reason : float * Z;
}.

(** An entry of ["supply_allocations"]. *)
Record allocation : Type := {
  al_hospital_id : string;
  al_hospital_name : string;
  al_resource : string;
  al_quantity : Z;
  al_urgency : string;
}.

(** An entry of ["ambulance_assignments"]. *)
Record amb_assignment : Type := {
  aa_ambulance_id : string;
  aa_patient_id : string;
  aa_hospital_id : string;
  aa_pickup_location : loc;
  aa_hospital_location : loc;
  aa_eta_minutes : float;
}.

(** An entry of ["decisions_explained"]: the kind and the decision the
    sentence is formatted from. *)
Inductive explanation : Type :=
| ExplainPatient (pa : assignment)
| ExplainSupply (sa : allocation)
| ExplainAmbulance (aa : amb_assignment).

Record round_result : Type := {
  round : Z;
  patient_assignments : list assignment;
  supply_allocations : list allocation;
  ambulance_assignments : list amb_assignment;
  decisions_explained : list explanation;
}.

(** [severity_order.get(s, 2)] and [urgency_order.get(s, 2)]. *)
Definition severity_order (s : string) : Z :=
  if String.eqb s "critical" then 0
  else if String.eqb s "high" then 1
  else if String.eqb s "medium" then 2
  else if String.eqb s "low" then 3
  else 2.

Definition urgency_order : string -> Z := severity_order.

Definition _calculate_distance (loc1 loc2 : loc) : float :=
  let dx := (fst loc2 - fst loc1)%float in
  let dy := (snd loc2 - snd loc1)%float in
  PrimFloat.sqrt (dx * dx + dy * dy)%float.

Definition _calculate_eta (amb_loc patient_loc hospital_loc : loc) : float :=
  let speed := 40%float in
  let d1 := _calculate_distance amb_loc patient_loc in
  let d2 := _calculate_distance patient_loc hospital_loc in
  let total_distance := (d1 + d2)%float in
  let hours := (total_distance / speed)%float in
  (hours * 60)%float.

(** The capacity test at the head of the loop body of
    [_find_best_hospital]: [true] when the hospital is skipped. *)
Definition no_capacity (patient_severity : string) (h : h_data) : bool :=
  if String.eqb patient_severity "critical" then icu h <=? 0 else beds h <=? 0.

Definition score_hospital (patient_loc : loc) (priorities : gmap string float)
    (h_id : string) (h : h_data) : candidate :=
  let distance := _calculate_distance patient_loc (hd_location h) in
  let distance_score := Py.max 0 (1 - distance / 100)%float in
  let capacity_score :=
    Py.min 1 (Py.float_of_Z (beds h + icu h * 2) / 50)%float in
  let priority_mult := default 1%float (priorities !! h_id) in
  let total_score :=
    ((distance_score * 0.4 + capacity_score * 0.4
      + (1 - hd_priority_score h) * 0.2) * priority_mult)%float in
  {| c_id := h_id; c_name := hd_name h; c_score := total_score;
     c_distance := distance; c_capacity := beds h |}.

Definition candidates_of (p : patient) (hospital_capacity : odict h_data)
    (priorities : gmap string float) : list candidate :=
  omap (fun '(h_id, h) =>
          if no_capacity (p_severity p) h then None
          else Some (score_hospital (p_location p) priorities h_id h))
       hospital_capacity.

Definition _find_best_hospital (p : patient) (hospital_capacity : odict h_data)
    (priorities : gmap string float) : option candidate :=
  Py.max_by c_score (candidates_of p hospital_capacity priorities).

(** The decrement that follows an assignment. *)
Definition take_icu (h : h_data) : h_data :=
  {| beds := beds h; icu := icu h - 1; hd_location := hd_location h;
     hd_priority_score := hd_priority_score h; hd_name := hd_name h |}.

Definition take_bed (h : h_data) : h_data :=
  {| beds := beds h - 1; icu := icu h; hd_location := hd_location h;
     hd_priority_score := hd_priority_score h; hd_name := hd_name h |}.

Definition build_hospital_capacity (hospitals : list hospital_msg) : odict h_data :=
  od_fill hm_agent_id
    (fun h => {| beds := hm_available_beds h; icu := hm_icu_available h;
                 hd_location := hm_location h;
                 hd_priority_score := hm_priority_score h;
                 hd_name := hm_name h |})
    [] hospitals.

(** The [for patient in sorted_patients[:10]] loop, returning the
    assignments together with the final tentative capacity map. *)
Fixpoint assign_loop (patients : list patient) (hospital_capacity : odict h_data)
    (priorities : gmap string float) : list assignment * odict h_data :=
  match patients with
  | [] => ([], hospital_capacity)
  | p :: rest =>
      match _find_best_hospital p hospital_capacity priorities with
      | Some best =>
          let a := {| patient_id := p_id p;
                      patient_severity := p_severity p;
                      patient_location := p_location p;
                      assigned_hospital := c_id best;
                      hospital_name := c_name best;
                      score := c_score best;
                      reason := (c_distance best, c_capacity best) |} in
          let hospital_capacity' :=
            if String.eqb (p_severity p) "critical"
            then od_alter take_icu (c_id best) hospital_capacity
            else od_alter take_bed (c_id best) hospital_capacity in
          let '(assignments, final) := assign_loop rest hospital_capacity' priorities in
          (a :: assignments, final)
      | None => assign_loop rest hospital_capacity priorities
      end
  end.

Definition sorted_patients (patients : list patient) : list patient :=
  Py.sorted (fun p q => severity_order (p_severity p) <? severity_order (p_severity q))
            patients.

Definition _assign_patients_to_hospitals (patients : list patient)
    (hospitals : list hospital_msg) (ambulances : list ambulance_msg)
    (priorities : gmap string float) : list assignment :=
  fst (assign_loop (take 10 (sorted_patients patients))
                   (build_hospital_capacity hospitals) priorities).

(** A request tagged with its hospital, as collected by
    [_allocate_supplies]. *)
Record tagged_request : Type := {
  tr_request : request;
  tr_hospital_id : string;
  tr_hospital_name : string;
  tr_hospital_priority : float;
}.

Definition collect_requests (hospitals : list hospital_msg) : list tagged_request :=
  flat_map (fun h =>
              map (fun req =>
                     {| tr_request := req;
                        tr_hospital_id := hm_agent_id h;
                        tr_hospital_name := hm_name h;
                        tr_hospital_priority := hm_priority_score h |})
                  (hm_requests h))
           hospitals.

(** The sort key [(urgency_order[...], -hospital_priority)] and the tuple
    comparison [key r1 < key r2]. *)
Definition request_key (r : tagged_request) : Z * float :=
  (urgency_order (rq_urgency (tr_request r)), (- tr_hospital_priority r)%float).

Definition key_lt (k1 k2 : Z * float) : bool :=
  if fst k1 =? fst k2
  then (if (snd k1 =? snd k2)%float then false else (snd k1 <? snd k2)%float)
  else fst k1 <? fst k2.

Definition sorted_requests (hospitals : list hospital_msg) : list tagged_request :=
  Py.sorted (fun r1 r2 => key_lt (request_key r1) (request_key r2))
            (collect_requests hospitals).

(** The [for req in all_requests[:5]] loop over the tentative inventory
    [available]; the final inventory is returned next to the grants. *)
Fixpoint allocate_loop (requests : list tagged_request) (available : gmap string Z)
    : list allocation * gmap string Z :=
  match requests with
  | [] => ([], available)
  | req :: rest =>
      let resource := rq_resource (tr_request req) in
      if String.eqb resource "ambulance_diversion"
      then allocate_loop rest available
      else
        let quantity := rq_quantity (tr_request req) in
        let available_qty := default 0 (available !! resource) in
        if 0 <? available_qty
        then
          let allocated := Z.min quantity available_qty in
          let available' := <[resource := available_qty - allocated]> available in
          let '(allocations, final) := allocate_loop rest available' in
          ({| al_hospital_id := tr_hospital_id req;
              al_hospital_name := tr_hospital_name req;
              al_resource := resource;
              al_quantity := allocated;
              al_urgency := rq_urgency (tr_request req) |} :: allocations, final)
        else allocate_loop rest available
  end.

Definition _allocate_supplies (hospitals : list hospital_msg) (supply : supply_msg)
    (priorities : gmap string float) : list allocation :=
  fst (allocate_loop (take 5 (sorted_requests hospitals)) (sm_inventory supply)).

(** Equality of ambulance messages, for [list.remove]. *)
Definition loc_eqb (a b : loc) : bool :=
  PrimFloat.Leibniz.eqb (fst a) (fst b) && PrimFloat.Leibniz.eqb (snd a) (snd b).

Definition ambulance_msg_eqb (a b : ambulance_msg) : bool :=
  String.eqb (am_agent_id a) (am_agent_id b)
  && (am_available_slots a =? am_available_slots b)
  && PrimFloat.Leibniz.eqb (am_fuel_level a) (am_fuel_level b)
  && match am_location a, am_location b with
     | Some x, Some y => loc_eqb x y
     | None, None => true
     | _, _ => false
     end.

Definition amb_eta (patient_loc hospital_loc : loc) (amb : ambulance_msg) : float :=
  _calculate_eta (default default_location (am_location amb)) patient_loc hospital_loc.

(** The inner [for amb in available_ambulances] scan, started at
    [best_amb = None], [best_eta = inf]. *)
Definition nearest_step (patient_loc hospital_loc : loc)
    (best : option ambulance_msg * float) (amb : ambulance_msg)
    : option ambulance_msg * float :=
  let eta := amb_eta patient_loc hospital_loc amb in
  if (eta <? snd best)%float then (Some amb, eta) else best.

Definition nearest (patient_loc hospital_loc : loc)
    (available_ambulances : list ambulance_msg) : option ambulance_msg * float :=
  foldl (nearest_step patient_loc hospital_loc) (None, infinity) available_ambulances.

Definition hospital_locations (hospitals : list hospital_msg) : odict loc :=
  od_fill hm_agent_id hm_location [] hospitals.

(** The [for assignment in patient_assignments] loop; an empty pool
    breaks out of it. *)
Fixpoint dispatch_loop (assignments : list assignment)
    (available_ambulances : list ambulance_msg) (locations : odict loc)
    : list amb_assignment :=
  match assignments with
  | [] => []
  | a :: rest =>
      match available_ambulances with
      | [] => []
      | _ :: _ =>
          let patient_loc := patient_location a in
          let hospital_id := assigned_hospital a in
          let hospital_loc := default default_location (od_get hospital_id locations) in
          match nearest patient_loc hospital_loc available_ambulances with
          | (Some best_amb, best_eta) =>
              {| aa_ambulance_id := am_agent_id best_amb;
                 aa_patient_id := patient_id a;
                 aa_hospital_id := hospital_id;
                 aa_pickup_location := patient_loc;
                 aa_hospital_location := hospital_loc;
                 aa_eta_minutes := Py.round1 best_eta |}
              :: dispatch_loop rest
                   (Py.remove ambulance_msg_eqb best_amb available_ambulances)
                   locations
          | (None, _) => dispatch_loop rest available_ambulances locations
          end
      end
  end.

(** The pool the round starts from: the engine keeps every unit that
    reports a free slot. *)
Definition available_pool (ambulances : list ambulance_msg) : list ambulance_msg :=
  List.filter (fun a => 0 <? am_available_slots a) ambulances.

Definition _assign_ambulances (assignments : list assignment)
    (ambulances : list ambulance_msg) (hospitals : list hospital_msg)
    : list amb_assignment :=
  dispatch_loop assignments (available_pool ambulances) (hospital_locations hospitals).

Definition _generate_explanations (r : round_result) : list explanation :=
  map ExplainPatient (patient_assignments r)
  ++ map ExplainSupply (supply_allocations r)
  ++ map ExplainAmbulance (ambulance_assignments r).

(** The engine object: [current_round] and the log of rounds. *)
Record t : Type := {
  current_round : Z;
  negotiation_rounds : list round_result;
}.

Definition init : t := {| current_round := 0; negotiation_rounds := [] |}.

Definition reset (e : t) : t := init.

Definition run_negotiation (e : t) (hospital_messages : list hospital_msg)
    (ambulance_messages : list ambulance_msg) (supply_message : supply_msg)
    (government_priorities : gmap string float) (waiting_patients : list patient)
    : round_result * t :=
  let current := current_round e + 1 in
  let pas := _assign_patients_to_hospitals waiting_patients hospital_messages
               ambulance_messages government_priorities in
  let sas := _allocate_supplies hospital_messages supply_message government_priorities in
  let aas := _assign_ambulances pas ambulance_messages hospital_messages in
  let partial := {| round := current; patient_assignments := pas;
                    supply_allocations := sas; ambulance_assignments := aas;
                    decisions_explained := [] |} in
  let round_result :=
    {| round := current; patient_assignments := pas;
       supply_allocations := sas; ambulance_assignments := aas;
       decisions_explained := _generate_explanations partial |} in
  (round_result,
   {| current_round := current;
      negotiation_rounds := negotiation_rounds e ++ [round_result] |}).

End NegotiationEngine.

(** ** Snapshots returned by the agents' [get_state]

    Only the keys that the modelled code reads are kept; the remaining
    keys are display values for the dashboard. *)

Record hospital_state : Type := {
  hs_id : string;
  hs_total_beds : Z;
  hs_available_beds : Z;
  hs_icu_beds : Z;
  hs_icu_available : Z;
  hs_oxygen_units : float;
  hs_is_overloaded : bool;
  hs_is_critical : bool;
  hs_requires_diversion : bool;
}.

Record ambulance_state : Type := {
  as_id : string;
  as_capacity : Z;
  as_current_load : Z;
  as_fuel : float;
  as_status : string;
  as_available : bool;
}.

Record supply_state : Type := {
  ss_inventory : gmap string Z;
  ss_vehicles_available : Z;
}.

(** ** optimization/constraints.py *)

Module ConstraintChecker.

Import NegotiationEngine.

(** A rejected proposal: the allocation with its ["rejection_reason"]. *)
Record rejected_allocation : Type := {
  rj_allocation : assignment;
  rejection_reason : string;
}.

(** The loop of [filter_valid_allocations], threading the two running
    counters [remaining_beds] and [remaining_icu]. *)
Fixpoint filter_loop (proposed : list assignment)
    (remaining_beds remaining_icu : gmap string Z)
    : list assignment * list rejected_allocation :=
  match proposed with
  | [] => ([], [])
  | allocation :: rest =>
      let hospital_id := assigned_hospital allocation in
      let severity := patient_severity allocation in
      if String.eqb severity "critical"
      then
        if 0 <? default 0 (remaining_icu !! hospital_id)
        then
          let remaining_icu' := alter (fun n => n - 1) hospital_id remaining_icu in
          let '(valid, rejected) := filter_loop rest remaining_beds remaining_icu' in
          (allocation :: valid, rejected)
        else
          let '(valid, rejected) := filter_loop rest remaining_beds remaining_icu in
          (valid, {| rj_allocation := allocation;
                     rejection_reason := "No ICU capacity" |} :: rejected)
      else
        if 0 <? default 0 (remaining_beds !! hospital_id)
        then
          let remaining_beds' := alter (fun n => n - 1) hospital_id remaining_beds in
          let '(valid, rejected) := filter_loop rest remaining_beds' remaining_icu in
          (allocation :: valid, rejected)
        else
          let '(valid, rejected) := filter_loop rest remaining_beds remaining_icu in
          (valid, {| rj_allocation := allocation;
                     rejection_reason := "No bed capacity" |} :: rejected)
  end.

Definition filter_valid_allocations (proposed : list assignment)
    (hospitals : gmap string hospital_state) (ambulances : gmap string ambulance_state)
    : list assignment * list rejected_allocation :=
  let remaining_beds := hs_available_beds <$> hospitals in
  let remaining_icu := hs_icu_available <$> hospitals in
  filter_loop proposed remaining_beds remaining_icu.

End ConstraintChecker.

(** ** utils/failure_handler.py *)

Module FailureHandler.

Inductive FailureType : Type :=
| NO_BEDS_ANYWHERE
| OXYGEN_EXHAUSTED
| NO_AMBULANCES
| SUPPLY_DEPLETED
| COMMUNICATION_FAILURE
| SYSTEM_OVERLOAD.

#[global] Instance FailureType_eq_dec : EqDecision FailureType.
Proof. solve_decision. Defined.

(** A detected condition; ["affected"] is present for two of the types. *)
Record failure : Type := {
  f_type : FailureType;
  f_severity : string;
  f_details : string;
  f_affected : option (list string);
}.

Record protocol : Type := {
  pr_name : string;
  pr_actions : list string;
  pr_severity : string;
}.

Definition _init_protocols (ft : FailureType) : protocol :=
  match ft with
  | NO_BEDS_ANYWHERE =>
      {| pr_name := "Emergency Bed Expansion Protocol";
         pr_actions := ["Activate overflow capacity at all hospitals";
                        "Request field hospital deployment";
                        "Prioritize critical patients only";
                        "Implement triage protocols"];
         pr_severity := "critical" |}
  | OXYGEN_EXHAUSTED =>
      {| pr_name := "Oxygen Emergency Protocol";
         pr_actions := ["Redistribute from lower-priority facilities";
                        "Emergency airlift request";
                        "Implement oxygen rationing";
                        "Prioritize ICU patients"];
         pr_severity := "critical" |}
  | NO_AMBULANCES =>
      {| pr_name := "Transport Emergency Protocol";
         pr_actions := ["Activate reserve vehicles";
                        "Request military/police transport";
                        "Establish triage collection points";
                        "Priority-based patient staging"];
         pr_severity := "high" |}
  | SUPPLY_DEPLETED =>
      {| pr_name := "Supply Chain Emergency Protocol";
         pr_actions := ["Emergency procurement activated";
                        "Regional supply sharing initiated";
                        "Non-essential deliveries suspended";
                        "Rationing protocols in effect"];
         pr_severity := "high" |}
  | COMMUNICATION_FAILURE =>
      {| pr_name := "Communication Backup Protocol";
         pr_actions := ["Switch to backup channels";
                        "Activate radio networks";
                        "Deploy communication officers";
                        "Implement local decision authority"];
         pr_severity := "medium" |}
  | SYSTEM_OVERLOAD =>
      {| pr_name := "System Overload Protocol";
         pr_actions := ["Reduce update frequency";
                        "Prioritize critical operations";
                        "Queue non-urgent requests";
                        "Scale processing capacity"];
         pr_severity := "medium" |}
  end.

(** An entry of [active_failures]: the failure with [handled_at] and the
    protocol name; [resolved_at] is added when it moves to the history. *)
Record active_failure : Type := {
  af_failure : failure;
  af_handled_at : string;
  af_protocol : string;
  af_resolved_at : option string;
}.

(** The response returned for a newly handled failure: an alert of the
    step report. *)
Record response : Type := {
  r_failure : failure;
  r_protocol : string;
  r_actions_taken : list string;
  r_timestamp : string;
  r_status : string;
}.

Record t : Type := {
  active_failures : list active_failure;
  failure_history : list active_failure;
}.

Definition init : t := {| active_failures := []; failure_history := [] |}.

Definition sum_Z (l : list Z) : Z := foldl Z.add 0 l.

Definition detect_no_beds (hospitals : odict hospital_state) : list failure :=
  let total_beds := sum_Z (map hs_available_beds (od_values hospitals)) in
  let total_icu := sum_Z (map hs_icu_available (od_values hospitals)) in
  if (total_beds =? 0) && (total_icu =? 0)
  then [ {| f_type := NO_BEDS_ANYWHERE; f_severity := "critical";
            f_details := "All hospitals at maximum capacity";
            f_affected := None |} ]
  else [].

Definition detect_oxygen (hospitals : odict hospital_state) : list failure :=
  let hospitals_without_oxygen :=
    map fst (List.filter (fun '(_, h) => (hs_oxygen_units h <=? 5)%float) hospitals) in
  if (Py.float_of_Z (Z.of_nat (length hospitals)) * 0.5
      <=? Py.float_of_Z (Z.of_nat (length hospitals_without_oxygen)))%float
  then [ {| f_type := OXYGEN_EXHAUSTED; f_severity := "critical";
            f_details := pretty (Z.of_nat (length hospitals_without_oxygen))
                         +:+ " hospitals critically low on oxygen";
            f_affected := Some hospitals_without_oxygen |} ]
  else [].

(** The predicate behind [NO_AMBULANCES]: no unit is both available and
    fuelled above 15 percent. *)
Definition available_ambulances (ambulances : odict ambulance_state) : list string :=
  map fst (List.filter (fun '(_, a) => as_available a && (15 <? as_fuel a)%float)
                       ambulances).

Definition detect_no_ambulances (ambulances : odict ambulance_state) : list failure :=
  if Nat.eqb (length (available_ambulances ambulances)) 0
  then [ {| f_type := NO_AMBULANCES; f_severity := "high";
            f_details := "No ambulances available for dispatch";
            f_affected := None |} ]
  else [].

Definition join_comma (l : list string) : string :=
  match l with
  | [] => EmptyString
  | s :: l' => foldl (fun acc x => acc +:+ ", " +:+ x) s l'
  end.

Definition detect_supply (supply : supply_state) : list failure :=
  let inventory := ss_inventory supply in
  let critical_supplies := ["oxygen"; "medicine"] in
  let depleted :=
    List.filter (fun s => default 0 (inventory !! s) <=? 10) critical_supplies in
  match depleted with
  | [] => []
  | _ :: _ =>
      [ {| f_type := SUPPLY_DEPLETED; f_severity := "high";
           f_details := "Critical supplies depleted: " +:+ join_comma depleted;
           f_affected := Some depleted |} ]
  end.

Definition detect_failures (hospitals : odict hospital_state)
    (ambulances : odict ambulance_state) (supply : supply_state) : list failure :=
  detect_no_beds hospitals ++ detect_oxygen hospitals
  ++ detect_no_ambulances ambulances ++ detect_supply supply.

(** [handle_failure]: two readings of the clock, one for the response and
    one for the entry of [active_failures]. *)
Definition handle_failure (self : t) (now1 now2 : string) (f : failure) : response * t :=
  let protocol := _init_protocols (f_type f) in
  ({| r_failure := f;
      r_protocol := pr_name protocol;
      r_actions_taken := pr_actions protocol;
      r_timestamp := now1;
      r_status := "activated" |},
   {| active_failures :=
        active_failures self
        ++ [ {| af_failure := f; af_handled_at := now2;
                af_protocol := pr_name protocol; af_resolved_at := None |} ];
      failure_history := failure_history self |}).

Definition already_active (self : t) (f : failure) : bool :=
  existsb (fun a => bool_decide (f_type (af_failure a) = f_type f)) (active_failures self).

(** The loop of [check_and_handle_failures] over the detected failures;
    [clock] is the wall clock and [n] the number of readings made so far. *)
Fixpoint handle_all (self : t) (clock : nat -> string) (n : nat) (failures : list failure)
    : list response * t * nat :=
  match failures with
  | [] => ([], self, n)
  | f :: rest =>
      if already_active self f
      then handle_all self clock n rest
      else
        let '(response, self') := handle_failure self (clock n) (clock (S n)) f in
        let '(responses, self'', n') := handle_all self' clock (S (S n)) rest in
        (response :: responses, self'', n')
  end.

Definition check_and_handle_failures (self : t) (clock : nat -> string) (n : nat)
    (hospitals : odict hospital_state) (ambulances : odict ambulance_state)
    (supply : supply_state) : list response * t * nat :=
  handle_all self clock n (detect_failures hospitals ambulances supply).

(** [resolve_failure]: the first active entry of the type moves to the
    history, stamped with [now]. *)
Fixpoint resolve_in (ft : FailureType) (now : string) (l : list active_failure)
    : option (active_failure * list active_failure) :=
  match l with
  | [] => None
  | a :: l' =>
      if bool_decide (f_type (af_failure a) = ft)
      then Some ({| af_failure := af_failure a; af_handled_at := af_handled_at a;
                    af_protocol := af_protocol a; af_resolved_at := Some now |}, l')
      else
        match resolve_in ft now l' with
        | Some (r, l'') => Some (r, a :: l'')
        | None => None
        end
  end.

Definition resolve_failure (self : t) (now : string) (ft : FailureType) : bool * t :=
  match resolve_in ft now (active_failures self) with
  | Some (r, rest) =>
      (true, {| active_failures := rest;
                failure_history := failure_history self ++ [r] |})
  | None => (false, self)
  end.

End FailureHandler.

(** ** config/constants.py *)

Module Constants.

Definition ESI_LEVELS_name (esi : Z) : option string :=
  match esi with
  | 1 => Some "Resuscitation"
  | 2 => Some "Emergent"
  | 3 => Some "Urgent"
  | 4 => Some "Less Urgent"
  | 5 => Some "Non-Urgent"
  | _ => None
  end.

(** Legacy severity mapping. *)
Definition SEVERITY_TO_ESI (severity : string) : option Z :=
  if String.eqb severity "critical" then Some 1
  else if String.eqb severity "high" then Some 2
  else if String.eqb severity "medium" then Some 3
  else if String.eqb severity "low" then Some 4
  else if String.eqb severity "minor" then Some 5
  else None.

Definition HOSPITAL_OVERLOAD_THRESHOLD : float := 0.85.
Definition HOSPITAL_CRITICAL_THRESHOLD : float := 0.95.
Definition HOSPITAL_DIVERSION_THRESHOLD : float := 0.98.
Definition ICU_CRITICAL_THRESHOLD : float := 0.90.

Definition OXYGEN_CONSUMPTION_LPM (esi : Z) : option float :=
  match esi with
  | 1 => Some 15%float
  | 2 => Some 8%float
  | 3 => Some 4%float
  | 4 => Some 2%float
  | 5 => Some 0%float
  | _ => None
  end.

Definition OXYGEN_RESERVE_CRITICAL_HOURS : float := 4.
Definition OXYGEN_RESERVE_WARNING_HOURS : float := 8.
Definition AMBULANCE_CAPACITY : Z := 2.
Definition AMBULANCE_SPEED : float := 40.
Definition FUEL_CRITICAL_LEVEL : float := 0.15.
Definition DELIVERY_BASE_TIME : float := 30.
Definition NURSE_PATIENT_RATIO_ICU : float := 2.

End Constants.

(** ** agents/hospital_agent.py *)

Module HospitalAgent.

Import Constants.

(** An entry of [patients_admitted]. *)
Record patient_record : Type := {
  pr_id : string;
  esi_level : Z;
  admitted_at : string;
  triage_category : string;
  pr_unit : string;
}.

Record t : Type := {
  agent_id : string;
  name : string;
  location : loc;
  total_beds : Z;
  available_beds : Z;
  icu_beds : Z;
  icu_available : Z;
  oxygen_units : float;
  doctors_on_duty : Z;
  patient_inflow_rate : float;
  nurses_on_duty : Z;
  patients_admitted : list patient_record;
  incoming_ambulances : list string;
}.

(** [__init__]: the fields are stored as given, without any check;
    [nurses_on_duty or (doctors_on_duty * 3)] falls back on the estimate
    for [None] and for [0]. *)
Definition __init__ (agent_id name : string) (location : loc)
    (total_beds available_beds icu_beds icu_available oxygen_units doctors_on_duty : Z)
    (patient_inflow_rate : float) (nurses_on_duty : option Z) : t :=
  {| agent_id := agent_id;
     name := name;
     location := location;
     total_beds := total_beds;
     available_beds := available_beds;
     icu_beds := icu_beds;
     icu_available := icu_available;
     oxygen_units := Py.float_of_Z oxygen_units;
     doctors_on_duty := doctors_on_duty;
     patient_inflow_rate := patient_inflow_rate;
     nurses_on_duty :=
       match nurses_on_duty with
       | Some n => if n =? 0 then doctors_on_duty * 3 else n
       | None => doctors_on_duty * 3
       end;
     patients_admitted := [];
     incoming_ambulances := [] |}.

Definition bed_utilization (self : t) : float :=
  (1 - Py.float_of_Z (available_beds self) / Py.float_of_Z (Z.max (total_beds self) 1))%float.

Definition icu_utilization (self : t) : float :=
  (1 - Py.float_of_Z (icu_available self) / Py.float_of_Z (Z.max (icu_beds self) 1))%float.

Definition icu_patients (self : t) : Z := icu_beds self - icu_available self.

Definition current_oxygen_consumption_lpm (self : t) : float :=
  let total_lpm :=
    foldl (fun total p =>
             (total + default 4%float (OXYGEN_CONSUMPTION_LPM (esi_level p)))%float)
          0%float (patients_admitted self) in
  (total_lpm + Py.float_of_Z (icu_patients self) * 15)%float.

Definition oxygen_hours_remaining (self : t) : float :=
  let consumption_lpm := current_oxygen_consumption_lpm self in
  if (consumption_lpm <=? 0)%float then 999%float
  else (oxygen_units self / (consumption_lpm * 60))%float.

Definition oxygen_status (self : t) : string :=
  let hours := oxygen_hours_remaining self in
  if (hours <=? OXYGEN_RESERVE_CRITICAL_HOURS)%float then "critical"
  else if (hours <=? OXYGEN_RESERVE_WARNING_HOURS)%float then "warning"
  else "adequate".

Definition nurse_patient_ratio (self : t) : float :=
  if icu_patients self =? 0 then infinity
  else
    let icu_nurses := (Py.float_of_Z (nurses_on_duty self) * 0.4)%float in
    (icu_nurses / Py.float_of_Z (icu_patients self))%float.

Definition staffing_adequate (self : t) : bool :=
  (1 / NURSE_PATIENT_RATIO_ICU <=? nurse_patient_ratio self)%float.

Definition is_overloaded (self : t) : bool :=
  (HOSPITAL_OVERLOAD_THRESHOLD <=? bed_utilization self)%float.

Definition is_critical (self : t) : bool :=
  (HOSPITAL_CRITICAL_THRESHOLD <=? bed_utilization self)%float
  || (ICU_CRITICAL_THRESHOLD <=? icu_utilization self)%float
  || String.eqb (oxygen_status self) "critical".

Definition requires_diversion (self : t) : bool :=
  (HOSPITAL_DIVERSION_THRESHOLD <=? bed_utilization self)%float
  || (icu_available self =? 0)
  || (oxygen_hours_remaining self <=? 2)%float.

Definition get_state (self : t) : hospital_state :=
  {| hs_id := agent_id self;
     hs_total_beds := total_beds self;
     hs_available_beds := available_beds self;
     hs_icu_beds := icu_beds self;
     hs_icu_available := icu_available self;
     hs_oxygen_units := oxygen_units self;
     hs_is_overloaded := is_overloaded self;
     hs_is_critical := is_critical self;
     hs_requires_diversion := requires_diversion self |}.

(** [_generate_requests].  The text of the nursing request divides by
    [nurse_patient_ratio], which raises [ZeroDivisionError] when no nurse
    is on duty. *)
Definition _generate_requests (self : t) : Py.result (list request) :=
  let oxygen :=
    if negb (String.eqb (oxygen_status self) "adequate")
    then
      let hours := oxygen_hours_remaining self in
      let urgency :=
        if (hours <=? OXYGEN_RESERVE_CRITICAL_HOURS)%float then "critical" else "high" in
      [ {| rq_resource := "oxygen"; rq_quantity := 100; rq_urgency := urgency |} ]
    else [] in
  let diversion :=
    if requires_diversion self
    then [ {| rq_resource := "patient_diversion"; rq_quantity := 1;
              rq_urgency := "critical" |} ]
    else if is_overloaded self
    then [ {| rq_resource := "surge_support"; rq_quantity := 1;
              rq_urgency := "high" |} ]
    else [] in
  if negb (staffing_adequate self) && (0 <? icu_patients self)
  then
    if (nurse_patient_ratio self =? 0)%float
    then Py.Raise Py.ZeroDivisionError
    else Py.Ok (oxygen ++ diversion
                ++ [ {| rq_resource := "nursing_staff"; rq_quantity := 2;
                        rq_urgency := "high" |} ])
  else Py.Ok (oxygen ++ diversion).

Definition calculate_priority_score (self : t) : float :=
  let score := 0%float in
  let score := (score + bed_utilization self * 0.25)%float in
  let score := (score + icu_utilization self * 0.30)%float in
  let score :=
    if String.eqb (oxygen_status self) "critical" then (score + 0.30)%float
    else if String.eqb (oxygen_status self) "warning" then (score + 0.15)%float
    else score in
  let score := if negb (staffing_adequate self) then (score + 0.10)%float else score in
  let score := (score + Py.min 0.05 (patient_inflow_rate self * 0.01))%float in
  Py.min 1 score.

(** [generate_message], carrying the ["location"] that the simulator
    copies into it from the same agent. *)
Definition generate_message (self : t) : Py.result hospital_msg :=
  Py.bind (_generate_requests self) (fun requests =>
  Py.Ok {| hm_agent_id := agent_id self;
           hm_name := name self;
           hm_location := location self;
           hm_available_beds := available_beds self;
           hm_icu_available := icu_available self;
           hm_oxygen_units := oxygen_units self;
           hm_oxygen_hours_remaining := oxygen_hours_remaining self;
           hm_requests := requests;
           hm_priority_score := calculate_priority_score self |}).

(** [can_accept_patient]: the argument is whatever the caller passes. *)
Definition can_accept_patient (self : t) (esi_level : Py.val) : Py.result bool :=
  Py.bind (Py.le_int esi_level 2) (fun icu_case =>
  if icu_case
  then Py.Ok ((0 <? icu_available self)
              && (OXYGEN_RESERVE_CRITICAL_HOURS <? oxygen_hours_remaining self)%float
              && negb (requires_diversion self))
  else Py.Ok ((0 <? available_beds self) && negb (requires_diversion self))).

(** [ESI_LEVELS[esi_level]["name"]]. *)
Definition triage_name (esi_level : Py.val) : Py.result (Z * string) :=
  match esi_level with
  | Py.Int n =>
      match ESI_LEVELS_name n with
      | Some s => Py.Ok (n, s)
      | None => Py.Raise Py.KeyError
      end
  | Py.Str _ => Py.Raise Py.KeyError
  end.

(** [accept_patient]; [now] is the reading stored as [admitted_at].  A
    raised exception leaves the agent as it was. *)
Definition accept_patient (self : t) (patient_id : string) (esi_level : Py.val)
    (now : string) : Py.result bool * t :=
  match can_accept_patient self esi_level with
  | Py.Raise e => (Py.Raise e, self)
  | Py.Ok false => (Py.Ok false, self)
  | Py.Ok true =>
      match triage_name esi_level with
      | Py.Raise e => (Py.Raise e, self)
      | Py.Ok (esi, category) =>
          let icu_case := esi <=? 2 in
          let patient_record :=
            {| pr_id := patient_id; esi_level := esi; admitted_at := now;
               triage_category := category;
               pr_unit := if icu_case then "ICU" else "General" |} in
          (Py.Ok true,
           {| agent_id := agent_id self;
              name := name self;
              location := location self;
              total_beds := total_beds self;
              available_beds :=
                if icu_case then available_beds self else available_beds self - 1;
              icu_beds := icu_beds self;
              icu_available :=
                if icu_case then icu_available self - 1 else icu_available self;
              oxygen_units := oxygen_units self;
              doctors_on_duty := doctors_on_duty self;
              patient_inflow_rate := patient_inflow_rate self;
              nurses_on_duty := nurses_on_duty self;
              patients_admitted := patients_admitted self ++ [patient_record];
              incoming_ambulances := incoming_ambulances self |})
      end
  end.

(** The messages [receive_message] dispatches on. *)
Inductive message : Type :=
| PatientAssignmentMsg (patient_id severity : string) (esi_level : option Z)
| SupplyAllocationMsg (supply_type : string) (quantity : Z)
| PriorityOverrideMsg
| OtherMsg.

(** [message.get("esi_level") or SEVERITY_TO_ESI.get(severity, 3)]. *)
Definition message_esi (severity : string) (esi_level : option Z) : Z :=
  match esi_level with
  | Some n => if n =? 0 then default 3 (SEVERITY_TO_ESI severity) else n
  | None => default 3 (SEVERITY_TO_ESI severity)
  end.

Definition _handle_patient_assignment (self : t) (patient_id severity : string)
    (esi_level : option Z) (now : string) : Py.result unit * t :=
  let esi := Py.Int (message_esi severity esi_level) in
  match can_accept_patient self esi with
  | Py.Raise e => (Py.Raise e, self)
  | Py.Ok true =>
      match accept_patient self patient_id esi now with
      | (Py.Raise e, self') => (Py.Raise e, self')
      | (Py.Ok _, self') => (Py.Ok tt, self')
      end
  | Py.Ok false => (Py.Ok tt, self)
  end.

Definition with_oxygen (self : t) (oxygen : float) : t :=
  {| agent_id := agent_id self; name := name self; location := location self;
     total_beds := total_beds self; available_beds := available_beds self;
     icu_beds := icu_beds self; icu_available := icu_available self;
     oxygen_units := oxygen;
     doctors_on_duty := doctors_on_duty self;
     patient_inflow_rate := patient_inflow_rate self;
     nurses_on_duty := nurses_on_duty self;
     patients_admitted := patients_admitted self;
     incoming_ambulances := incoming_ambulances self |}.

(** [_handle_supply_allocation]: only oxygen is booked. *)
Definition _handle_supply_allocation (self : t) (supply_type : string) (quantity : Z) : t :=
  if String.eqb supply_type "oxygen"
  then with_oxygen self (oxygen_units self + Py.float_of_Z quantity)%float
  else self.

Definition receive_message (self : t) (m : message) (now : string) : Py.result unit * t :=
  match m with
  | PatientAssignmentMsg patient_id severity esi_level =>
      _handle_patient_assignment self patient_id severity esi_level now
  | SupplyAllocationMsg supply_type quantity =>
      (Py.Ok tt, _handle_supply_allocation self supply_type quantity)
  | PriorityOverrideMsg => (Py.Ok tt, self)
  | OtherMsg => (Py.Ok tt, self)
  end.

(** [list.pop()]: the last element and the rest. *)
Fixpoint pop_last {A} (l : list A) : option (A * list A) :=
  match l with
  | [] => None
  | x :: l' =>
      match pop_last l' with
      | None => Some (x, [])
      | Some (y, r) => Some (y, x :: r)
      end
  end.

Inductive action : Type :=
| PatientDischarged (patient_id : string) (esi_level : Z).

(** [update]: oxygen consumption for the tick, then on every fifth tick
    one discharge. *)
Definition update (self : t) (tick : Z) : list action * t :=
  let oxygen_consumed := (current_oxygen_consumption_lpm self * 5)%float in
  let self1 := with_oxygen self (Py.max 0 (oxygen_units self - oxygen_consumed)%float) in
  if (tick mod 5 =? 0) && negb (Py.is_empty (patients_admitted self1))
  then
    let sorted :=
      Py.sorted (fun p q => - esi_level p <? - esi_level q) (patients_admitted self1) in
    match pop_last sorted with
    | None => ([], self1)
    | Some (discharged, rest) =>
        let icu_case := String.eqb (pr_unit discharged) "ICU" in
        ([PatientDischarged (pr_id discharged) (esi_level discharged)],
         {| agent_id := agent_id self1;
            name := name self1;
            location := location self1;
            total_beds := total_beds self1;
            available_beds :=
              if icu_case then available_beds self1
              else Z.min (available_beds self1 + 1) (total_beds self1);
            icu_beds := icu_beds self1;
            icu_available :=
              if icu_case then Z.min (icu_available self1 + 1) (icu_beds self1)
              else icu_available self1;
            oxygen_units := oxygen_units self1;
            doctors_on_duty := doctors_on_duty self1;
            patient_inflow_rate := patient_inflow_rate self1;
            nurses_on_duty := nurses_on_duty self1;
            patients_admitted := rest;
            incoming_ambulances := incoming_ambulances self1 |})
    end
  else ([], self1).

End HospitalAgent.

(** ** agents/ambulance_agent.py *)

Module AmbulanceAgent.

Import Constants.

Record t : Type := {
  agent_id : string;
  location : loc;
  capacity : Z;
  current_patients : list patient;
  fuel : float;
  available : bool;
  status : string;
  target_patient : option patient;
  target_hospital : option string;
  destination : option loc;
  eta_minutes : float;
  patients_delivered : Z;
  total_distance : float;
}.

Definition __init__ (agent_id : string) (location : loc) (capacity : Z) (fuel : float)
    (available : bool) : t :=
  {| agent_id := agent_id; location := location; capacity := capacity;
     current_patients := []; fuel := fuel; available := available;
     status := "idle"; target_patient := None; target_hospital := None;
     destination := None; eta_minutes := 0; patients_delivered := 0;
     total_distance := 0 |}.

Definition is_available (self : t) : bool :=
  available self
  && String.eqb (status self) "idle"
  && (Z.of_nat (length (current_patients self)) <? capacity self)
  && (FUEL_CRITICAL_LEVEL <? fuel self)%float.

Definition get_state (self : t) : ambulance_state :=
  {| as_id := agent_id self;
     as_capacity := capacity self;
     as_current_load := Z.of_nat (length (current_patients self));
     as_fuel := Py.round1 (fuel self * 100)%float;
     as_status := status self;
     as_available := is_available self |}.

Definition generate_message (self : t) : ambulance_msg :=
  {| am_agent_id := agent_id self;
     am_available_slots := capacity self - Z.of_nat (length (current_patients self));
     am_fuel_level := fuel self;
     am_location := None |}.

Definition _calculate_distance (from_loc to_loc : loc) : float :=
  let dx := (fst to_loc - fst from_loc)%float in
  let dy := (snd to_loc - snd from_loc)%float in
  PrimFloat.sqrt (dx * dx + dy * dy)%float.

Definition with_motion (self : t) (location : loc) (eta_minutes total_distance : float) : t :=
  {| agent_id := agent_id self; location := location; capacity := capacity self;
     current_patients := current_patients self; fuel := fuel self;
     available := available self; status := status self;
     target_patient := target_patient self; target_hospital := target_hospital self;
     destination := destination self; eta_minutes := eta_minutes;
     patients_delivered := patients_delivered self; total_distance := total_distance |}.

Definition _calculate_eta (self : t) : t :=
  match destination self with
  | Some d =>
      let distance := _calculate_distance (location self) d in
      with_motion self (location self) (distance / AMBULANCE_SPEED * 60)%float
                  (total_distance self)
  | None => self
  end.

Definition with_destination (self : t) (destination : option loc) : t :=
  {| agent_id := agent_id self; location := location self; capacity := capacity self;
     current_patients := current_patients self; fuel := fuel self;
     available := available self; status := status self;
     target_patient := target_patient self; target_hospital := target_hospital self;
     destination := destination; eta_minutes := eta_minutes self;
     patients_delivered := patients_delivered self;
     total_distance := total_distance self |}.

Definition assign_mission (self : t) (p : patient) (hospital_id : string)
    (hospital_location : loc) : t :=
  _calculate_eta
    {| agent_id := agent_id self; location := location self; capacity := capacity self;
       current_patients := current_patients self; fuel := fuel self;
       available := available self; status := "en_route_pickup";
       target_patient := Some p; target_hospital := Some hospital_id;
       destination := Some (p_location p); eta_minutes := eta_minutes self;
       patients_delivered := patients_delivered self;
       total_distance := total_distance self |}.

(** [_move_toward(target, speed_factor=5.0)]. *)
Definition _move_toward (self : t) (target : loc) : bool * t :=
  let speed_factor := 5%float in
  let dx := (fst target - fst (location self))%float in
  let dy := (snd target - snd (location self))%float in
  let distance := PrimFloat.sqrt (dx * dx + dy * dy)%float in
  if (distance <? speed_factor)%float
  then (true, with_motion self target (eta_minutes self) (total_distance self))
  else
    let ratio := (speed_factor / distance)%float in
    let new_x := (fst (location self) + dx * ratio)%float in
    let new_y := (snd (location self) + dy * ratio)%float in
    (false,
     _calculate_eta
       (with_motion self (new_x, new_y) (eta_minutes self)
                    (total_distance self + speed_factor)%float)).

Inductive action : Type :=
| PatientPickedUp (patient_id ambulance_id : string)
| PatientDelivered (patient_id : string) (hospital_id : option string)
                   (ambulance_id : string).

Definition pick_up (self : t) (p : patient) : t :=
  {| agent_id := agent_id self; location := location self; capacity := capacity self;
     current_patients := current_patients self ++ [p]; fuel := fuel self;
     available := available self; status := "en_route_hospital";
     target_patient := target_patient self; target_hospital := target_hospital self;
     destination := destination self; eta_minutes := eta_minutes self;
     patients_delivered := patients_delivered self;
     total_distance := total_distance self |}.

Definition deliver_all (self : t) : t :=
  {| agent_id := agent_id self; location := location self; capacity := capacity self;
     current_patients := []; fuel := fuel self;
     available := available self; status := "idle";
     target_patient := None; target_hospital := None;
     destination := None; eta_minutes := eta_minutes self;
     patients_delivered :=
       patients_delivered self + Z.of_nat (length (current_patients self));
     total_distance := total_distance self |}.

Definition burn_fuel (self : t) : t :=
  if negb (String.eqb (status self) "idle")
  then
    {| agent_id := agent_id self; location := location self; capacity := capacity self;
       current_patients := current_patients self;
       fuel := Py.max 0 (fuel self - 0.02)%float;
       available := available self; status := status self;
       target_patient := target_patient self; target_hospital := target_hospital self;
       destination := destination self; eta_minutes := eta_minutes self;
       patients_delivered := patients_delivered self;
       total_distance := total_distance self |}
  else self.

(** The movement part of [update], before the fuel consumption. *)
Definition move (self : t) : list action * t :=
  match destination self with
  | Some d =>
      if String.eqb (status self) "en_route_pickup"
      then
        let '(arrived, self1) := _move_toward self d in
        if arrived
        then
          match target_patient self1 with
          | Some p => ([PatientPickedUp (p_id p) (agent_id self1)], pick_up self1 p)
          | None => ([], self1)
          end
        else ([], self1)
      else if String.eqb (status self) "en_route_hospital"
      then
        let '(arrived, self1) := _move_toward self d in
        if arrived
        then
          (map (fun p => PatientDelivered (p_id p) (target_hospital self1) (agent_id self1))
               (current_patients self1),
           deliver_all self1)
        else ([], self1)
      else ([], self)
  | None => ([], self)
  end.

Definition update (self : t) (tick : Z) : list action * t :=
  let '(actions, self1) := move self in
  (actions, burn_fuel self1).

End AmbulanceAgent.

(** ** agents/supply_agent.py *)

Module SupplyAgent.

Import Constants.

(** An entry of [pending_requests] as the simulator appends it. *)
Record supply_request : Type := {
  requester_id : string;
  requester_location : loc;
  sr_supply_type : string;
  sr_quantity : Z;
  sr_urgency : string;
}.

(** A delivery; [d_number] is the count that the ["id"] text is formatted
    from. *)
Record delivery : Type := {
  d_number : Z;
  d_supply_type : string;
  d_quantity : Z;
  d_destination_id : string;
  d_destination_location : loc;
  d_eta_minutes : float;
  d_started_at : string;
  d_status : string;
}.

Record t : Type := {
  agent_id : string;
  name : string;
  location : loc;
  inventory : gmap string Z;
  delivery_vehicles : Z;
  vehicles_available : Z;
  active_deliveries : list delivery;
  completed_deliveries : list delivery;
  pending_requests : list supply_request;
}.

Definition __init__ (agent_id name : string) (location : loc)
    (food_units water_units oxygen_units medicine_units delivery_vehicles : Z) : t :=
  {| agent_id := agent_id; name := name; location := location;
     inventory :=
       <["medicine" := medicine_units]>
         (<["oxygen" := oxygen_units]>
            (<["water" := water_units]> (<["food" := food_units]> ∅)));
     delivery_vehicles := delivery_vehicles;
     vehicles_available := delivery_vehicles;
     active_deliveries := [];
     completed_deliveries := [];
     pending_requests := [] |}.

Definition has_available_vehicles (self : t) : bool := 0 <? vehicles_available self.

Definition get_state (self : t) : supply_state :=
  {| ss_inventory := inventory self;
     ss_vehicles_available := vehicles_available self |}.

Definition generate_message (self : t) : supply_msg :=
  {| sm_inventory := inventory self;
     sm_vehicles_available := vehicles_available self |}.

Definition _calculate_distance (from_loc to_loc : loc) : float :=
  let dx := (fst to_loc - fst from_loc)%float in
  let dy := (snd to_loc - snd from_loc)%float in
  PrimFloat.sqrt (dx * dx + dy * dy)%float.

(** [allocate_supply]; [self.inventory[supply_type] -= quantity] raises
    [KeyError] for a kind the depot does not stock. *)
Definition allocate_supply (self : t) (supply_type : string) (quantity : Z)
    (destination_id : string) (destination_location : loc) (now : string)
    : Py.result (option delivery) * t :=
  let available := default 0 (inventory self !! supply_type) in
  if (available <? quantity) || negb (has_available_vehicles self)
  then (Py.Ok None, self)
  else
    match inventory self !! supply_type with
    | None => (Py.Raise Py.KeyError, self)
    | Some stock =>
        let distance := _calculate_distance (location self) destination_location in
        let base_time := (distance / 40 * 60)%float in
        let d := {| d_number := Z.of_nat (length (active_deliveries self));
                    d_supply_type := supply_type;
                    d_quantity := quantity;
                    d_destination_id := destination_id;
                    d_destination_location := destination_location;
                    d_eta_minutes := base_time;
                    d_started_at := now;
                    d_status := "in_transit" |} in
        (Py.Ok (Some d),
         {| agent_id := agent_id self; name := name self; location := location self;
            inventory := <[supply_type := stock - quantity]> (inventory self);
            delivery_vehicles := delivery_vehicles self;
            vehicles_available := vehicles_available self - 1;
            active_deliveries := active_deliveries self ++ [d];
            completed_deliveries := completed_deliveries self;
            pending_requests := pending_requests self |})
    end.

Definition supply_request_eqb (a b : supply_request) : bool :=
  String.eqb (requester_id a) (requester_id b)
  && PrimFloat.Leibniz.eqb (fst (requester_location a)) (fst (requester_location b))
  && PrimFloat.Leibniz.eqb (snd (requester_location a)) (snd (requester_location b))
  && String.eqb (sr_supply_type a) (sr_supply_type b)
  && (sr_quantity a =? sr_quantity b)
  && String.eqb (sr_urgency a) (sr_urgency b).

(** The first loop of [process_pending_requests]: the allocations, the
    processed requests, the agent and the clock index. *)
Fixpoint process_loop (requests : list supply_request) (self : t)
    (clock : nat -> string) (n : nat)
    : Py.result (list delivery * list supply_request) * t * nat :=
  match requests with
  | [] => (Py.Ok ([], []), self, n)
  | request :: rest =>
      if negb (has_available_vehicles self) then (Py.Ok ([], []), self, n)
      else
        let supply_type := sr_supply_type request in
        let quantity :=
          Z.min (sr_quantity request) (default 0 (inventory self !! supply_type)) in
        if 0 <? quantity
        then
          match allocate_supply self supply_type quantity (requester_id request)
                  (requester_location request) (clock n) with
          | (Py.Raise e, self') => (Py.Raise e, self', n)
          | (Py.Ok (Some d), self') =>
              match process_loop rest self' clock (S n) with
              | (Py.Ok (ds, processed), self'', n') =>
                  (Py.Ok (d :: ds, request :: processed), self'', n')
              | other => other
              end
          | (Py.Ok None, self') => process_loop rest self' clock n
          end
        else process_loop rest self clock n
  end.

Definition with_pending (self : t) (pending : list supply_request) : t :=
  {| agent_id := agent_id self; name := name self; location := location self;
     inventory := inventory self;
     delivery_vehicles := delivery_vehicles self;
     vehicles_available := vehicles_available self;
     active_deliveries := active_deliveries self;
     completed_deliveries := completed_deliveries self;
     pending_requests := pending |}.

Definition process_pending_requests (self : t) (clock : nat -> string) (n : nat)
    : Py.result (list delivery) * t * nat :=
  match process_loop (pending_requests self) self clock n with
  | (Py.Ok (allocations, processed), self', n') =>
      (Py.Ok allocations,
       with_pending self'
         (foldl (fun pending req => Py.remove supply_request_eqb req pending)
                (pending_requests self') processed),
       n')
  | (Py.Raise e, self', n') => (Py.Raise e, self', n')
  end.

Inductive action : Type :=
| DeliveryCompleted (number : Z) (destination supply_type : string) (quantity : Z).

Definition advance (d : delivery) : delivery :=
  let eta := Py.max 0 (d_eta_minutes d - 5)%float in
  {| d_number := d_number d; d_supply_type := d_supply_type d;
     d_quantity := d_quantity d; d_destination_id := d_destination_id d;
     d_destination_location := d_destination_location d;
     d_eta_minutes := eta; d_started_at := d_started_at d;
     d_status := if (eta <=? 0)%float then "completed" else d_status d |}.

Definition arrived (d : delivery) : bool := (d_eta_minutes d <=? 0)%float.

(** [update]: every active delivery advances by five minutes; the ones
    that arrive free their vehicle and move to the completed list. *)
Definition update (self : t) (tick : Z) : list action * t :=
  let advanced := map advance (active_deliveries self) in
  let completed := List.filter arrived advanced in
  (map (fun d => DeliveryCompleted (d_number d) (d_destination_id d)
                   (d_supply_type d) (d_quantity d)) completed,
   {| agent_id := agent_id self; name := name self; location := location self;
      inventory := inventory self;
      delivery_vehicles := delivery_vehicles self;
      vehicles_available := vehicles_available self + Z.of_nat (length completed);
      active_deliveries := List.filter (fun d => negb (arrived d)) advanced;
      completed_deliveries := completed_deliveries self ++ completed;
      pending_requests := pending_requests self |}).

End SupplyAgent.

(** ** agents/government_agent.py *)

Module GovernmentAgent.

Record t : Type := {
  agent_id : string;
  disaster_severity : float;
  fairness_weight : float;
}.

Definition __init__ (agent_id : string) (disaster_severity fairness_weight : float) : t :=
  {| agent_id := agent_id; disaster_severity := disaster_severity;
     fairness_weight := fairness_weight |}.

Definition multiplier (h : hospital_state) : float :=
  let base := 1%float in
  let base := if hs_is_critical h then (base * 1.5)%float else base in
  if (hs_oxygen_units h <? 30)%float then (base * 1.3)%float else base.

Definition calculate_priority_multipliers (self : t) (hospitals : odict hospital_state)
    : gmap string float :=
  foldl (fun multipliers '(h_id, h_state) => <[h_id := multiplier h_state]> multipliers)
        ∅ hospitals.

Definition update (self : t) (tick : Z) : t :=
  if (tick mod 10 =? 0) && (0.3 <? disaster_severity self)%float
  then {| agent_id := agent_id self;
          disaster_severity := Py.max 0.3 (disaster_severity self - 0.02)%float;
          fairness_weight := fairness_weight self |}
  else self.

End GovernmentAgent.

(** ** config/scenario.py *)

Module Scenario.

Record hospital_config : Type := {
  hc_id : string;
  hc_name : string;
  hc_location : loc;
  hc_total_beds : Z;
  hc_available_beds : Z;
  hc_icu_beds : Z;
  hc_icu_available : Z;
  hc_oxygen_units : Z;
  hc_doctors_on_duty : Z;
  hc_patient_inflow_rate : float;
}.

Record ambulance_config : Type := {
  ac_id : string;
  ac_location : loc;
  ac_capacity : Z;
  ac_fuel : float;
  ac_available : bool;
}.

(** The depot's section.  The four stock keys that [initialize] reads are
    optional: a missing one is a [KeyError]. *)
Record supply_config : Type := {
  sc_id : string;
  sc_name : string;
  sc_location : loc;
  sc_food_units : option Z;
  sc_water_units : option Z;
  sc_oxygen_units : option Z;
  sc_medicine_units : option Z;
  sc_delivery_vehicles : Z;
}.

Record government_config : Type := {
  gc_id : string;
  gc_disaster_severity : float;
  gc_fairness_weight : float;
}.

Record t : Type := {
  HOSPITALS_CONFIG : list hospital_config;
  AMBULANCES_CONFIG : list ambulance_config;
  SUPPLY_CONFIG : supply_config;
  GOVERNMENT_CONFIG : government_config;
}.

(** The scenario of the repository.  Its depot section keeps the stock
    under an ["inventory"] key, so the four [..._units] keys are absent. *)
Definition flood_in_district_x : t :=
  {| HOSPITALS_CONFIG :=
       [ {| hc_id := "hospital_a"; hc_name := "City General Hospital";
            hc_location := (25, 30)%float;
            hc_total_beds := 100; hc_available_beds := 10;
            hc_icu_beds := 10; hc_icu_available := 1;
            hc_oxygen_units := 3000; hc_doctors_on_duty := 12;
            hc_patient_inflow_rate := 8 |};
         {| hc_id := "hospital_b"; hc_name := "District Medical Center";
            hc_location := (60, 45)%float;
            hc_total_beds := 80; hc_available_beds := 45;
            hc_icu_beds := 8; hc_icu_available := 6;
            hc_oxygen_units := 8000; hc_doctors_on_duty := 8;
            hc_patient_inflow_rate := 2 |};
         {| hc_id := "hospital_c"; hc_name := "Emergency Care Unit";
            hc_location := (40, 70)%float;
            hc_total_beds := 50; hc_available_beds := 20;
            hc_icu_beds := 4; hc_icu_available := 0;
            hc_oxygen_units := 4000; hc_doctors_on_duty := 6;
            hc_patient_inflow_rate := 3 |} ];
     AMBULANCES_CONFIG :=
       [ {| ac_id := "AMB-1"; ac_location := (30, 35)%float; ac_capacity := 2;
            ac_fuel := 0.9; ac_available := true |};
         {| ac_id := "AMB-2"; ac_location := (55, 40)%float; ac_capacity := 2;
            ac_fuel := 0.75; ac_available := true |};
         {| ac_id := "AMB-3"; ac_location := (45, 65)%float; ac_capacity := 2;
            ac_fuel := 0.85; ac_available := true |};
         {| ac_id := "AMB-4"; ac_location := (20, 50)%float; ac_capacity := 2;
            ac_fuel := 0.6; ac_available := true |};
         {| ac_id := "AMB-5"; ac_location := (70, 30)%float; ac_capacity := 2;
            ac_fuel := 0.95; ac_available := true |} ];
     SUPPLY_CONFIG :=
       {| sc_id := "supply_central"; sc_name := "Central Supply Depot";
          sc_location := (50, 50)%float;
          sc_food_units := None; sc_water_units := None;
          sc_oxygen_units := None; sc_medicine_units := None;
          sc_delivery_vehicles := 4 |};
     GOVERNMENT_CONFIG :=
       {| gc_id := "regional_authority"; gc_disaster_severity := 0.8;
          gc_fairness_weight := 0.7 |} |}.

End Scenario.

(** ** simulation/simulator.py

    The event bus, the global state, the metrics, the explainer and the
    logger only receive copies of what happens; nothing the simulator
    returns or decides is read back from them, and they are not part of
    the state below. *)

Module Simulator.

Import NegotiationEngine.

Record t : Type := {
  negotiation_engine : NegotiationEngine.t;
  failure_handler : FailureHandler.t;
  hospitals : odict HospitalAgent.t;
  ambulances : odict AmbulanceAgent.t;
  supply : option SupplyAgent.t;
  government : option GovernmentAgent.t;
  tick : Z;
  running : bool;
  waiting_patients : list patient;
}.

(** [__init__]. *)
Definition init : t :=
  {| negotiation_engine := NegotiationEngine.init;
     failure_handler := FailureHandler.init;
     hospitals := []; ambulances := []; supply := None; government := None;
     tick := 0; running := false; waiting_patients := [] |}.

Definition reset (self : t) : t := init.

(** The dictionary [initialize] returns. *)
Record init_report : Type := {
  ir_status : string;
  ir_hospitals : Z;
  ir_ambulances : Z;
  ir_initial_patients : Z;
  ir_critical_patients : Z;
}.

Definition create_hospital (c : Scenario.hospital_config) : HospitalAgent.t :=
  HospitalAgent.__init__ (Scenario.hc_id c) (Scenario.hc_name c) (Scenario.hc_location c)
    (Scenario.hc_total_beds c) (Scenario.hc_available_beds c)
    (Scenario.hc_icu_beds c) (Scenario.hc_icu_available c)
    (Scenario.hc_oxygen_units c) (Scenario.hc_doctors_on_duty c)
    (Scenario.hc_patient_inflow_rate c) None.

Definition create_ambulance (c : Scenario.ambulance_config) : AmbulanceAgent.t :=
  AmbulanceAgent.__init__ (Scenario.ac_id c) (Scenario.ac_location c)
    (Scenario.ac_capacity c) (Scenario.ac_fuel c) (Scenario.ac_available c).

(** [SUPPLY_CONFIG["food_units"]] and the three lookups after it. *)
Definition create_supply (c : Scenario.supply_config) : Py.result SupplyAgent.t :=
  match Scenario.sc_food_units c, Scenario.sc_water_units c,
        Scenario.sc_oxygen_units c, Scenario.sc_medicine_units c with
  | Some food, Some water, Some oxygen, Some medicine =>
      Py.Ok (SupplyAgent.__init__ (Scenario.sc_id c) (Scenario.sc_name c)
               (Scenario.sc_location c) food water oxygen medicine
               (Scenario.sc_delivery_vehicles c))
  | _, _, _, _ => Py.Raise Py.KeyError
  end.

Definition count_critical (patients : list patient) : Z :=
  Z.of_nat (length (List.filter (fun p => String.eqb (p_severity p) "critical") patients)).

(** [initialize]; [casualties] is what [generate_initial_casualties]
    draws. *)
Definition initialize (self : t) (config : Scenario.t) (casualties : list patient)
    : Py.result init_report * t :=
  let self0 := reset self in
  let hospitals :=
    od_fill Scenario.hc_id create_hospital [] (Scenario.HOSPITALS_CONFIG config) in
  let ambulances :=
    od_fill Scenario.ac_id create_ambulance [] (Scenario.AMBULANCES_CONFIG config) in
  let with_agents supply government patients running :=
    {| negotiation_engine := negotiation_engine self0;
       failure_handler := failure_handler self0;
       hospitals := hospitals; ambulances := ambulances;
       supply := supply; government := government;
       tick := tick self0; running := running;
       waiting_patients := patients |} in
  match create_supply (Scenario.SUPPLY_CONFIG config) with
  | Py.Raise e => (Py.Raise e, with_agents None None [] false)
  | Py.Ok supply =>
      let gc := Scenario.GOVERNMENT_CONFIG config in
      let government :=
        GovernmentAgent.__init__ (Scenario.gc_id gc) (Scenario.gc_disaster_severity gc)
          (Scenario.gc_fairness_weight gc) in
      (Py.Ok {| ir_status := "initialized";
                ir_hospitals := Z.of_nat (length hospitals);
                ir_ambulances := Z.of_nat (length ambulances);
                ir_initial_patients := Z.of_nat (length casualties);
                ir_critical_patients := count_critical casualties |},
       with_agents (Some supply) (Some government) casualties true)
  end.

(** An entry of the report's ["actions"]. *)
Inductive action : Type :=
| PatientAssigned (patient hospital : string)
| PatientDelivered (patient_id : string) (hospital_id : option string)
                   (ambulance_id : string).

(** The dictionary a completed [step] returns. *)
Record step_result : Type := {
  sr_tick : Z;
  sr_timestamp : string;
  sr_actions : list action;
  sr_decisions : list explanation;
  sr_alerts : list FailureHandler.response;
}.

(** What [step] returns: the error dictionary or the report. *)
Inductive step_return : Type :=
| ErrorDict (error : string)
| Report (r : step_result).

Definition with_hospitals (self : t) (hospitals : odict HospitalAgent.t) : t :=
  {| negotiation_engine := negotiation_engine self;
     failure_handler := failure_handler self;
     hospitals := hospitals; ambulances := ambulances self;
     supply := supply self; government := government self;
     tick := tick self; running := running self;
     waiting_patients := waiting_patients self |}.

Definition with_ambulances (self : t) (ambulances : odict AmbulanceAgent.t) : t :=
  {| negotiation_engine := negotiation_engine self;
     failure_handler := failure_handler self;
     hospitals := hospitals self; ambulances := ambulances;
     supply := supply self; government := government self;
     tick := tick self; running := running self;
     waiting_patients := waiting_patients self |}.

Definition with_supply (self : t) (supply : option SupplyAgent.t) : t :=
  {| negotiation_engine := negotiation_engine self;
     failure_handler := failure_handler self;
     hospitals := hospitals self; ambulances := ambulances self;
     supply := supply; government := government self;
     tick := tick self; running := running self;
     waiting_patients := waiting_patients self |}.

Definition with_government (self : t) (government : option GovernmentAgent.t) : t :=
  {| negotiation_engine := negotiation_engine self;
     failure_handler := failure_handler self;
     hospitals := hospitals self; ambulances := ambulances self;
     supply := supply self; government := government;
     tick := tick self; running := running self;
     waiting_patients := waiting_patients self |}.

Definition with_waiting (self : t) (waiting_patients : list patient) : t :=
  {| negotiation_engine := negotiation_engine self;
     failure_handler := failure_handler self;
     hospitals := hospitals self; ambulances := ambulances self;
     supply := supply self; government := government self;
     tick := tick self; running := running self;
     waiting_patients := waiting_patients |}.

Definition with_tick (self : t) (tick : Z) : t :=
  {| negotiation_engine := negotiation_engine self;
     failure_handler := failure_handler self;
     hospitals := hospitals self; ambulances := ambulances self;
     supply := supply self; government := government self;
     tick := tick; running := running self;
     waiting_patients := waiting_patients self |}.

Definition with_engine (self : t) (e : NegotiationEngine.t) : t :=
  {| negotiation_engine := e;
     failure_handler := failure_handler self;
     hospitals := hospitals self; ambulances := ambulances self;
     supply := supply self; government := government self;
     tick := tick self; running := running self;
     waiting_patients := waiting_patients self |}.

Definition with_failure_handler (self : t) (fh : FailureHandler.t) : t :=
  {| negotiation_engine := negotiation_engine self;
     failure_handler := fh;
     hospitals := hospitals self; ambulances := ambulances self;
     supply := supply self; government := government self;
     tick := tick self; running := running self;
     waiting_patients := waiting_patients self |}.

(** [[h.generate_message() for h in self.hospitals.values()]]. *)
Fixpoint hospital_messages (hs : list HospitalAgent.t) : Py.result (list hospital_msg) :=
  match hs with
  | [] => Py.Ok []
  | h :: hs' =>
      Py.bind (HospitalAgent.generate_message h) (fun m =>
      Py.bind (hospital_messages hs') (fun ms => Py.Ok (m :: ms)))
  end.

(** [{h.agent_id: h.get_state() for h in self.hospitals.values()}] and its
    ambulance counterpart. *)
Definition hospital_states (hs : odict HospitalAgent.t) : odict hospital_state :=
  od_fill HospitalAgent.agent_id HospitalAgent.get_state [] (od_values hs).

Definition ambulance_states (ambs : odict AmbulanceAgent.t) : odict ambulance_state :=
  od_fill AmbulanceAgent.agent_id AmbulanceAgent.get_state [] (od_values ambs).

(** The [for p in self.waiting_patients: if p["id"] == patient_id] scans. *)
Fixpoint mark_assigned (patient_id hospital_id : string) (ps : list patient) : list patient :=
  match ps with
  | [] => []
  | p :: ps' =>
      if String.eqb (p_id p) patient_id
      then {| p_id := p_id p; p_severity := p_severity p; p_location := p_location p;
              p_status := "assigned"; p_assigned_hospital := Some hospital_id |} :: ps'
      else p :: mark_assigned patient_id hospital_id ps'
  end.

Definition find_patient (patient_id : string) (ps : list patient) : option patient :=
  List.find (fun p => String.eqb (p_id p) patient_id) ps.

(** Step 4, "Apply allocations".  The severity text of the assignment is
    what [can_accept_patient] and [accept_patient] are called with. *)
Fixpoint apply_assignments (pas : list assignment) (self : t) (clock : nat -> string)
    (n : nat) : Py.result (list action) * t * nat :=
  match pas with
  | [] => (Py.Ok [], self, n)
  | pa :: rest =>
      let hospital_id := assigned_hospital pa in
      match od_get hospital_id (hospitals self) with
      | None => apply_assignments rest self clock n
      | Some hospital =>
          let esi := Py.Str (patient_severity pa) in
          match HospitalAgent.can_accept_patient hospital esi with
          | Py.Raise e => (Py.Raise e, self, n)
          | Py.Ok false => apply_assignments rest self clock n
          | Py.Ok true =>
              match HospitalAgent.accept_patient hospital (patient_id pa) esi (clock n) with
              | (Py.Raise e, _) => (Py.Raise e, self, S n)
              | (Py.Ok _, hospital') =>
                  let self' :=
                    with_waiting
                      (with_hospitals self (od_set hospital_id hospital' (hospitals self)))
                      (mark_assigned (patient_id pa) hospital_id (waiting_patients self)) in
                  match apply_assignments rest self' clock (S n) with
                  | (Py.Ok actions, self'', n') =>
                      (Py.Ok (PatientAssigned (patient_id pa) hospital_id :: actions),
                       self'', n')
                  | other => other
                  end
              end
          end
      end
  end.

(** Step 5, "Dispatch ambulances". *)
Fixpoint dispatch_ambulances (aas : list amb_assignment) (self : t) : t :=
  match aas with
  | [] => self
  | aa :: rest =>
      let self' :=
        match od_get (aa_ambulance_id aa) (ambulances self),
              od_get (aa_hospital_id aa) (hospitals self) with
        | Some ambulance, Some hospital =>
            if AmbulanceAgent.is_available ambulance
            then
              match find_patient (aa_patient_id aa) (waiting_patients self) with
              | Some patient_data =>
                  let ambulance' :=
                    AmbulanceAgent.with_destination
                      (AmbulanceAgent.assign_mission ambulance patient_data
                         (aa_hospital_id aa) (HospitalAgent.location hospital))
                      (Some (HospitalAgent.location hospital)) in
                  with_ambulances self
                    (od_set (aa_ambulance_id aa) ambulance' (ambulances self))
              | None => self
              end
            else self
        | _, _ => self
        end in
      dispatch_ambulances rest self'
  end.

(** Step 6, first half: the oxygen grants become pending requests of the
    depot. *)
Definition queue_supply_requests (sas : list allocation) (hs : odict HospitalAgent.t)
    (depot : SupplyAgent.t) : SupplyAgent.t :=
  foldl (fun depot sa =>
           match od_get (al_hospital_id sa) hs with
           | Some hospital =>
               if String.eqb (al_resource sa) "oxygen"
               then SupplyAgent.with_pending depot
                      (SupplyAgent.pending_requests depot
                       ++ [ {| SupplyAgent.requester_id := al_hospital_id sa;
                               SupplyAgent.requester_location :=
                                 HospitalAgent.location hospital;
                               SupplyAgent.sr_supply_type := al_resource sa;
                               SupplyAgent.sr_quantity := al_quantity sa;
                               SupplyAgent.sr_urgency := al_urgency sa |} ])
               else depot
           | None => depot
           end)
        depot sas.

(** Step 7, "Update all agents". *)
Definition update_hospitals (hs : odict HospitalAgent.t) (tick : Z) : odict HospitalAgent.t :=
  map (fun '(k, h) => (k, snd (HospitalAgent.update h tick))) hs.

Definition delivered_actions (actions : list AmbulanceAgent.action) : list action :=
  omap (fun a =>
          match a with
          | AmbulanceAgent.PatientDelivered p h amb => Some (PatientDelivered p h amb)
          | AmbulanceAgent.PatientPickedUp _ _ => None
          end) actions.

Fixpoint update_ambulances (ambs : odict AmbulanceAgent.t) (tick : Z)
    : list action * odict AmbulanceAgent.t :=
  match ambs with
  | [] => ([], [])
  | (k, a) :: ambs' =>
      let '(actions, a') := AmbulanceAgent.update a tick in
      let '(more, ambs'') := update_ambulances ambs' tick in
      (delivered_actions actions ++ more, (k, a') :: ambs'')
  end.

(** The part of [step] from the agents' update on; it cannot raise. *)
Definition finish_step (self : t) (clock : nat -> string) (n : nat)
    (depot : SupplyAgent.t) (gov : GovernmentAgent.t) (timestamp : string)
    (actions : list action) (decisions : list explanation)
    : step_result * t * nat :=
  let hospitals' := update_hospitals (hospitals self) (tick self) in
  let '(delivered, ambulances') := update_ambulances (ambulances self) (tick self) in
  let depot' := snd (SupplyAgent.update depot (tick self)) in
  let gov' := GovernmentAgent.update gov (tick self) in
  let '(failures, fh, n') :=
    FailureHandler.check_and_handle_failures (failure_handler self) clock n
      (hospital_states hospitals') (ambulance_states ambulances')
      (SupplyAgent.get_state depot') in
  ({| sr_tick := tick self; sr_timestamp := timestamp;
      sr_actions := actions ++ delivered;
      sr_decisions := decisions; sr_alerts := failures |},
   with_failure_handler
     (with_government
        (with_supply (with_ambulances (with_hospitals self hospitals') ambulances')
                     (Some depot'))
        (Some gov'))
     fh,
   n').

(** [step].  [clock] is the wall clock and [n] the index of its next
    reading; [inflow] is what [generate_patient_inflow] draws when the
    tick asks for it.  The result is the returned dictionary or the raised
    exception, the simulator as the call leaves it, and the clock index. *)
Definition step (self : t) (clock : nat -> string) (n : nat) (inflow : list patient)
    : Py.result step_return * t * nat :=
  if negb (running self)
  then (Py.Ok (ErrorDict "Simulation not running. Call initialize() first."), self, n)
  else
    let self := with_tick self (tick self + 1) in
    let timestamp := clock n in
    let n := S n in
    match (if tick self mod 3 =? 0
           then match government self with
                | Some _ =>
                    Py.Ok (with_waiting self (waiting_patients self ++ inflow))
                | None => Py.Raise Py.AttributeError
                end
           else Py.Ok self) with
    | Py.Raise e => (Py.Raise e, self, n)
    | Py.Ok self =>
    match hospital_messages (od_values (hospitals self)) with
    | Py.Raise e => (Py.Raise e, self, n)
    | Py.Ok hospital_messages =>
    let ambulance_messages :=
      map AmbulanceAgent.generate_message (od_values (ambulances self)) in
    match supply self with
    | None => (Py.Raise Py.AttributeError, self, n)
    | Some depot =>
    let supply_message := SupplyAgent.generate_message depot in
    match government self with
    | None => (Py.Raise Py.AttributeError, self, n)
    | Some gov =>
    let gov_priorities :=
      GovernmentAgent.calculate_priority_multipliers gov
        (hospital_states (hospitals self)) in
    let '(negotiation_result, engine) :=
      run_negotiation (negotiation_engine self) hospital_messages ambulance_messages
        supply_message gov_priorities
        (List.filter (fun p => String.eqb (p_status p) "waiting")
                     (waiting_patients self)) in
    let self := with_engine self engine in
    match apply_assignments (patient_assignments negotiation_result) self clock n with
    | (Py.Raise e, self, n) => (Py.Raise e, self, n)
    | (Py.Ok actions, self, n) =>
    let self := dispatch_ambulances (ambulance_assignments negotiation_result) self in
    let depot :=
      queue_supply_requests (supply_allocations negotiation_result)
        (hospitals self) depot in
    match SupplyAgent.process_pending_requests depot clock n with
    | (Py.Raise e, depot, n) => (Py.Raise e, with_supply self (Some depot), n)
    | (Py.Ok _, depot, n) =>
    let '(r, self, n) :=
      finish_step self clock n depot gov timestamp actions
        (decisions_explained negotiation_result) in
    (Py.Ok (Report r), self, n)
    end end end end end end.

End Simulator.

(** ** Vocabulary of the properties *)

(** [0 <= x] on the specification side of a binary64 number: a zero of
    either sign, a positive number or [+inf]. *)
Definition SFnonneg (x : spec_float) : bool :=
  match x with
  | S754_zero _ => true
  | S754_infinity s | S754_finite s _ _ => negb s
  | S754_nan => false
  end.

(** An assignment draws on the ICU of hospital [h] when it targets [h] and
    its severity is the one the matching loop charges to the ICU counter;
    otherwise it draws on the general beds of its hospital. *)
Definition takes_icu (h : string) (a : NegotiationEngine.assignment) : bool :=
  String.eqb (NegotiationEngine.assigned_hospital a) h
  && String.eqb (NegotiationEngine.patient_severity a) "critical".

Definition takes_bed (h : string) (a : NegotiationEngine.assignment) : bool :=
  String.eqb (NegotiationEngine.assigned_hospital a) h
  && negb (String.eqb (NegotiationEngine.patient_severity a) "critical").

Definition icu_load (h : string) (l : list NegotiationEngine.assignment) : Z :=
  Z.of_nat (length (List.filter (takes_icu h) l)).

Definition bed_load (h : string) (l : list NegotiationEngine.assignment) : Z :=
  Z.of_nat (length (List.filter (takes_bed h) l)).

(** The reason the checker attaches to a rejected proposal of each class. *)
Definition reason_for (a : NegotiationEngine.assignment) : string :=
  if String.eqb (NegotiationEngine.patient_severity a) "critical"
  then "No ICU capacity" else "No bed capacity".

(** What a ledger snapshot leaves of each class at a hospital; an unknown
    hospital has nothing. *)
Definition icu_slots (hospitals : gmap string hospital_state) (h : string) : Z :=
  default 0 (hs_icu_available <$> hospitals !! h).

Definition bed_slots (hospitals : gmap string hospital_state) (h : string) : Z :=
  default 0 (hs_available_beds <$> hospitals !! h).

(** The grant recorded for a hospital's request. *)
Definition grant (h : hospital_msg) (req : request) (quantity : Z)
    : NegotiationEngine.allocation :=
  {| NegotiationEngine.al_hospital_id := hm_agent_id h;
     NegotiationEngine.al_hospital_name := hm_name h;
     NegotiationEngine.al_resource := rq_resource req;
     NegotiationEngine.al_quantity := quantity;
     NegotiationEngine.al_urgency := rq_urgency req |}.

Definition oxygen_request (quantity : Z) (urgency : string) : request :=
  {| rq_resource := "oxygen"; rq_quantity := quantity; rq_urgency := urgency |}.

(** The priority order of the specification for supply requests: the
    urgency tier first, critical before high before medium before low,
    then the higher stress score of the requester.  An urgency outside
    the four tiers counts as medium. *)
Definition tier (urgency : string) : Z :=
  if String.eqb urgency "critical" then 0
  else if String.eqb urgency "high" then 1
  else if String.eqb urgency "low" then 3
  else 2.

Definition goes_before (urgency1 : string) (score1 : float)
    (urgency2 : string) (score2 : float) : bool :=
  (tier urgency1 <? tier urgency2)
  || ((tier urgency1 =? tier urgency2) && (score2 <? score1)%float).

(** The same order on the requests the engine has collected. *)
Definition request_goes_before (a b : NegotiationEngine.tagged_request) : bool :=
  goes_before (rq_urgency (NegotiationEngine.tr_request a))
              (NegotiationEngine.tr_hospital_priority a)
              (rq_urgency (NegotiationEngine.tr_request b))
              (NegotiationEngine.tr_hospital_priority b).

(** The request of a hospital as the engine collects it. *)
Definition tagged (h : hospital_msg) (req : request) : NegotiationEngine.tagged_request :=
  {| NegotiationEngine.tr_request := req;
     NegotiationEngine.tr_hospital_id := hm_agent_id h;
     NegotiationEngine.tr_hospital_name := hm_name h;
     NegotiationEngine.tr_hospital_priority := hm_priority_score h |}.

(** The ledger invariant of a hospital. *)
Definition ledger_ok (h : HospitalAgent.t) : Prop :=
  0 <= HospitalAgent.available_beds h <= HospitalAgent.total_beds h
  /\ 0 <= HospitalAgent.icu_available h <= HospitalAgent.icu_beds h
  /\ (0 <=? HospitalAgent.oxygen_units h)%float = true.

Module Monitor.
Import FailureHandler.

(** What the failure handler is shown on one tick. *)
Record snapshot : Type := {
  snap_hospitals : odict hospital_state;
  snap_ambulances : odict ambulance_state;
  snap_supply : supply_state;
}.

(** Consecutive ticks of [check_and_handle_failures] on one handler, with
    no [resolve_failure] in between: the alerts of each tick. *)
Fixpoint run (self : t) (clock : nat -> string) (n : nat) (ticks : list snapshot)
    : list (list response) * t * nat :=
  match ticks with
  | [] => ([], self, n)
  | s :: ticks' =>
      let '(alerts, self', n') :=
        check_and_handle_failures self clock n
          (snap_hospitals s) (snap_ambulances s) (snap_supply s) in
      let '(later, self'', n'') := run self' clock n' ticks' in
      (alerts :: later, self'', n'')
  end.

(** The number of alerts of a type among responses. *)
Definition alerts_of (ft : FailureType) (rs : list response) : nat :=
  length (List.filter (fun r => bool_decide (f_type (r_failure r) = ft)) rs).

(** The handler holds an unresolved failure of the type. *)
Definition is_active (ft : FailureType) (self : t) : bool :=
  existsb (fun a => bool_decide (f_type (af_failure a) = ft)) (active_failures self).

(** The predicate of [NO_AMBULANCES]: no unit is available and fuelled. *)
Definition no_ambulances (s : snapshot) : Prop :=
  available_ambulances (snap_ambulances s) = [].

End Monitor.

Module Unstamped.

(** An alert, a report and a step outcome with the wall-clock stamps
    blanked; a delivery and a depot likewise. *)
Definition response (r : FailureHandler.response) : FailureHandler.response :=
  {| FailureHandler.r_failure := FailureHandler.r_failure r;
     FailureHandler.r_protocol := FailureHandler.r_protocol r;
     FailureHandler.r_actions_taken := FailureHandler.r_actions_taken r;
     FailureHandler.r_timestamp := EmptyString;
     FailureHandler.r_status := FailureHandler.r_status r |}.

Definition report (r : Simulator.step_result) : Simulator.step_result :=
  {| Simulator.sr_tick := Simulator.sr_tick r;
     Simulator.sr_timestamp := EmptyString;
     Simulator.sr_actions := Simulator.sr_actions r;
     Simulator.sr_decisions := Simulator.sr_decisions r;
     Simulator.sr_alerts := map response (Simulator.sr_alerts r) |}.

Definition outcome (o : Py.result Simulator.step_return) : Py.result Simulator.step_return :=
  match o with
  | Py.Ok (Simulator.Report r) => Py.Ok (Simulator.Report (report r))
  | other => other
  end.

Definition delivery (d : SupplyAgent.delivery) : SupplyAgent.delivery :=
  {| SupplyAgent.d_number := SupplyAgent.d_number d;
     SupplyAgent.d_supply_type := SupplyAgent.d_supply_type d;
     SupplyAgent.d_quantity := SupplyAgent.d_quantity d;
     SupplyAgent.d_destination_id := SupplyAgent.d_destination_id d;
     SupplyAgent.d_destination_location := SupplyAgent.d_destination_location d;
     SupplyAgent.d_eta_minutes := SupplyAgent.d_eta_minutes d;
     SupplyAgent.d_started_at := EmptyString;
     SupplyAgent.d_status := SupplyAgent.d_status d |}.

Definition depot (s : SupplyAgent.t) : SupplyAgent.t :=
  {| SupplyAgent.agent_id := SupplyAgent.agent_id s;
     SupplyAgent.name := SupplyAgent.name s;
     SupplyAgent.location := SupplyAgent.location s;
     SupplyAgent.inventory := SupplyAgent.inventory s;
     SupplyAgent.delivery_vehicles := SupplyAgent.delivery_vehicles s;
     SupplyAgent.vehicles_available := SupplyAgent.vehicles_available s;
     SupplyAgent.active_deliveries := map delivery (SupplyAgent.active_deliveries s);
     SupplyAgent.completed_deliveries := map delivery (SupplyAgent.completed_deliveries s);
     SupplyAgent.pending_requests := SupplyAgent.pending_requests s |}.

(** The clock that shows nothing. *)
Definition blank (n : nat) : string := EmptyString.

Definition allocations
    (r : Py.result (list SupplyAgent.delivery * list SupplyAgent.supply_request))
    : Py.result (list SupplyAgent.delivery * list SupplyAgent.supply_request) :=
  match r with
  | Py.Ok (ds, processed) => Py.Ok (map delivery ds, processed)
  | Py.Raise e => Py.Raise e
  end.

End Unstamped.

(** ** Concrete inputs *)

Module Examples.

(** The second hospital of the shipped scenario, with free beds and free
    ICU slots, and the message it sends. *)
Definition hospital_b : HospitalAgent.t :=
  Simulator.create_hospital
    {| Scenario.hc_id := "hospital_b"; Scenario.hc_name := "District Medical Center";
       Scenario.hc_location := (60, 45)%float;
       Scenario.hc_total_beds := 80; Scenario.hc_available_beds := 45;
       Scenario.hc_icu_beds := 8; Scenario.hc_icu_available := 6;
       Scenario.hc_oxygen_units := 8000; Scenario.hc_doctors_on_duty := 8;
       Scenario.hc_patient_inflow_rate := 2 |}.

Definition hospital_b_msg : hospital_msg :=
  {| hm_agent_id := "hospital_b"; hm_name := "District Medical Center";
     hm_location := (60, 45)%float;
     hm_available_beds := 45; hm_icu_available := 6;
     hm_oxygen_units := 8000;
     hm_oxygen_hours_remaining := HospitalAgent.oxygen_hours_remaining hospital_b;
     hm_requests := [oxygen_request 100 "high"];
     hm_priority_score := HospitalAgent.calculate_priority_score hospital_b |}.

(** A casualty of severity ["high"], the second level of the triage
    scale, and one of severity ["critical"]. *)
Definition high_patient : patient :=
  {| p_id := "patient_007"; p_severity := "high"; p_location := (42, 55)%float;
     p_status := "waiting"; p_assigned_hospital := None |}.

Definition critical_patient : patient :=
  {| p_id := "patient_003"; p_severity := "critical"; p_location := (30, 40)%float;
     p_status := "waiting"; p_assigned_hospital := None |}.

(** A depot message with 50 units of oxygen. *)
Definition depot_msg : supply_msg :=
  {| sm_inventory := {[ "oxygen" := 50 ]}; sm_vehicles_available := 4 |}.

(** Two hospitals asking for 40 and for 30 units of oxygen. *)
Definition asks_40 : hospital_msg :=
  {| hm_agent_id := "hospital_a"; hm_name := "City General Hospital";
     hm_location := (25, 30)%float;
     hm_available_beds := 10; hm_icu_available := 1;
     hm_oxygen_units := 3000; hm_oxygen_hours_remaining := 0.5;
     hm_requests := [oxygen_request 40 "critical"];
     hm_priority_score := 0.9 |}.

Definition asks_30 : hospital_msg :=
  {| hm_agent_id := "hospital_c"; hm_name := "Emergency Care Unit";
     hm_location := (40, 70)%float;
     hm_available_beds := 20; hm_icu_available := 0;
     hm_oxygen_units := 4000; hm_oxygen_hours_remaining := 6;
     hm_requests := [oxygen_request 30 "high"];
     hm_priority_score := 0.6 |}.

(** Two critical proposals for hospital B and a ledger in which B has a
    single ICU slot left. *)
Definition proposal (patient : string) : NegotiationEngine.assignment :=
  {| NegotiationEngine.patient_id := patient;
     NegotiationEngine.patient_severity := "critical";
     NegotiationEngine.patient_location := (30, 40)%float;
     NegotiationEngine.assigned_hospital := "hospital_b";
     NegotiationEngine.hospital_name := "District Medical Center";
     NegotiationEngine.score := 0.5;
     NegotiationEngine.reason := (25%float, 45) |}.

Definition one_icu_slot : gmap string hospital_state :=
  {[ "hospital_b" :=
       {| hs_id := "hospital_b"; hs_total_beds := 80; hs_available_beds := 45;
          hs_icu_beds := 8; hs_icu_available := 1; hs_oxygen_units := 8000;
          hs_is_overloaded := false; hs_is_critical := false;
          hs_requires_diversion := false |} ]}.

(** A tick on which no ambulance exists. *)
Definition no_unit_tick : Monitor.snapshot :=
  {| Monitor.snap_hospitals := [("hospital_b", HospitalAgent.get_state hospital_b)];
     Monitor.snap_ambulances := [];
     Monitor.snap_supply :=
       {| ss_inventory := {[ "oxygen" := 20000; "medicine" := 500 ]};
          ss_vehicles_available := 4 |} |}.

(** Two units that are not fit for a new mission: one idle with 10 percent
    of fuel, one with enough fuel and already on its way to a pickup.
    Both have room on board. *)
Definition low_fuel_unit : AmbulanceAgent.t :=
  AmbulanceAgent.__init__ "AMB-4" (20, 50)%float 2 0.1 true.



Definition two_assignments : list NegotiationEngine.assignment :=
  fst (NegotiationEngine.assign_loop [high_patient; high_patient]
         (NegotiationEngine.build_hospital_capacity [hospital_b_msg]) ∅).

(** A depot section that carries the stock keys [initialize] reads. *)
Definition depot_config : Scenario.supply_config :=
  {| Scenario.sc_id := "supply_central"; Scenario.sc_name := "Central Supply Depot";
     Scenario.sc_location := (50, 50)%float;
     Scenario.sc_food_units := Some 500; Scenario.sc_water_units := Some 1000;
     Scenario.sc_oxygen_units := Some 20000; Scenario.sc_medicine_units := Some 500;
     Scenario.sc_delivery_vehicles := 4 |}.

(** A hospital section with no capacity at all and more free beds and ICU
    slots than beds and slots. *)
Definition hollow_hospital : Scenario.hospital_config :=
  {| Scenario.hc_id := "hospital_x"; Scenario.hc_name := "Field Post";
     Scenario.hc_location := (10, 10)%float;
     Scenario.hc_total_beds := 0; Scenario.hc_available_beds := 5;
     Scenario.hc_icu_beds := 0; Scenario.hc_icu_available := 3;
     Scenario.hc_oxygen_units := 100; Scenario.hc_doctors_on_duty := 1;
     Scenario.hc_patient_inflow_rate := 1 |}.

Definition hollow_config : Scenario.t :=
  {| Scenario.HOSPITALS_CONFIG := [hollow_hospital];
     Scenario.AMBULANCES_CONFIG :=
       Scenario.AMBULANCES_CONFIG Scenario.flood_in_district_x;
     Scenario.SUPPLY_CONFIG := depot_config;
     Scenario.GOVERNMENT_CONFIG :=
       Scenario.GOVERNMENT_CONFIG Scenario.flood_in_district_x |}.

(** The shipped hospitals with the depot above and no ambulance; the
    simulator initialised from it with nobody waiting, and with one
    casualty waiting. *)
Definition quiet_config : Scenario.t :=
  {| Scenario.HOSPITALS_CONFIG :=
       Scenario.HOSPITALS_CONFIG Scenario.flood_in_district_x;
     Scenario.AMBULANCES_CONFIG := [];
     Scenario.SUPPLY_CONFIG := depot_config;
     Scenario.GOVERNMENT_CONFIG :=
       Scenario.GOVERNMENT_CONFIG Scenario.flood_in_district_x |}.

Definition quiet : Simulator.t :=
  snd (Simulator.initialize Simulator.init quiet_config []).

Definition one_waiting : Simulator.t :=
  snd (Simulator.initialize Simulator.init quiet_config [high_patient]).

Definition clock_a (n : nat) : string := "2026-01-01T00:00:00".
Definition clock_b (n : nat) : string := "2026-01-01T00:00:05".

End Examples.

(** ** optimization/constraints.py: the state checks *)

Module Constraints.

Import NegotiationEngine.

(** The value stored under ["actual"]: an [int] or a [float]. *)
Inductive number : Type :=
| NInt (z : Z)
| NFloat (f : float).

(** A proposed allocation as [_check_allocation_constraints] reads it.
    The assignments of the negotiation engine carry no ["type"] key. *)
Record proposed_allocation : Type := {
  pa_type : option string;
  pa_assigned_hospital : option string;
  pa_patient_severity : option string;
}.

Definition of_assignment (a : assignment) : proposed_allocation :=
  {| pa_type := None;
     pa_assigned_hospital := Some (assigned_hospital a);
     pa_patient_severity := Some (patient_severity a) |}.

(** An entry of [self.violations]; a key that a kind of violation does not
    set is [None]. *)
Record violation : Type := {
  v_type : string;
  v_agent : option string;
  v_resource : option string;
  v_allocation : option proposed_allocation;
  v_constraint : string;
  v_actual : option number;
  v_reason : option string;
  v_severity : string;
}.

(** The supply dictionary: its ["inventory"], in the order of its keys. *)
Record supply_dict : Type := {
  sd_inventory : odict Z;
}.

Record t : Type := {
  violations : list violation;
}.

Definition __init__ : t := {| violations := [] |}.

Definition reset (self : t) : t := {| violations := [] |}.

Definition append (self : t) (v : violation) : t :=
  {| violations := violations self ++ [v] |}.

(** The three checks of one hospital, in the order of the source. *)
Definition hospital_violations (h_id : string) (h_state : hospital_state)
    : list violation :=
  (if hs_available_beds h_state <? 0
   then [ {| v_type := "hospital_capacity"; v_agent := Some h_id; v_resource := None;
             v_allocation := None; v_constraint := "available_beds >= 0";
             v_actual := Some (NInt (hs_available_beds h_state)); v_reason := None;
             v_severity := "critical" |} ]
   else [])
  ++ (if hs_icu_available h_state <? 0
      then [ {| v_type := "hospital_icu"; v_agent := Some h_id; v_resource := None;
                v_allocation := None; v_constraint := "icu_available >= 0";
                v_actual := Some (NInt (hs_icu_available h_state)); v_reason := None;
                v_severity := "critical" |} ]
      else [])
  ++ (if (hs_oxygen_units h_state <? 20)%float
      then [ {| v_type := "hospital_oxygen"; v_agent := Some h_id; v_resource := None;
                v_allocation := None; v_constraint := "oxygen >= 20";
                v_actual := Some (NFloat (hs_oxygen_units h_state)); v_reason := None;
                v_severity := "warning" |} ]
      else []).

Definition _check_hospital_constraints (self : t) (hospitals : odict hospital_state) : t :=
  foldl (fun self '(h_id, h_state) =>
           foldl append self (hospital_violations h_id h_state))
        self hospitals.

Definition ambulance_violations (a_id : string) (a_state : ambulance_state)
    : list violation :=
  let current_load := as_current_load a_state in
  let capacity := as_capacity a_state in
  (if capacity <? current_load
   then [ {| v_type := "ambulance_capacity"; v_agent := Some a_id; v_resource := None;
             v_allocation := None; v_constraint := "load <= " +:+ pretty capacity;
             v_actual := Some (NInt current_load); v_reason := None;
             v_severity := "critical" |} ]
   else [])
  ++ (if (as_fuel a_state <? 15)%float
      then [ {| v_type := "ambulance_fuel"; v_agent := Some a_id; v_resource := None;
                v_allocation := None; v_constraint := "fuel >= 15%";
                v_actual := Some (NFloat (as_fuel a_state)); v_reason := None;
                v_severity := "warning" |} ]
      else []).

Definition _check_ambulance_constraints (self : t) (ambulances : odict ambulance_state)
    : t :=
  foldl (fun self '(a_id, a_state) =>
           foldl append self (ambulance_violations a_id a_state))
        self ambulances.

Definition supply_violations (supply_type : string) (quantity : Z) : list violation :=
  if quantity <? 0
  then [ {| v_type := "supply_inventory"; v_agent := None;
            v_resource := Some supply_type; v_allocation := None;
            v_constraint := supply_type +:+ " >= 0";
            v_actual := Some (NInt quantity); v_reason := None;
            v_severity := "critical" |} ]
  else [].

Definition _check_supply_constraints (self : t) (supply : supply_dict) : t :=
  foldl (fun self '(supply_type, quantity) =>
           foldl append self (supply_violations supply_type quantity))
        self (sd_inventory supply).

(** [x == "critical"] for a value that may be [None]. *)
Definition is_critical (severity : option string) : bool :=
  match severity with
  | Some s => String.eqb s "critical"
  | None => false
  end.

(** [hospital_id and hospital_id in hospitals], then [hospitals[hospital_id]]. *)
Definition known_hospital (hospital_id : option string) (hospitals : odict hospital_state)
    : option hospital_state :=
  match hospital_id with
  | Some h => if String.eqb h EmptyString then None else od_get h hospitals
  | None => None
  end.

Definition allocation_violations (allocation : proposed_allocation)
    (hospitals : odict hospital_state) (ambulances : odict ambulance_state)
    : list violation :=
  match pa_type allocation with
  | Some ty =>
      if String.eqb ty "patient_assignment"
      then
        match known_hospital (pa_assigned_hospital allocation) hospitals with
        | Some h_state =>
            let patient_severity := pa_patient_severity allocation in
            if is_critical patient_severity && (hs_icu_available h_state <=? 0)
            then [ {| v_type := "allocation_invalid"; v_agent := None;
                      v_resource := None; v_allocation := Some allocation;
                      v_constraint := "Critical patient needs ICU";
                      v_actual := None; v_reason := Some "No ICU available";
                      v_severity := "critical" |} ]
            else if negb (is_critical patient_severity)
                    && (hs_available_beds h_state <=? 0)
            then [ {| v_type := "allocation_invalid"; v_agent := None;
                      v_resource := None; v_allocation := Some allocation;
                      v_constraint := "Patient needs available bed";
                      v_actual := None; v_reason := Some "No beds available";
                      v_severity := "critical" |} ]
            else []
        | None => []
        end
      else []
  | None => []
  end.

Definition _check_allocation_constraints (self : t) (allocation : proposed_allocation)
    (hospitals : odict hospital_state) (ambulances : odict ambulance_state) : t :=
  foldl append self (allocation_violations allocation hospitals ambulances).

(** [check_all_constraints]: the returned list is [self.violations]. *)
Definition check_all_constraints (self : t) (hospitals : odict hospital_state)
    (ambulances : odict ambulance_state) (supply : supply_dict)
    (proposed_allocations : list proposed_allocation) : (bool * list violation) * t :=
  let self := reset self in
  let self := _check_hospital_constraints self hospitals in
  let self := _check_ambulance_constraints self ambulances in
  let self := _check_supply_constraints self supply in
  let self :=
    foldl (fun self allocation =>
             _check_allocation_constraints self allocation hospitals ambulances)
          self proposed_allocations in
  let is_valid := Nat.eqb (length (violations self)) 0 in
  ((is_valid, violations self), self).

Record violations_summary : Type := {
  total_violations : nat;
  critical_count : nat;
  warning_count : nat;
  is_valid : bool;
  critical_violations : list violation;
  warnings : list violation;
}.

Definition get_violations_summary (self : t) : violations_summary :=
  let critical :=
    List.filter (fun v => String.eqb (v_severity v) "critical") (violations self) in
  let warnings :=
    List.filter (fun v => String.eqb (v_severity v) "warning") (violations self) in
  {| total_violations := length (violations self);
     critical_count := length critical;
     warning_count := length warnings;
     is_valid := Nat.eqb (length critical) 0;
     critical_violations := critical;
     warnings := warnings |}.

End Constraints.

(** ** utils/failure_handler.py: the dashboard summary *)

Module FailureStatus.

Import FailureHandler.

(** An entry of the summary's ["failures"] list. *)
Record summary_entry : Type := {
  se_type : FailureType;
  se_severity : string;
  se_protocol : string;
  se_details : string;
}.

Record failure_summary : Type := {
  fs_active_failures : nat;
  fs_critical_count : nat;
  fs_failures : list summary_entry;
  fs_total_handled : nat;
}.

Definition get_active_failures (self : t) : list active_failure := active_failures self.

Definition get_failure_summary (self : t) : failure_summary :=
  {| fs_active_failures := length (active_failures self);
     fs_critical_count :=
       length (List.filter
                 (fun f => String.eqb (f_severity (af_failure f)) "critical")
                 (active_failures self));
     fs_failures :=
       map (fun f => {| se_type := f_type (af_failure f);
                        se_severity := f_severity (af_failure f);
                        se_protocol := af_protocol f;
                        se_details := f_details (af_failure f) |})
           (active_failures self);
     fs_total_handled := length (failure_history self) |}.

End FailureStatus.

(** ** main.py: the endpoint that runs several ticks

    The module-level [simulator] is threaded through the call.  The
    patients that arrive during the [k]-th step of the call are
    [inflows k]. *)

Module Main.

(** What the endpoint's body ends with: an [HTTPException], the returned
    dictionary, or an exception of [simulator.step()], which the body does
    not catch. *)
Inductive response : Type :=
| HTTPException (status_code : Z) (detail : string)
| Returned (success : bool) (ticks_executed : Z) (final_tick : Z)
           (results : list Simulator.step_return)
| Uncaught (e : Py.exn).

(** The loop [for _ in range(ticks)], [k] steps having been made. *)
Fixpoint run_loop (todo : nat) (k : nat) (simulator : Simulator.t)
    (clock : nat -> string) (n : nat) (inflows : nat -> list patient)
    : Py.result (list Simulator.step_return) * Simulator.t * nat :=
  match todo with
  | O => (Py.Ok [], simulator, n)
  | S todo' =>
      match Simulator.step simulator clock n (inflows k) with
      | (Py.Raise e, simulator, n) => (Py.Raise e, simulator, n)
      | (Py.Ok result, simulator, n) =>
          match run_loop todo' (S k) simulator clock n inflows with
          | (Py.Ok results, simulator, n) => (Py.Ok (result :: results), simulator, n)
          | other => other
          end
      end
  end.

Definition run_simulation (ticks : Z) (simulator : Simulator.t) (clock : nat -> string)
    (n : nat) (inflows : nat -> list patient) : response * Simulator.t * nat :=
  if (ticks <? 1) || (20 <? ticks)
  then (HTTPException 400 "Ticks must be between 1 and 20", simulator, n)
  else
    match run_loop (Z.to_nat ticks) 0 simulator clock n inflows with
    | (Py.Ok results, simulator, n) =>
        (Returned true ticks (Simulator.tick simulator) results, simulator, n)
    | (Py.Raise e, simulator, n) => (Uncaught e, simulator, n)
    end.

End Main.

(** ** utils/logger.py: the timeline of events

    Values of [datetime] are kept abstract: a reading of the wall clock
    has its [isoformat] stamp, and [elapsed_ms start now] stands for
    [int((now - start).total_seconds() * 1000)].  The [n]-th reading of
    the clock is [clock n]. *)

Module SimulationLogger.

(** The ["data"] dictionaries that the methods of the logger build. *)
Inductive payload : Type :=
| Message (message : string)
| PatientAssignment (patient_id hospital_id severity : string)
| AmbulanceDispatch (ambulance_id patient_id hospital_id : string) (eta_minutes : float)
| SupplyAllocation (supply_type : string) (quantity : Z) (destination : string)
| RoundComplete (round decisions_made duration_ms : Z)
| OverloadPrevented (hospital_id action : string)
| Details (details : string)
| Resolution (resolution : string).

Record event : Type := {
  e_id : Z;
  e_tick : Z;
  e_timestamp : string;
  e_elapsed_ms : Z;
  e_category : string;
  e_type : string;
  e_agent_id : option string;
  e_data : payload;
}.

Record t (datetime : Type) : Type := {
  events : list event;
  start_time : option datetime;
  current_tick : Z;
}.
Arguments events {datetime} _.
Arguments start_time {datetime} _.
Arguments current_tick {datetime} _.

(** An entry of the list [get_timeline] returns. *)
Record timeline_entry : Type := {
  tl_tick : Z;
  tl_events : list event;
}.

Record summary : Type := {
  total_events : Z;
  total_ticks : Z;
  sm_start_time : option string;
  elapsed_seconds : float;
  events_by_category : odict Z;
}.

(** [l[-limit:]]: a negative start counts from the end and stops at the
    first element; [-0] is [0], the start of the list. *)
Definition last_items {A} (limit : Z) (l : list A) : list A :=
  let len := Z.of_nat (length l) in
  let start := - limit in
  let start := if start <? 0 then Z.max (start + len) 0 else Z.min start len in
  drop (Z.to_nat start) l.

(** [timeline[tick].append(event)], after [timeline[tick] = []] for a tick
    that is not yet a key. *)
Fixpoint timeline_append (tick : Z) (e : event) (timeline : list (Z * list event))
    : list (Z * list event) :=
  match timeline with
  | [] => [(tick, [e])]
  | (tick', es) :: timeline' =>
      if tick' =? tick then (tick', es ++ [e]) :: timeline'
      else (tick', es) :: timeline_append tick e timeline'
  end.

(** The loop of [get_timeline], which files each event under its tick, and
    the loop of [get_summary], which counts the events of each category. *)
Definition grouped (l : list event) : list (Z * list event) :=
  foldl (fun timeline event => timeline_append (e_tick event) event timeline) [] l.

Definition counted (l : list event) : odict Z :=
  foldl (fun categories event =>
           let cat := e_category event in
           od_set cat (default 0 (od_get cat categories) + 1) categories) [] l.

Section logger.
Context {datetime : Type}.
Variable isoformat : datetime -> string.
Variable elapsed_ms : datetime -> datetime -> Z.
Implicit Types (self : t datetime) (clock : nat -> datetime) (n : nat).

Definition __init__ : t datetime :=
  {| events := []; start_time := None; current_tick := 0 |}.

Definition reset self : t datetime :=
  {| events := []; start_time := None; current_tick := 0 |}.

Definition _get_elapsed_ms self clock n : Z * nat :=
  match start_time self with
  | None => (0, n)
  | Some start => (elapsed_ms start (clock n), S n)
  end.

Definition log_event self clock n (category event_type : string) (data : payload)
    (agent_id : option string) : event * t datetime * nat :=
  let timestamp := isoformat (clock n) in
  let '(elapsed, n) := _get_elapsed_ms self clock (S n) in
  let event :=
    {| e_id := Z.of_nat (length (events self)); e_tick := current_tick self;
       e_timestamp := timestamp; e_elapsed_ms := elapsed;
       e_category := category; e_type := event_type; e_agent_id := agent_id;
       e_data := data |} in
  (event,
   {| events := events self ++ [event]; start_time := start_time self;
      current_tick := current_tick self |},
   n).

Definition start self clock n : t datetime * nat :=
  let self := {| events := events self; start_time := Some (clock n);
                 current_tick := current_tick self |} in
  let '(_, self, n) :=
    log_event self clock (S n) "simulation" "start" (Message "Simulation started") None in
  (self, n).

Definition set_tick self (tick : Z) : t datetime :=
  {| events := events self; start_time := start_time self; current_tick := tick |}.

Definition log_patient_assignment self clock n (patient_id hospital_id severity : string)
    : event * t datetime * nat :=
  log_event self clock n "allocation" "patient_assigned"
    (PatientAssignment patient_id hospital_id severity) None.

Definition log_ambulance_dispatch self clock n (ambulance_id patient_id hospital_id : string)
    (eta : float) : event * t datetime * nat :=
  log_event self clock n "dispatch" "ambulance_dispatched"
    (AmbulanceDispatch ambulance_id patient_id hospital_id eta) (Some ambulance_id).

Definition log_supply_allocation self clock n (supply_type : string) (quantity : Z)
    (hospital_id : string) : event * t datetime * nat :=
  log_event self clock n "supply" "allocated"
    (SupplyAllocation supply_type quantity hospital_id) None.

Definition log_negotiation_round self clock n (round_num decisions duration_ms : Z)
    : event * t datetime * nat :=
  log_event self clock n "negotiation" "round_complete"
    (RoundComplete round_num decisions duration_ms) None.

Definition log_overload_prevented self clock n (hospital_id action : string)
    : event * t datetime * nat :=
  log_event self clock n "prevention" "overload_prevented"
    (OverloadPrevented hospital_id action) (Some hospital_id).

Definition log_failure self clock n (failure_type details : string)
    : event * t datetime * nat :=
  log_event self clock n "failure" failure_type (Details details) None.

Definition log_recovery self clock n (failure_type resolution : string)
    : event * t datetime * nat :=
  log_event self clock n "recovery" failure_type (Resolution resolution) None.

Definition get_events_by_tick self (tick : Z) : list event :=
  List.filter (fun e => e_tick e =? tick) (events self).

Definition get_events_by_category self (category : string) : list event :=
  List.filter (fun e => String.eqb (e_category e) category) (events self).

Definition get_events_by_agent self (agent_id : string) : list event :=
  List.filter (fun e => match e_agent_id e with
                        | Some a => String.eqb a agent_id
                        | None => false
                        end) (events self).

Definition get_recent_events self (limit : Z) : list event :=
  last_items limit (events self).

(** [sorted(timeline.items())] orders the pairs by their ticks: the keys of
    a dictionary are distinct, so no two pairs are compared beyond them. *)
Definition get_timeline self : list timeline_entry :=
  let timeline := grouped (events self) in
  map (fun '(tick, events) => {| tl_tick := tick; tl_events := events |})
      (Py.sorted (fun a b => a.1 <? b.1) timeline).

(** ["elapsed_seconds"] is the quotient of two [int]s, which the division
    of their floats gives below [2^53] milliseconds. *)
Definition get_summary self clock n : summary * nat :=
  let categories := counted (events self) in
  let '(elapsed, n) := _get_elapsed_ms self clock n in
  ({| total_events := Z.of_nat (length (events self));
      total_ticks := current_tick self;
      sm_start_time := isoformat <$> start_time self;
      elapsed_seconds := (Py.float_of_Z elapsed / 1000)%float;
      events_by_category := categories |}, n).

End logger.

End SimulationLogger.

(** ** Vocabulary of the further properties *)

(** The rank the matching loop sorts a casualty by. *)
Definition severity_rank (p : patient) : Z :=
  NegotiationEngine.severity_order (p_severity p).

(** The total quantity of a resource among the grants of a round. *)
Definition granted (resource : string) (l : list NegotiationEngine.allocation) : Z :=
  foldr (fun g acc =>
           if String.eqb (NegotiationEngine.al_resource g) resource
           then NegotiationEngine.al_quantity g + acc else acc) 0 l.

(** What the state checks of [check_all_constraints] demand of a hospital,
    of an ambulance and of the depot's stock. *)
Definition hospital_in_bounds (h : hospital_state) : Prop :=
  0 <= hs_available_beds h /\ 0 <= hs_icu_available h
  /\ (hs_oxygen_units h <? 20)%float = false.

Definition ambulance_in_bounds (a : ambulance_state) : Prop :=
  as_current_load a <= as_capacity a /\ (as_fuel a <? 15)%float = false.

(** A proposal typed as a patient assignment for a hospital of the
    snapshot finds a slot of its class there. *)
Definition allocation_in_bounds (hospitals : odict hospital_state)
    (p : Constraints.proposed_allocation) : Prop :=
  Constraints.pa_type p = Some "patient_assignment" ->
  forall h, Constraints.known_hospital (Constraints.pa_assigned_hospital p) hospitals
            = Some h ->
    if Constraints.is_critical (Constraints.pa_patient_severity p)
    then 0 < hs_icu_available h else 0 < hs_available_beds h.

(** An engine assignment presented to the checker as a typed proposal. *)
Definition as_patient_assignment (a : NegotiationEngine.assignment)
    : Constraints.proposed_allocation :=
  {| Constraints.pa_type := Some "patient_assignment";
     Constraints.pa_assigned_hospital := Some (NegotiationEngine.assigned_hospital a);
     Constraints.pa_patient_severity := Some (NegotiationEngine.patient_severity a) |}.

(** Calls made on one failure handler, in any order: a tick's check or
    the resolution of a type.  [drive] returns the alerts raised, the
    number of resolutions that found their failure, the handler and the
    clock index. *)
Module Handling.
Import FailureHandler.

Inductive call : Type :=
| Check (s : Monitor.snapshot)
| Resolve (ft : FailureType).

Fixpoint drive (self : t) (clock : nat -> string) (n : nat) (calls : list call)
    : list response * nat * t * nat :=
  match calls with
  | [] => ([], 0%nat, self, n)
  | Check s :: rest =>
      let '(alerts, self', n') :=
        check_and_handle_failures self clock n
          (Monitor.snap_hospitals s) (Monitor.snap_ambulances s) (Monitor.snap_supply s) in
      let '(later, resolved, self'', n'') := drive self' clock n' rest in
      (alerts ++ later, resolved, self'', n'')
  | Resolve ft :: rest =>
      let '(found, self') := resolve_failure self (clock n) ft in
      let '(later, resolved, self'', n'') :=
        drive self' clock (if found then S n else n) rest in
      (later, if found then S resolved else resolved, self'', n'')
  end.

(** The four conditions [detect_failures] looks for. *)
Definition monitored : list FailureType :=
  [NO_BEDS_ANYWHERE; OXYGEN_EXHAUSTED; NO_AMBULANCES; SUPPLY_DEPLETED].

(** No two active entries are of one type. *)
Definition one_entry_per_type (self : t) : Prop :=
  NoDup (map (fun a => f_type (af_failure a)) (active_failures self)).

End Handling.

(** The depot's fleet is accounted for: every vehicle is either free or
    carrying one of the active deliveries. *)
Definition fleet_accounted (s : SupplyAgent.t) : Prop :=
  0 <= SupplyAgent.vehicles_available s
  /\ SupplyAgent.vehicles_available s
     + Z.of_nat (length (SupplyAgent.active_deliveries s))
     = SupplyAgent.delivery_vehicles s.

(** The quantity of a kind of supply carried by some deliveries. *)
Definition shipped (supply_type : string) (ds : list SupplyAgent.delivery) : Z :=
  foldr (fun d acc =>
           if String.eqb (SupplyAgent.d_supply_type d) supply_type
           then SupplyAgent.d_quantity d + acc else acc) 0 ds.

(** A delivery among the actions of an ambulance's update. *)
Definition is_delivery (a : AmbulanceAgent.action) : bool :=
  match a with
  | AmbulanceAgent.PatientDelivered _ _ _ => true
  | AmbulanceAgent.PatientPickedUp _ _ => false
  end.

(** The unit as [Simulator.step] leaves it when it dispatches it. *)
Definition on_mission (unit : AmbulanceAgent.t) (p : patient) (hospital_id : string)
    (hospital_location : loc) : AmbulanceAgent.t :=
  AmbulanceAgent.with_destination
    (AmbulanceAgent.assign_mission unit p hospital_id hospital_location)
    (Some hospital_location).

(** An action of the report that commits a patient to a hospital. *)
Definition is_commitment (a : Simulator.action) : bool :=
  match a with
  | Simulator.PatientAssigned _ _ => true
  | Simulator.PatientDelivered _ _ _ => false
  end.

(** Calls made on one logger, in any order. *)
Module Logging.
Import SimulationLogger.

Inductive call : Type :=
| Reset
| Start
| SetTick (tick : Z)
| LogEvent (category event_type : string) (data : payload) (agent_id : option string)
| LogPatientAssignment (patient_id hospital_id severity : string)
| LogAmbulanceDispatch (ambulance_id patient_id hospital_id : string) (eta : float)
| LogSupplyAllocation (supply_type : string) (quantity : Z) (hospital_id : string)
| LogNegotiationRound (round_num decisions duration_ms : Z)
| LogOverloadPrevented (hospital_id action : string)
| LogFailure (failure_type details : string)
| LogRecovery (failure_type resolution : string).

Section drive.
Context {datetime : Type}.
Variable isoformat : datetime -> string.
Variable elapsed_ms : datetime -> datetime -> Z.

Definition make (self : t datetime) (clock : nat -> datetime) (n : nat) (c : call)
    : t datetime * nat :=
  let log (r : event * t datetime * nat) := (r.1.2, r.2) in
  match c with
  | Reset => (reset self, n)
  | Start => start isoformat elapsed_ms self clock n
  | SetTick tick => (set_tick self tick, n)
  | LogEvent category event_type data agent_id =>
      log (log_event isoformat elapsed_ms self clock n category event_type data agent_id)
  | LogPatientAssignment p h s =>
      log (log_patient_assignment isoformat elapsed_ms self clock n p h s)
  | LogAmbulanceDispatch a p h eta =>
      log (log_ambulance_dispatch isoformat elapsed_ms self clock n a p h eta)
  | LogSupplyAllocation ty q h =>
      log (log_supply_allocation isoformat elapsed_ms self clock n ty q h)
  | LogNegotiationRound r d ms =>
      log (log_negotiation_round isoformat elapsed_ms self clock n r d ms)
  | LogOverloadPrevented h a =>
      log (log_overload_prevented isoformat elapsed_ms self clock n h a)
  | LogFailure ty d => log (log_failure isoformat elapsed_ms self clock n ty d)
  | LogRecovery ty r => log (log_recovery isoformat elapsed_ms self clock n ty r)
  end.

Definition drive (self : t datetime) (clock : nat -> datetime) (n : nat)
    (calls : list call) : t datetime * nat :=
  foldl (fun '(self, n) c => make self clock n c) (self, n) calls.

End drive.

(** The ticks given to [set_tick] by some calls. *)
Definition ticks_set (calls : list call) : list Z :=
  flat_map (fun c => match c with SetTick tick => [tick] | _ => [] end) calls.

End Logging.

Module Cases.

(** Twelve casualties: eleven of severity low, then one critical. *)
Definition low_patient (n : nat) : patient :=
  {| p_id := "patient_" +:+ pretty n; p_severity := "low"; p_location := (42, 55)%float;
     p_status := "waiting"; p_assigned_hospital := None |}.

Definition twelve_waiting : list patient :=
  map low_patient (seq 0 11) ++ [Examples.critical_patient].

(** A snapshot in which hospital B has no oxygen left and an ambulance
    runs on 10 percent of fuel: two warnings, nothing critical. *)
Definition thin_hospitals : odict hospital_state :=
  [("hospital_b",
    {| hs_id := "hospital_b"; hs_total_beds := 80; hs_available_beds := 45;
       hs_icu_beds := 8; hs_icu_available := 1; hs_oxygen_units := 0;
       hs_is_overloaded := false; hs_is_critical := true;
       hs_requires_diversion := true |})].

Definition thin_ambulances : odict ambulance_state :=
  [("AMB-4", AmbulanceAgent.get_state Examples.low_fuel_unit)].

(** A snapshot in which no hospital has a bed or an ICU slot left. *)
Definition full_hospitals : odict hospital_state :=
  [("hospital_a",
    {| hs_id := "hospital_a"; hs_total_beds := 100; hs_available_beds := 0;
       hs_icu_beds := 10; hs_icu_available := 0; hs_oxygen_units := 3000;
       hs_is_overloaded := true; hs_is_critical := true;
       hs_requires_diversion := true |});
   ("hospital_c",
    {| hs_id := "hospital_c"; hs_total_beds := 50; hs_available_beds := 0;
       hs_icu_beds := 4; hs_icu_available := 0; hs_oxygen_units := 4000;
       hs_is_overloaded := true; hs_is_critical := true;
       hs_requires_diversion := true |})].

Definition sound_hospitals : odict hospital_state :=
  [("hospital_b", HospitalAgent.get_state Examples.hospital_b)].

Definition stock : Constraints.supply_dict :=
  {| Constraints.sd_inventory :=
       [("food", 500); ("water", 1000); ("oxygen", 200); ("medicine", 300)] |}.

(** The depot of the example configuration with two oxygen requests
    pending, for 40 and for 300 units. *)
Definition depot : SupplyAgent.t :=
  SupplyAgent.__init__ "supply_central" "Central Supply Depot" (50, 50)%float
    500 1000 200 300 4.

Definition asking (quantity : Z) : SupplyAgent.supply_request :=
  {| SupplyAgent.requester_id := "hospital_b";
     SupplyAgent.requester_location := (60, 45)%float;
     SupplyAgent.sr_supply_type := "oxygen";
     SupplyAgent.sr_quantity := quantity;
     SupplyAgent.sr_urgency := "high" |}.

Definition busy_depot : SupplyAgent.t :=
  SupplyAgent.with_pending depot [asking 40; asking 300].

(** The shipped scenario with the depot of the examples and one casualty
    waiting, and the ambulances the engine dispatches for a proposal that
    sends this casualty to hospital B. *)
Definition staffed_config : Scenario.t :=
  {| Scenario.HOSPITALS_CONFIG :=
       Scenario.HOSPITALS_CONFIG Scenario.flood_in_district_x;
     Scenario.AMBULANCES_CONFIG :=
       Scenario.AMBULANCES_CONFIG Scenario.flood_in_district_x;
     Scenario.SUPPLY_CONFIG := Examples.depot_config;
     Scenario.GOVERNMENT_CONFIG :=
       Scenario.GOVERNMENT_CONFIG Scenario.flood_in_district_x |}.

Definition staffed : Simulator.t :=
  snd (Simulator.initialize Simulator.init staffed_config [Examples.high_patient]).

Definition dispatches : list NegotiationEngine.amb_assignment :=
  NegotiationEngine._assign_ambulances (take 1 Examples.two_assignments)
    (map AmbulanceAgent.generate_message (od_values (Simulator.ambulances staffed)))
    [Examples.hospital_b_msg].

End Cases.

(** * Properties *)

(** ** Binary64 order facts, from the specification of the primitives *)

Lemma SFltb_trans x y z : SFltb x y = true -> SFltb y z = true -> SFltb x z = true.
Proof.
  unfold SFltb, SFcompare.
  destruct x as [sx|sx| |sx mx ex], y as [sy|sy| |sy my ey], z as [sz|sz| |sz mz ez];
    try discriminate; try reflexivity;
    repeat match goal with s : bool |- _ => destruct s end;
    try discriminate; try reflexivity.
  all: change (Pos.compare_cont Eq) with Pos.compare.
  all: repeat match goal with
         | |- context [(?a ?= ?b)%Z] => destruct (Z.compare_spec a b)
         | |- context [(?a ?= ?b)%positive] => destruct (Pos.compare_spec a b)
         end; simpl; try discriminate; try reflexivity; intros; lia.
Qed.

Lemma float_ltb_trans (x y z : float) :
  (x <? y)%float = true -> (y <? z)%float = true -> (x <? z)%float = true.
Proof. rewrite !ltb_spec. apply SFltb_trans. Qed.

Lemma float_ltb_irrefl (x : float) : (x <? x)%float = false.
Proof.
  rewrite ltb_spec. unfold SFltb, SFcompare.
  destruct (Prim2SF x) as [s|s| |s m e]; try reflexivity; destruct s; try reflexivity.
  all: rewrite Z.compare_refl; change (Pos.compare_cont Eq) with Pos.compare;
    rewrite Pos.compare_refl; reflexivity.
Qed.

Lemma float_ltb_leb (x y : float) : (x <? y)%float = true -> (x <=? y)%float = true.
Proof.
  rewrite ltb_spec, leb_spec. unfold SFltb, SFleb.
  destruct (SFcompare _ _) as [[]|]; congruence.
Qed.

Lemma SFltb_opp x y : SFltb (SFopp x) (SFopp y) = SFltb y x.
Proof.
  unfold SFltb, SFcompare, SFopp.
  destruct x as [sx|sx| |sx mx ex], y as [sy|sy| |sy my ey];
    try reflexivity;
    repeat match goal with s : bool |- _ => destruct s end;
    try reflexivity.
  all: cbn [negb]; change (Pos.compare_cont Eq) with Pos.compare.
  all: rewrite (Z.compare_antisym ex ey), (Pos.compare_antisym mx my).
  all: destruct (ex ?= ey)%Z; cbn [CompOpp]; try reflexivity.
  all: destruct (mx ?= my)%positive; reflexivity.
Qed.

Lemma float_ltb_opp (x y : float) : (- x <? - y)%float = (y <? x)%float.
Proof. rewrite !ltb_spec, !opp_spec. apply SFltb_opp. Qed.

Lemma float_eqb_ltb (x y : float) : (x =? y)%float = true -> (x <? y)%float = false.
Proof.
  rewrite FloatAxioms.eqb_spec, ltb_spec. unfold SFeqb, SFltb.
  destruct (SFcompare _ _) as [[]|]; congruence.
Qed.

Lemma float_nonneg_spec (x : float) : (0 <=? x)%float = SFnonneg (Prim2SF x).
Proof.
  rewrite leb_spec. change (Prim2SF 0) with (S754_zero false).
  destruct (Prim2SF x) as [s|s| |s m e]; try reflexivity; destruct s; reflexivity.
Qed.

Lemma shr_1_nonneg mrs : 0 <= shr_m mrs -> 0 <= shr_m (shr_1 mrs).
Proof.
  destruct mrs as [m r s]; simpl. intros H.
  destruct m as [|p|p]; [simpl; lia| |lia].
  destruct p; simpl; lia.
Qed.

Lemma iter_shr_1_nonneg p : forall mrs, 0 <= shr_m mrs -> 0 <= shr_m (SpecFloat.iter_pos shr_1 p mrs).
Proof.
  induction p as [p IH|p IH|]; intros mrs H; simpl; auto using shr_1_nonneg.
Qed.

Lemma shr_fexp_nonneg prec emax m e l :
  0 <= m -> 0 <= shr_m (fst (shr_fexp prec emax m e l)).
Proof.
  intros H. unfold shr_fexp, shr.
  assert (H0 : 0 <= shr_m (shr_record_of_loc m l)).
  { destruct l as [|[]]; simpl; exact H. }
  destruct (fexp prec emax (Zdigits2 m + e) - e); simpl; auto using iter_shr_1_nonneg.
Qed.

Lemma round_nearest_even_nonneg m l : 0 <= m -> 0 <= round_nearest_even m l.
Proof.
  intros H. unfold round_nearest_even. destruct l as [|[]]; try lia.
  destruct (Z.even m); lia.
Qed.

Lemma binary_round_aux_nonneg prec emax m e l :
  0 <= m -> SFnonneg (binary_round_aux prec emax false m e l) = true.
Proof.
  intros H. unfold binary_round_aux.
  pose proof (shr_fexp_nonneg prec emax m e l H) as H1.
  destruct (shr_fexp prec emax m e l) as [mrs' e'] eqn:E1. simpl in H1.
  pose proof (shr_fexp_nonneg prec emax _ e' loc_Exact
                (round_nearest_even_nonneg _ (loc_of_shr_record mrs') H1)) as H2.
  destruct (shr_fexp prec emax (round_nearest_even _ _) e' loc_Exact) as [mrs'' e''].
  simpl in H2. destruct (shr_m mrs''); [reflexivity| |lia].
  destruct (e'' <=? emax - prec); reflexivity.
Qed.

Lemma binary_normalize_nonneg prec emax m e :
  0 <= m -> SFnonneg (binary_normalize prec emax m e false) = true.
Proof.
  intros H. unfold binary_normalize. destruct m as [|p|p]; [reflexivity| |lia].
  unfold binary_round. destruct (shl_align _ _ _) as [mz ez].
  apply binary_round_aux_nonneg. lia.
Qed.

Lemma SFadd_nonneg prec emax x y :
  SFnonneg x = true -> SFnonneg y = true -> SFnonneg (SFadd prec emax x y) = true.
Proof.
  destruct x as [sx|sx| |sx mx ex], y as [sy|sy| |sy my ey]; simpl;
    try discriminate; try (destruct sx; discriminate); try (destruct sy; discriminate).
  all: try (destruct sx, sy; simpl; congruence).
  all: try (destruct sx; simpl; congruence).
  all: try (destruct sy; simpl; congruence).
  destruct sx, sy; try discriminate. intros _ _.
  apply binary_normalize_nonneg. simpl. lia.
Qed.

Lemma float_add_nonneg (x y : float) :
  (0 <=? x)%float = true -> (0 <=? y)%float = true -> (0 <=? x + y)%float = true.
Proof.
  rewrite !float_nonneg_spec, add_spec. apply SFadd_nonneg.
Qed.

Lemma float_of_Z_nonneg (z : Z) : 0 <= z -> (0 <=? Py.float_of_Z z)%float = true.
Proof.
  intros H. destruct z as [|p|p]; [reflexivity| |lia].
  unfold Py.float_of_Z. rewrite float_nonneg_spec, of_uint63_spec.
  apply binary_normalize_nonneg. apply Uint63.to_Z_bounded.
Qed.

Lemma py_max_0_nonneg (x : float) : (0 <=? Py.max 0 x)%float = true.
Proof.
  unfold Py.max. destruct (0 <? x)%float eqn:E; [by apply float_ltb_leb | reflexivity].
Qed.

(** ** Ordered dictionaries *)

Section odict_facts.
Context {V : Type}.
Implicit Types (d : odict V) (k : string) (v : V).

Lemma od_keys_alter f k d : od_keys (od_alter f k d) = od_keys d.
Proof.
  induction d as [|[k' v] d IH]; simpl; [done|].
  destruct (String.eqb k' k); simpl; [done|]. by f_equal.
Qed.

Lemma od_get_alter f k k' d :
  od_get k (od_alter f k' d) = if decide (k = k') then f <$> od_get k d else od_get k d.
Proof.
  induction d as [|[k0 v] d IH]; simpl.
  - by destruct (decide _).
  - destruct (String.eqb_spec k0 k') as [->|Hne]; simpl.
    + destruct (String.eqb_spec k' k) as [->|Hne'].
      * by rewrite decide_True.
      * by rewrite decide_False.
    + destruct (String.eqb_spec k0 k) as [->|Hne'].
      * by rewrite decide_False.
      * exact IH.
Qed.

Lemma od_get_set k k' v d :
  od_get k (od_set k' v d) = if decide (k = k') then Some v else od_get k d.
Proof.
  induction d as [|[k0 v0] d IH]; simpl.
  - destruct (String.eqb_spec k' k) as [->|Hne].
    + by rewrite decide_True.
    + by rewrite decide_False.
  - destruct (String.eqb_spec k0 k') as [->|Hne]; simpl.
    + destruct (String.eqb_spec k' k) as [->|Hne'].
      * by rewrite decide_True.
      * by rewrite decide_False.
    + destruct (String.eqb_spec k0 k) as [->|Hne'].
      * by rewrite decide_False.
      * exact IH.
Qed.

Lemma od_keys_set k v d :
  od_keys (od_set k v d) = if decide (k ∈ od_keys d) then od_keys d else od_keys d ++ [k].
Proof.
  unfold od_keys. induction d as [|[k0 v0] d IH].
  - destruct (decide (k ∈ map fst [])) as [H|H]; [by apply elem_of_nil in H|done].
  - cbn [od_set]. destruct (String.eqb_spec k0 k) as [->|Hne]; cbn [map fst] in *.
    + destruct (decide (k ∈ k :: map fst d)) as [H|H]; [done|].
      exfalso. apply H. by left.
    + rewrite IH.
      destruct (decide (k ∈ map fst d)) as [Hin|Hnin];
        destruct (decide (k ∈ k0 :: map fst d)) as [H|H]; try done.
      * exfalso. apply H. by right.
      * apply elem_of_cons in H as [?|?]; [congruence|done].
Qed.

Lemma od_keys_set_NoDup k v d : NoDup (od_keys d) -> NoDup (od_keys (od_set k v d)).
Proof.
  intros Hnd. rewrite od_keys_set. destruct (decide _) as [|Hnin]; [done|].
  apply NoDup_app. split_and!; [done| |apply NoDup_singleton].
  intros x Hx ->%list_elem_of_singleton. done.
Qed.

Lemma od_get_elem k v d : NoDup (od_keys d) -> (k, v) ∈ d -> od_get k d = Some v.
Proof.
  induction d as [|[k0 v0] d IH]; simpl; intros Hnd Hin.
  - by apply elem_of_nil in Hin.
  - apply NoDup_cons in Hnd as [Hk0 Hnd].
    apply elem_of_cons in Hin as [[= -> ->]|Hin].
    + by rewrite String.eqb_refl.
    + destruct (String.eqb_spec k0 k) as [->|Hne]; [|by apply IH].
      exfalso. apply Hk0. unfold od_keys. apply list_elem_of_fmap. by exists (k, v).
Qed.

Lemma od_get_Some_elem k v d : od_get k d = Some v -> (k, v) ∈ d.
Proof.
  induction d as [|[k0 v0] d IH]; simpl; [done|].
  destruct (String.eqb_spec k0 k) as [->|Hne].
  - intros [= ->]. by left.
  - intros H. right. by apply IH.
Qed.

Context {A : Type} (key : A -> string) (val : A -> V).

Lemma od_fill_NoDup l : forall d, NoDup (od_keys d) -> NoDup (od_keys (od_fill key val d l)).
Proof.
  induction l as [|a l IH]; intros d Hd; simpl; [done|].
  apply IH. by apply od_keys_set_NoDup.
Qed.

Lemma od_fill_get_other l : forall d k,
  k ∉ map key l -> od_get k (od_fill key val d l) = od_get k d.
Proof.
  induction l as [|a l IH]; intros d k Hk; simpl; [done|].
  rewrite IH.
  - rewrite od_get_set. rewrite decide_False; [done|].
    intros ->. apply Hk. by left.
  - intros Hin. apply Hk. by right.
Qed.

Lemma od_fill_get l : forall d a,
  NoDup (map key l) -> a ∈ l -> od_get (key a) (od_fill key val d l) = Some (val a).
Proof.
  induction l as [|b l IH]; intros d a Hnd Hin; simpl.
  - by apply elem_of_nil in Hin.
  - apply NoDup_cons in Hnd as [Hb Hnd].
    apply elem_of_cons in Hin as [->|Hin].
    + rewrite od_fill_get_other by done. rewrite od_get_set. by rewrite decide_True.
    + by apply IH.
Qed.

End odict_facts.

Section matching.
Import NegotiationEngine.

(** ** Patient matching *)

Lemma foldl_best_elem {A} (key : A -> float) l : forall x,
  foldl (fun best y => if (key best <? key y)%float then y else best) x l ∈ x :: l.
Proof.
  induction l as [|y l IH]; intros x; simpl; [by left|].
  destruct (key x <? key y)%float.
  - right. apply IH.
  - specialize (IH x). apply elem_of_cons in IH as [->|IH]; [by left|by do 2 right].
Qed.

Lemma max_by_elem {A} (key : A -> float) l x : Py.max_by key l = Some x -> x ∈ l.
Proof.
  destruct l as [|y l]; simpl; [done|]. intros [= <-]. apply foldl_best_elem.
Qed.

Lemma candidates_of_elem p cap pri c :
  c ∈ candidates_of p cap pri ->
  exists hd, (c_id c, hd) ∈ cap /\ no_capacity (p_severity p) hd = false.
Proof.
  unfold candidates_of. intros Hc.
  apply list_elem_of_omap in Hc as [[h_id hd] [Hin Hsome]].
  destruct (no_capacity (p_severity p) hd) eqn:E; [done|].
  injection Hsome as <-. exists hd. simpl. done.
Qed.

Lemma _find_best_hospital_capacity p cap pri best :
  NoDup (od_keys cap) ->
  _find_best_hospital p cap pri = Some best ->
  exists hd, od_get (c_id best) cap = Some hd /\ no_capacity (p_severity p) hd = false.
Proof.
  intros Hnd Hbest. apply max_by_elem, candidates_of_elem in Hbest as [hd [Hin Hcap]].
  exists hd. split; [by apply od_get_elem|done].
Qed.

Lemma icu_load_cons h a l :
  icu_load h (a :: l) = (if takes_icu h a then 1 else 0) + icu_load h l.
Proof. unfold icu_load. simpl. destruct (takes_icu h a); simpl; lia. Qed.

Lemma bed_load_cons h a l :
  bed_load h (a :: l) = (if takes_bed h a then 1 else 0) + bed_load h l.
Proof. unfold bed_load. simpl. destruct (takes_bed h a); simpl; lia. Qed.

(** The invariant of the matching loop: what a hospital is still charged
    with never exceeds its tentative counters. *)
Lemma assign_loop_load patients : forall cap pri res final,
  NoDup (od_keys cap) ->
  assign_loop patients cap pri = (res, final) ->
  forall h hd, od_get h cap = Some hd ->
    icu_load h res <= Z.max 0 (icu hd) /\ bed_load h res <= Z.max 0 (beds hd).
Proof.
  induction patients as [|p rest IH]; intros cap pri res final Hnd Hloop h hd Hget.
  - injection Hloop as <- <-. unfold icu_load, bed_load. simpl. lia.
  - simpl in Hloop.
    destruct (_find_best_hospital p cap pri) as [best|] eqn:Hbest; [|by eapply IH].
    destruct (_find_best_hospital_capacity _ _ _ _ Hnd Hbest) as [hb [Hgb Hcap]].
    unfold no_capacity in Hcap.
    destruct (assign_loop rest _ pri) as [res' final'] eqn:Hrest.
    injection Hloop as <- <-.
    rewrite icu_load_cons, bed_load_cons. unfold takes_icu, takes_bed. cbn [assigned_hospital patient_severity].
    assert (Hstep : forall f,
      assign_loop rest (od_alter f (c_id best) cap) pri = (res', final') ->
      let hd' := if decide (h = c_id best) then f hd else hd in
      icu_load h res' <= Z.max 0 (icu hd') /\ bed_load h res' <= Z.max 0 (beds hd')).
    { intros f Hf. eapply IH; [|exact Hf|]; [by rewrite od_keys_alter|].
      rewrite od_get_alter, Hget. by destruct (decide _). }
    destruct (String.eqb (p_severity p) "critical") eqn:Hsev;
      apply Z.leb_gt in Hcap; apply Hstep in Hrest; clear Hstep;
      (destruct (decide (h = c_id best)) as [->|Hne];
       [ rewrite Hget in Hgb; injection Hgb as ->; rewrite String.eqb_refl
       | destruct (String.eqb_spec (c_id best) h) as [?|_]; [congruence|] ]);
      simpl in *; lia.
Qed.

Lemma build_hospital_capacity_NoDup hospitals :
  NoDup (od_keys (build_hospital_capacity hospitals)).
Proof. apply od_fill_NoDup. apply NoDup_nil_2. Qed.

Lemma build_hospital_capacity_get hospitals m :
  NoDup (map hm_agent_id hospitals) -> m ∈ hospitals ->
  exists hd, od_get (hm_agent_id m) (build_hospital_capacity hospitals) = Some hd
             /\ beds hd = hm_available_beds m /\ icu hd = hm_icu_available m.
Proof.
  intros Hnd Hin. eexists. split.
  - unfold build_hospital_capacity. by apply od_fill_get.
  - done.
Qed.

(** C2. Within one negotiation round, the assignments that draw on a
    hospital's ICU never outnumber the ICU slots the hospital reported at
    the start of the round, and those that draw on its general beds never
    outnumber the beds it reported. *)
Theorem C2_no_overcommit_within_round
    (e : NegotiationEngine.t) (hospital_messages : list hospital_msg)
    (ambulance_messages : list ambulance_msg) (supply_message : supply_msg)
    (priorities : gmap string float) (waiting : list patient) (m : hospital_msg) :
  NoDup (map hm_agent_id hospital_messages) ->
  m ∈ hospital_messages ->
  0 <= hm_icu_available m ->
  0 <= hm_available_beds m ->
  let assignments :=
    patient_assignments
      (fst (run_negotiation e hospital_messages ambulance_messages supply_message
              priorities waiting)) in
  icu_load (hm_agent_id m) assignments <= hm_icu_available m
  /\ bed_load (hm_agent_id m) assignments <= hm_available_beds m.
Proof.
  intros Hnd Hin Hicu Hbeds. cbn [run_negotiation fst patient_assignments].
  unfold _assign_patients_to_hospitals.
  destruct (build_hospital_capacity_get _ _ Hnd Hin) as [hd [Hget [Hb Hi]]].
  destruct (assign_loop _ _ priorities) as [res final] eqn:Hloop. cbn [fst].
  pose proof (assign_loop_load _ _ _ _ _ (build_hospital_capacity_NoDup _) Hloop
                _ _ Hget) as [H1 H2].
  lia.
Qed.


Lemma C2_no_overcommit_within_round_witness :
  let assignments :=
    patient_assignments
      (fst (run_negotiation NegotiationEngine.init [Examples.hospital_b_msg] []
              Examples.depot_msg ∅
              [Examples.high_patient; Examples.critical_patient;
               Examples.critical_patient])) in
  icu_load "hospital_b" assignments <= 6 /\ bed_load "hospital_b" assignments <= 45.
Proof.
  apply (C2_no_overcommit_within_round NegotiationEngine.init
           [Examples.hospital_b_msg] [] Examples.depot_msg ∅
           [Examples.high_patient; Examples.critical_patient; Examples.critical_patient]
           Examples.hospital_b_msg).
  - apply NoDup_singleton.
  - by left.
  - by vm_compute.
  - by vm_compute.
Defined.

(** The message of the example is the one the agent generates. *)
Lemma hospital_b_generates_its_message :
  HospitalAgent.generate_message Examples.hospital_b = Py.Ok Examples.hospital_b_msg.
Proof. vm_compute. reflexivity. Qed.

(** C1. At the shipped hospital B, a casualty of severity "high" (ESI 2
    in the severity table) is matched by the negotiation engine against
    the general-bed counter, which it decrements, while the hospital's own
    admission path books the same casualty into the ICU; and the step that
    is to commit the match raises [TypeError], the severity text being
    compared with an integer. *)
Theorem C1_high_severity_is_matched_to_a_general_bed :
  let round :=
    assign_loop [Examples.high_patient]
      (build_hospital_capacity [Examples.hospital_b_msg]) ∅ in
  let admitted :=
    snd (HospitalAgent._handle_patient_assignment Examples.hospital_b
           "patient_007" "high" None "2026-01-01T00:00:00") in
  map assigned_hospital (fst round) = ["hospital_b"]
  /\ bed_load "hospital_b" (fst round) = 1
  /\ icu_load "hospital_b" (fst round) = 0
  /\ (fun h => (beds h, icu h)) <$> od_get "hospital_b" (snd round) = Some (44, 6)
  /\ Constants.SEVERITY_TO_ESI "high" = Some 2
  /\ (HospitalAgent.available_beds admitted, HospitalAgent.icu_available admitted)
     = (45, 5)
  /\ map HospitalAgent.pr_unit (HospitalAgent.patients_admitted admitted) = ["ICU"]
  /\ (Simulator.step Examples.one_waiting Examples.clock_a 0 []).1.1
     = Py.Raise Py.TypeError.
Proof. vm_compute. repeat split; reflexivity. Qed.

End matching.


(** ** Constraint checker *)

Section checker.
Import NegotiationEngine ConstraintChecker.

Lemma remaining_alter (m : gmap string Z) (h k : string) :
  default 0 (alter (fun n => n - 1) k m !! h)
  = if decide (h = k) then default 0 ((fun n => n - 1) <$> m !! h) else default 0 (m !! h).
Proof.
  destruct (decide (h = k)) as [->|Hne].
  - by rewrite lookup_alter_eq.
  - by rewrite lookup_alter_ne.
Qed.

Lemma filter_loop_spec proposed : forall rb ri valid rejected,
  filter_loop proposed rb ri = (valid, rejected) ->
  proposed ≡ₚ valid ++ map rj_allocation rejected
  /\ (forall h, icu_load h valid <= Z.max 0 (default 0 (ri !! h))
                /\ bed_load h valid <= Z.max 0 (default 0 (rb !! h)))
  /\ Forall (fun r => rejection_reason r = reason_for (rj_allocation r)) rejected.
Proof.
  induction proposed as [|a rest IH]; intros rb ri valid rejected Hloop.
  - injection Hloop as <- <-. split_and!; [done| |done].
    intros h. unfold icu_load, bed_load. simpl. lia.
  - cbn [filter_loop] in Hloop.
    destruct (String.eqb (patient_severity a) "critical") eqn:Hsev.
    + destruct (0 <? default 0 (ri !! assigned_hospital a)) eqn:Hcap.
      * destruct (filter_loop rest rb _) as [valid' rejected'] eqn:Hrest.
        injection Hloop as <- <-. apply IH in Hrest as (Hp & Hload & Hr).
        split_and!; [by constructor| |done].
        intros h. specialize (Hload h). rewrite remaining_alter in Hload.
        rewrite icu_load_cons, bed_load_cons. unfold takes_icu, takes_bed. rewrite Hsev.
        apply Z.ltb_lt in Hcap.
        destruct (decide (h = assigned_hospital a)) as [->|Hne].
        -- rewrite String.eqb_refl. simpl.
           destruct (ri !! assigned_hospital a); simpl in *; lia.
        -- destruct (String.eqb_spec (assigned_hospital a) h); [congruence|]. simpl. lia.
      * destruct (filter_loop rest rb ri) as [valid' rejected'] eqn:Hrest.
        injection Hloop as <- <-. apply IH in Hrest as (Hp & Hload & Hr).
        split_and!; [|done|].
        -- cbn [map rj_allocation]. rewrite <- Permutation_middle. by constructor.
        -- constructor; [|done]. unfold reason_for. simpl. by rewrite Hsev.
    + destruct (0 <? default 0 (rb !! assigned_hospital a)) eqn:Hcap.
      * destruct (filter_loop rest _ ri) as [valid' rejected'] eqn:Hrest.
        injection Hloop as <- <-. apply IH in Hrest as (Hp & Hload & Hr).
        split_and!; [by constructor| |done].
        intros h. specialize (Hload h). rewrite remaining_alter in Hload.
        rewrite icu_load_cons, bed_load_cons. unfold takes_icu, takes_bed. rewrite Hsev.
        apply Z.ltb_lt in Hcap.
        destruct (decide (h = assigned_hospital a)) as [->|Hne].
        -- rewrite String.eqb_refl. simpl.
           destruct (rb !! assigned_hospital a); simpl in *; lia.
        -- destruct (String.eqb_spec (assigned_hospital a) h); [congruence|]. simpl. lia.
      * destruct (filter_loop rest rb ri) as [valid' rejected'] eqn:Hrest.
        injection Hloop as <- <-. apply IH in Hrest as (Hp & Hload & Hr).
        split_and!; [|done|].
        -- cbn [map rj_allocation]. rewrite <- Permutation_middle. by constructor.
        -- constructor; [|done]. unfold reason_for. simpl. by rewrite Hsev.
Qed.

(** Two proposals of one class for one hospital that has a single slot of
    that class left: the first is accepted, the second rejected. *)
Lemma filter_loop_one_slot rb ri p1 p2 :
  assigned_hospital p2 = assigned_hospital p1 ->
  patient_severity p2 = patient_severity p1 ->
  default 0 ((if String.eqb (patient_severity p1) "critical" then ri else rb)
               !! assigned_hospital p1) = 1 ->
  filter_loop [p1; p2] rb ri
  = ([p1], [ {| rj_allocation := p2; rejection_reason := reason_for p2 |} ]).
Proof.
  intros Hh Hs Hone. unfold reason_for. cbn [filter_loop]. rewrite Hh, Hs.
  destruct (String.eqb (patient_severity p1) "critical") eqn:Hsev.
  - rewrite Hone. cbn [Z.ltb Z.compare]. rewrite remaining_alter, decide_True by done.
    destruct (ri !! assigned_hospital p1) as [n|]; simpl in *; [|lia].
    subst n. reflexivity.
  - rewrite Hone. cbn [Z.ltb Z.compare]. rewrite remaining_alter, decide_True by done.
    destruct (rb !! assigned_hospital p1) as [n|]; simpl in *; [|lia].
    subst n. reflexivity.
Qed.

(** C3. The constraint checker splits the proposals into accepted and
    rejected ones, checking each against running per-hospital counters:
    the accepted proposals of a class for a hospital never outnumber the
    slots of that class in the ledger, every rejected proposal carries its
    reason, and of two proposals of one class that target a hospital with
    exactly one slot of that class the first is accepted and the second
    is rejected. *)
Theorem C3_validation_uses_running_counters
    (proposed : list assignment) (hospitals : gmap string hospital_state)
    (ambulances : gmap string ambulance_state) :
  let valid := fst (filter_valid_allocations proposed hospitals ambulances) in
  let rejected := snd (filter_valid_allocations proposed hospitals ambulances) in
  proposed ≡ₚ valid ++ map rj_allocation rejected
  /\ (forall h, icu_load h valid <= Z.max 0 (icu_slots hospitals h)
                /\ bed_load h valid <= Z.max 0 (bed_slots hospitals h))
  /\ Forall (fun r => rejection_reason r = reason_for (rj_allocation r)) rejected
  /\ (forall p1 p2,
        proposed = [p1; p2] ->
        assigned_hospital p2 = assigned_hospital p1 ->
        patient_severity p2 = patient_severity p1 ->
        (if String.eqb (patient_severity p1) "critical"
         then icu_slots hospitals (assigned_hospital p1)
         else bed_slots hospitals (assigned_hospital p1)) = 1 ->
        valid = [p1]
        /\ rejected = [ {| rj_allocation := p2; rejection_reason := reason_for p2 |} ]).
Proof.
  unfold filter_valid_allocations, icu_slots, bed_slots.
  destruct (filter_loop proposed _ _) as [valid rejected] eqn:Hloop. cbn [fst snd].
  pose proof (filter_loop_spec _ _ _ _ _ Hloop) as (Hp & Hload & Hr).
  split_and!; [done| |done|].
  - intros h. specialize (Hload h). by rewrite !lookup_fmap in Hload.
  - intros p1 p2 -> Hh Hs Hone.
    rewrite filter_loop_one_slot in Hloop; [by injection Hloop as <- <-|done|done|].
    rewrite <- Hone. destruct (String.eqb _ _); by rewrite lookup_fmap.
Qed.


Lemma C3_validation_uses_running_counters_witness :
  fst (filter_valid_allocations
         [Examples.proposal "patient_001"; Examples.proposal "patient_002"]
         Examples.one_icu_slot ∅)
  = [Examples.proposal "patient_001"]
  /\ snd (filter_valid_allocations
            [Examples.proposal "patient_001"; Examples.proposal "patient_002"]
            Examples.one_icu_slot ∅)
     = [ {| rj_allocation := Examples.proposal "patient_002";
            rejection_reason := "No ICU capacity" |} ].
Proof.
  destruct (C3_validation_uses_running_counters
              [Examples.proposal "patient_001"; Examples.proposal "patient_002"]
              Examples.one_icu_slot ∅) as (_ & _ & _ & H).
  apply (H (Examples.proposal "patient_001") (Examples.proposal "patient_002"));
    [reflexivity|reflexivity|reflexivity|].
  vm_compute. reflexivity.
Defined.

End checker.

(** ** Sorting

    [Py.sorted] permutes its input, is stable, and orders it by any
    comparison that is a strict order. *)

Section sorting.
Context {A : Type}.
Implicit Types (lt : A -> A -> bool) (l : list A).

Lemma insert_by_Permutation lt x l : Py.insert_by lt x l ≡ₚ x :: l.
Proof.
  induction l as [|y l IH]; simpl; [done|].
  destruct (lt x y); [done|]. rewrite IH. apply perm_swap.
Qed.

Lemma sorted_from_Permutation lt l : forall acc,
  foldl (fun acc x => Py.insert_by lt x acc) acc l ≡ₚ acc ++ l.
Proof.
  induction l as [|x l IH]; intros acc; simpl; [by rewrite app_nil_r|].
  rewrite IH, insert_by_Permutation. by rewrite <- Permutation_middle.
Qed.

Lemma sorted_Permutation lt l : Py.sorted lt l ≡ₚ l.
Proof. unfold Py.sorted. by rewrite sorted_from_Permutation. Qed.

Variable key : A -> Z.

Lemma insert_by_sorted x l :
  StronglySorted (fun a b => key a <= key b) l ->
  StronglySorted (fun a b => key a <= key b)
    (Py.insert_by (fun a b => key a <? key b) x l).
Proof.
  induction l as [|y l IH]; simpl; intros Hs.
  - repeat constructor.
  - apply StronglySorted_inv in Hs as [Hs Hy].
    destruct (Z.ltb_spec (key x) (key y)) as [Hlt|Hge].
    + apply SSorted_cons.
      * by apply SSorted_cons.
      * constructor; [lia|]. eapply Forall_impl; [exact Hy|]. simpl. intros; lia.
    + apply SSorted_cons; [by apply IH|].
      rewrite (insert_by_Permutation _ x l). by constructor.
Qed.

Lemma sorted_from_sorted l : forall acc,
  StronglySorted (fun a b => key a <= key b) acc ->
  StronglySorted (fun a b => key a <= key b)
    (foldl (fun acc x => Py.insert_by (fun a b => key a <? key b) x acc) acc l).
Proof.
  induction l as [|x l IH]; intros acc Hs; simpl; [done|].
  apply IH. by apply insert_by_sorted.
Qed.

Lemma sorted_sorted l :
  StronglySorted (fun a b => key a <= key b) (Py.sorted (fun a b => key a <? key b) l).
Proof. apply sorted_from_sorted. constructor. Qed.

(** Stability: the elements of one rank keep their order. *)
Lemma insert_by_stable k x l :
  StronglySorted (fun a b => key a <= key b) l ->
  List.filter (fun a => key a =? k) (Py.insert_by (fun a b => key a <? key b) x l)
  = List.filter (fun a => key a =? k) l ++ (if key x =? k then [x] else []).
Proof.
  induction l as [|y l IH]; simpl; intros Hs.
  - by destruct (key x =? k).
  - apply StronglySorted_inv in Hs as [Hs Hy].
    destruct (Z.ltb_spec (key x) (key y)) as [Hlt|Hge]; simpl.
    + destruct (Z.eqb_spec (key x) k) as [Hk|Hk].
      * destruct (Z.eqb_spec (key y) k) as [?|_]; [lia|].
        assert (Hnone : List.filter (fun a => key a =? k) l = []).
        { clear IH Hs. induction l as [|z l IHl]; simpl; [done|].
          apply Forall_cons in Hy as [Hz Hy].
          destruct (Z.eqb_spec (key z) k); [lia|]. by apply IHl. }
        by rewrite Hnone.
      * by rewrite app_nil_r.
    + rewrite (IH Hs). by destruct (key y =? k).
Qed.

Lemma sorted_from_stable k l : forall acc,
  StronglySorted (fun a b => key a <= key b) acc ->
  List.filter (fun a => key a =? k)
    (foldl (fun acc x => Py.insert_by (fun a b => key a <? key b) x acc) acc l)
  = List.filter (fun a => key a =? k) acc ++ List.filter (fun a => key a =? k) l.
Proof.
  induction l as [|x l IH]; intros acc Hs; simpl; [by rewrite app_nil_r|].
  rewrite IH by (by apply insert_by_sorted). rewrite insert_by_stable by done.
  rewrite <- app_assoc. by destruct (key x =? k).
Qed.

Lemma sorted_stable k l :
  List.filter (fun a => key a =? k) (Py.sorted (fun a b => key a <? key b) l)
  = List.filter (fun a => key a =? k) l.
Proof. unfold Py.sorted. rewrite sorted_from_stable; [done|constructor]. Qed.

Lemma StronglySorted_split (R : A -> A -> Prop) l1 l2 x y :
  StronglySorted R (l1 ++ l2) -> x ∈ l1 -> y ∈ l2 -> R x y.
Proof.
  induction l1 as [|z l1 IH]; simpl; intros Hs Hx Hy; [by apply elem_of_nil in Hx|].
  apply StronglySorted_inv in Hs as [Hs Hz].
  apply elem_of_cons in Hx as [->|Hx]; [|by apply IH].
  rewrite Forall_forall in Hz. apply Hz. apply elem_of_app. by right.
Qed.

End sorting.

Lemma StronglySorted_ext {A} (R R' : A -> A -> Prop) (l : list A) :
  (forall a b, R a b -> R' a b) -> StronglySorted R l -> StronglySorted R' l.
Proof.
  intros HR. induction 1 as [|x l _ IH Hx]; constructor; [done|].
  eapply List.Forall_impl; [|exact Hx]. intros b. apply HR.
Qed.

Section ordered_sort.
Context {A : Type} (lt : A -> A -> bool).
Hypothesis lt_irrefl : forall a, lt a a = false.
Hypothesis lt_trans : forall a b c, lt a b = true -> lt b c = true -> lt a c = true.

Lemma lt_asym a b : lt a b = true -> lt b a = false.
Proof.
  intros Hab. destruct (lt b a) eqn:Hba; [|done].
  by rewrite <- (lt_irrefl a), (lt_trans _ _ _ Hab Hba).
Qed.

Lemma insert_by_ordered x l :
  StronglySorted (fun a b => lt b a = false) l ->
  StronglySorted (fun a b => lt b a = false) (Py.insert_by lt x l).
Proof.
  induction l as [|y l IH]; simpl; intros Hs.
  - repeat constructor.
  - apply StronglySorted_inv in Hs as [Hs Hy].
    destruct (lt x y) eqn:Hxy.
    + constructor; [by constructor|].
      constructor; [by apply lt_asym|].
      rewrite List.Forall_forall in Hy. apply List.Forall_forall. intros z Hz.
      destruct (lt z x) eqn:Hzx; [|done].
      by rewrite <- (Hy z Hz), (lt_trans _ _ _ Hzx Hxy).
    + constructor; [by apply IH|].
      assert (Hin : forall z, In z (Py.insert_by lt x l) -> z = x \/ In z l).
      { clear. induction l as [|y l IH]; simpl; intros z.
        - intros [->|[]]. by left.
        - destruct (lt x y); simpl; [naive_solver|].
          intros [->|Hz]; [naive_solver|]. destruct (IH z Hz); naive_solver. }
      rewrite List.Forall_forall in Hy. apply List.Forall_forall. intros z Hz.
      destruct (Hin z Hz) as [->|Hz']; [done|by apply Hy].
Qed.

Lemma sorted_ordered l : StronglySorted (fun a b => lt b a = false) (Py.sorted lt l).
Proof.
  unfold Py.sorted.
  assert (H : forall acc, StronglySorted (fun a b => lt b a = false) acc ->
                StronglySorted (fun a b => lt b a = false)
                  (foldl (fun acc x => Py.insert_by lt x acc) acc l)).
  { induction l as [|x l IH]; intros acc Hacc; simpl; [done|].
    apply IH. by apply insert_by_ordered. }
  apply H. constructor.
Qed.

End ordered_sort.

(** ** Supply allocation *)

Section supply.
Import NegotiationEngine.

Lemma allocate_loop_skip req rest available :
  default 0 (available !! rq_resource (tr_request req)) <= 0 ->
  allocate_loop (req :: rest) available = allocate_loop rest available.
Proof.
  intros H. cbn [allocate_loop].
  destruct (String.eqb _ "ambulance_diversion"); [done|].
  apply Z.ltb_ge in H. by rewrite H.
Qed.

Lemma allocate_loop_grant req rest available :
  rq_resource (tr_request req) <> "ambulance_diversion" ->
  0 < default 0 (available !! rq_resource (tr_request req)) ->
  let resource := rq_resource (tr_request req) in
  let available_qty := default 0 (available !! resource) in
  let allocated := Z.min (rq_quantity (tr_request req)) available_qty in
  let next := allocate_loop rest (<[resource := available_qty - allocated]> available) in
  allocate_loop (req :: rest) available
  = ({| al_hospital_id := tr_hospital_id req; al_hospital_name := tr_hospital_name req;
        al_resource := resource; al_quantity := allocated;
        al_urgency := rq_urgency (tr_request req) |} :: fst next, snd next).
Proof.
  intros Hne Hpos. cbn [allocate_loop].
  destruct (String.eqb_spec (rq_resource (tr_request req)) "ambulance_diversion"); [done|].
  apply Z.ltb_lt in Hpos. rewrite Hpos. cbn zeta.
  by destruct (allocate_loop rest _).
Qed.

Lemma tier_urgency_order u : urgency_order u = tier u.
Proof.
  unfold urgency_order, severity_order, tier.
  destruct (String.eqb u "critical"); [done|].
  destruct (String.eqb u "high"); [done|].
  destruct (String.eqb_spec u "medium") as [->|_]; [done|].
  by destruct (String.eqb u "low").
Qed.

(** The comparison of the sort keys is the order of the specification. *)
Lemma key_lt_goes_before a b :
  key_lt (request_key a) (request_key b) = request_goes_before a b.
Proof.
  unfold key_lt, request_key, request_goes_before, goes_before. cbn [fst snd].
  rewrite !tier_urgency_order, float_ltb_opp.
  destruct (Z.eqb_spec (tier (rq_urgency (tr_request a)))
                       (tier (rq_urgency (tr_request b)))) as [Heq|Hne].
  - rewrite Heq, Z.ltb_irrefl. cbn [orb andb].
    destruct (_ =? _)%float eqn:E; [|done].
    apply float_eqb_ltb in E. by rewrite float_ltb_opp in E.
  - by rewrite orb_false_r.
Qed.

Lemma request_goes_before_irrefl a : request_goes_before a a = false.
Proof.
  unfold request_goes_before, goes_before.
  by rewrite Z.ltb_irrefl, float_ltb_irrefl, andb_false_r.
Qed.

Lemma request_goes_before_trans a b c :
  request_goes_before a b = true -> request_goes_before b c = true ->
  request_goes_before a c = true.
Proof.
  unfold request_goes_before, goes_before.
  intros [H1|[H1 H1']%andb_true_iff]%orb_true_iff
         [H2|[H2 H2']%andb_true_iff]%orb_true_iff;
    apply orb_true_iff.
  - left. lia.
  - left. lia.
  - left. lia.
  - right. apply andb_true_iff. split; [lia|].
    exact (float_ltb_trans _ _ _ H2' H1').
Qed.

(** The engine's sort loses no request and leaves no request ahead of one
    that the specification's order puts before it. *)
Lemma sorted_requests_ordered hospitals :
  sorted_requests hospitals ≡ₚ collect_requests hospitals
  /\ StronglySorted (fun a b => request_goes_before b a = false)
       (sorted_requests hospitals).
Proof.
  unfold sorted_requests. split; [apply sorted_Permutation|].
  pose proof (sorted_ordered (fun r1 r2 => key_lt (request_key r1) (request_key r2)))
    as H.
  eapply StronglySorted_ext; [|apply H].
  - intros a b. cbn beta. by rewrite key_lt_goes_before.
  - intros a. rewrite key_lt_goes_before. apply request_goes_before_irrefl.
  - intros a b c. rewrite !key_lt_goes_before. apply request_goes_before_trans.
Qed.

Lemma request_goes_before_tagged ha ra hb rb :
  request_goes_before (tagged ha ra) (tagged hb rb)
  = goes_before (rq_urgency ra) (hm_priority_score ha)
                (rq_urgency rb) (hm_priority_score hb).
Proof. reflexivity. Qed.

(** Two hospitals with one request each: the second to arrive is served
    first exactly when the specification's order puts it strictly before
    the first. *)
Lemma sorted_requests_pair ha hb ra rb :
  hm_requests ha = [ra] -> hm_requests hb = [rb] ->
  sorted_requests [ha; hb]
  = if request_goes_before (tagged hb rb) (tagged ha ra)
    then [tagged hb rb; tagged ha ra] else [tagged ha ra; tagged hb rb].
Proof.
  intros Ha Hb. unfold sorted_requests, collect_requests. cbn [flat_map].
  rewrite Ha, Hb. cbn [map app]. unfold Py.sorted. cbn [foldl Py.insert_by].
  fold (tagged ha ra). fold (tagged hb rb). by rewrite key_lt_goes_before.
Qed.

Lemma allocate_loop_40_30 (t1 t2 : tagged_request) :
  tr_request t1 = oxygen_request 40 (rq_urgency (tr_request t1)) ->
  tr_request t2 = oxygen_request 30 (rq_urgency (tr_request t2)) ->
  allocate_loop [t1; t2] {[ "oxygen" := 50 ]}
  = ([ {| al_hospital_id := tr_hospital_id t1; al_hospital_name := tr_hospital_name t1;
          al_resource := "oxygen"; al_quantity := 40;
          al_urgency := rq_urgency (tr_request t1) |};
       {| al_hospital_id := tr_hospital_id t2; al_hospital_name := tr_hospital_name t2;
          al_resource := "oxygen"; al_quantity := 10;
          al_urgency := rq_urgency (tr_request t2) |} ],
     {[ "oxygen" := 0 ]})
  /\ allocate_loop [t2; t1] {[ "oxygen" := 50 ]}
     = ([ {| al_hospital_id := tr_hospital_id t2; al_hospital_name := tr_hospital_name t2;
             al_resource := "oxygen"; al_quantity := 30;
             al_urgency := rq_urgency (tr_request t2) |};
          {| al_hospital_id := tr_hospital_id t1; al_hospital_name := tr_hospital_name t1;
             al_resource := "oxygen"; al_quantity := 20;
             al_urgency := rq_urgency (tr_request t1) |} ],
        {[ "oxygen" := 0 ]}).
Proof.
  intros H1 H2.
  assert (Hr1 : rq_resource (tr_request t1) = "oxygen") by (by rewrite H1).
  assert (Hr2 : rq_resource (tr_request t2) = "oxygen") by (by rewrite H2).
  assert (Hq1 : rq_quantity (tr_request t1) = 40) by (by rewrite H1).
  assert (Hq2 : rq_quantity (tr_request t2) = 30) by (by rewrite H2).
  split.
  - rewrite allocate_loop_grant; rewrite Hr1; [|done|by rewrite lookup_singleton_eq].
    rewrite Hq1, lookup_singleton_eq. cbn [default].
    change (Z.min 40 50) with 40. change (50 - 40) with 10.
    rewrite insert_singleton_eq.
    rewrite allocate_loop_grant; rewrite Hr2; [|done|by rewrite lookup_singleton_eq].
    rewrite Hq2, lookup_singleton_eq. cbn [default].
    change (Z.min 30 10) with 10. change (10 - 10) with 0.
    by rewrite insert_singleton_eq.
  - rewrite allocate_loop_grant; rewrite Hr2; [|done|by rewrite lookup_singleton_eq].
    rewrite Hq2, lookup_singleton_eq. cbn [default].
    change (Z.min 30 50) with 30. change (50 - 30) with 20.
    rewrite insert_singleton_eq.
    rewrite allocate_loop_grant; rewrite Hr1; [|done|by rewrite lookup_singleton_eq].
    rewrite Hq1, lookup_singleton_eq. cbn [default].
    change (Z.min 40 20) with 20. change (20 - 20) with 0.
    by rewrite insert_singleton_eq.
Qed.

(** C6. With 50 units of oxygen in the depot's message and two hospitals
    asking for 40 and for 30 units, the request that the priority order
    puts first is granted 40 and the other 10, and the tentative inventory
    ends at 0, whichever of the two messages arrives first: the engine's
    sort moves a request of a higher urgency tier, or of the same tier and
    a higher stress score, ahead of one that arrived before it, and leaves
    the order of arrival otherwise.  When the request for 30 arrives first
    and the request for 40 does not go before it, the grants are 30 and 20.
    For any messages the sort loses no request and leaves none ahead of a
    request that the priority order puts before it.  In general a grant is
    the smaller of the requested and the remaining quantity, and a request
    that finds nothing left is passed over without a grant. *)
Theorem C6_supply_grants_are_clamped :
  (forall (h1 h2 : hospital_msg) (u1 u2 : string) (supply : supply_msg)
          (priorities : gmap string float) (hospitals : list hospital_msg),
     hm_requests h1 = [oxygen_request 40 u1] ->
     hm_requests h2 = [oxygen_request 30 u2] ->
     sm_inventory supply = {[ "oxygen" := 50 ]} ->
     (hospitals = [h1; h2]
      /\ goes_before u2 (hm_priority_score h2) u1 (hm_priority_score h1) = false)
     \/ (hospitals = [h2; h1]
         /\ goes_before u1 (hm_priority_score h1) u2 (hm_priority_score h2) = true) ->
     _allocate_supplies hospitals supply priorities
     = [ grant h1 (oxygen_request 40 u1) 40; grant h2 (oxygen_request 30 u2) 10 ]
     /\ snd (allocate_loop (take 5 (sorted_requests hospitals)) (sm_inventory supply))
        = {[ "oxygen" := 0 ]})
  /\ (forall (h1 h2 : hospital_msg) (u1 u2 : string) (supply : supply_msg)
             (priorities : gmap string float),
        hm_requests h1 = [oxygen_request 40 u1] ->
        hm_requests h2 = [oxygen_request 30 u2] ->
        sm_inventory supply = {[ "oxygen" := 50 ]} ->
        goes_before u1 (hm_priority_score h1) u2 (hm_priority_score h2) = false ->
        _allocate_supplies [h2; h1] supply priorities
        = [ grant h2 (oxygen_request 30 u2) 30; grant h1 (oxygen_request 40 u1) 20 ])
  /\ (forall hospitals : list hospital_msg,
        sorted_requests hospitals ≡ₚ collect_requests hospitals
        /\ StronglySorted (fun a b => request_goes_before b a = false)
             (sorted_requests hospitals))
  /\ (forall req rest available,
        rq_resource (tr_request req) <> "ambulance_diversion" ->
        0 < default 0 (available !! rq_resource (tr_request req)) ->
        let resource := rq_resource (tr_request req) in
        let available_qty := default 0 (available !! resource) in
        let allocated := Z.min (rq_quantity (tr_request req)) available_qty in
        let next :=
          allocate_loop rest (<[resource := available_qty - allocated]> available) in
        allocate_loop (req :: rest) available
        = ({| al_hospital_id := tr_hospital_id req;
              al_hospital_name := tr_hospital_name req;
              al_resource := resource; al_quantity := allocated;
              al_urgency := rq_urgency (tr_request req) |} :: fst next, snd next))
  /\ (forall req rest available,
        default 0 (available !! rq_resource (tr_request req)) <= 0 ->
        allocate_loop (req :: rest) available = allocate_loop rest available).
Proof.
  split_and!.
  - intros h1 h2 u1 u2 supply priorities hospitals H1 H2 Hinv Harrival.
    destruct (allocate_loop_40_30 (tagged h1 (oxygen_request 40 u1))
                (tagged h2 (oxygen_request 30 u2)) eq_refl eq_refl) as [Hloop _].
    unfold _allocate_supplies. rewrite Hinv.
    destruct Harrival as [[-> Hord]|[-> Hord]].
    + rewrite (sorted_requests_pair _ _ _ _ H1 H2).
      rewrite request_goes_before_tagged. cbn [oxygen_request rq_urgency].
      rewrite Hord. cbn [take]. by rewrite Hloop.
    + rewrite (sorted_requests_pair _ _ _ _ H2 H1).
      rewrite request_goes_before_tagged. cbn [oxygen_request rq_urgency].
      rewrite Hord. cbn [take]. by rewrite Hloop.
  - intros h1 h2 u1 u2 supply priorities H1 H2 Hinv Hord.
    destruct (allocate_loop_40_30 (tagged h1 (oxygen_request 40 u1))
                (tagged h2 (oxygen_request 30 u2)) eq_refl eq_refl) as [_ Hloop].
    unfold _allocate_supplies. rewrite Hinv, (sorted_requests_pair _ _ _ _ H2 H1).
    rewrite request_goes_before_tagged. cbn [oxygen_request rq_urgency].
    rewrite Hord. cbn [take]. by rewrite Hloop.
  - apply sorted_requests_ordered.
  - apply allocate_loop_grant.
  - apply allocate_loop_skip.
Qed.

Lemma C6_supply_grants_are_clamped_witness :
  (_allocate_supplies [Examples.asks_30; Examples.asks_40] Examples.depot_msg ∅
   = [ grant Examples.asks_40 (oxygen_request 40 "critical") 40;
       grant Examples.asks_30 (oxygen_request 30 "high") 10 ]
   /\ snd (allocate_loop (take 5 (sorted_requests [Examples.asks_30; Examples.asks_40]))
             (sm_inventory Examples.depot_msg))
      = {[ "oxygen" := 0 ]})
  /\ _allocate_supplies [Examples.asks_40; Examples.asks_30] Examples.depot_msg ∅
     = [ grant Examples.asks_40 (oxygen_request 40 "critical") 40;
         grant Examples.asks_30 (oxygen_request 30 "high") 10 ].
Proof.
  destruct C6_supply_grants_are_clamped as (H & _).
  split.
  - apply (H Examples.asks_40 Examples.asks_30 "critical" "high" Examples.depot_msg ∅
             [Examples.asks_30; Examples.asks_40]);
      [reflexivity|reflexivity|reflexivity|].
    right. split; [reflexivity|]. vm_compute. reflexivity.
  - apply (H Examples.asks_40 Examples.asks_30 "critical" "high" Examples.depot_msg ∅
             [Examples.asks_40; Examples.asks_30]);
      [reflexivity|reflexivity|reflexivity|].
    left. split; [reflexivity|]. vm_compute. reflexivity.
Defined.

End supply.

(** ** Failure monitor *)

Section monitor.
Import FailureHandler Monitor.

Lemma alerts_of_cons ft r rs :
  alerts_of ft (r :: rs)
  = ((if bool_decide (f_type (r_failure r) = ft) then 1 else 0) + alerts_of ft rs)%nat.
Proof. unfold alerts_of. simpl. by destruct (bool_decide _). Qed.

Lemma alerts_of_app ft rs1 rs2 :
  alerts_of ft (rs1 ++ rs2) = (alerts_of ft rs1 + alerts_of ft rs2)%nat.
Proof. unfold alerts_of. by rewrite List.filter_app, length_app. Qed.

Lemma already_active_is_active self f : already_active self f = is_active (f_type f) self.
Proof. reflexivity. Qed.

Lemma is_active_handle_failure ft self now1 now2 f :
  is_active ft (snd (handle_failure self now1 now2 f))
  = is_active ft self || bool_decide (f_type f = ft).
Proof.
  unfold is_active, handle_failure. cbn [snd active_failures].
  rewrite existsb_app. simpl. by rewrite orb_false_r.
Qed.

(** One pass over the detected failures: a type is alerted exactly when it
    is detected and not yet active, and it is active afterwards. *)
Lemma handle_all_spec failures : forall self clock n ft,
  alerts_of ft (handle_all self clock n failures).1.1
  = (if is_active ft self then 0
     else if bool_decide (ft ∈ map f_type failures) then 1 else 0)%nat
  /\ is_active ft (handle_all self clock n failures).1.2
     = is_active ft self || bool_decide (ft ∈ map f_type failures).
Proof.
  induction failures as [|f rest IH]; intros self clock n ft.
  - simpl. rewrite orb_false_r. split; [|done]. by destruct (is_active ft self).
  - cbn [handle_all]. rewrite already_active_is_active.
    destruct (is_active (f_type f) self) eqn:Hact.
    + destruct (IH self clock n ft) as [IH1 IH2]. rewrite IH1, IH2.
      destruct (decide (ft = f_type f)) as [->|Hne].
      * rewrite Hact. done.
      * assert (Hiff : bool_decide (ft ∈ map f_type (f :: rest))
                       = bool_decide (ft ∈ map f_type rest)).
        { apply bool_decide_ext. simpl. rewrite elem_of_cons. naive_solver. }
        by rewrite Hiff.
    + pose proof (is_active_handle_failure ft self (clock n) (clock (S n)) f) as Hh.
      destruct (handle_failure self (clock n) (clock (S n)) f) as [r self1] eqn:Hhf.
      assert (Hr : f_type (r_failure r) = f_type f).
      { unfold handle_failure in Hhf. by injection Hhf as <- _. }
      cbn [snd] in Hh.
      destruct (IH self1 clock (S (S n)) ft) as [IH1 IH2].
      destruct (handle_all self1 clock (S (S n)) rest) as [[rs self2] n2].
      cbn [fst snd] in *. rewrite alerts_of_cons, IH1, IH2, Hh, Hr.
      destruct (decide (f_type f = ft)) as [<-|Hne].
      * rewrite Hact, bool_decide_true by done. simpl.
        rewrite bool_decide_true; [done|]. simpl. by left.
      * rewrite (bool_decide_false _ Hne), orb_false_r.
        assert (Hiff : bool_decide (ft ∈ map f_type (f :: rest))
                       = bool_decide (ft ∈ map f_type rest)).
        { apply bool_decide_ext. simpl. rewrite elem_of_cons. naive_solver. }
        by rewrite Hiff.
Qed.

Lemma detect_failures_no_ambulances hs ambs sup :
  NO_AMBULANCES ∈ map f_type (detect_failures hs ambs sup)
  <-> available_ambulances ambs = [].
Proof.
  unfold detect_failures. rewrite !map_app, !elem_of_app.
  assert (H1 : NO_AMBULANCES ∉ map f_type (detect_no_beds hs)).
  { unfold detect_no_beds. destruct (_ && _); simpl; set_solver. }
  assert (H2 : NO_AMBULANCES ∉ map f_type (detect_oxygen hs)).
  { unfold detect_oxygen. destruct (_ <=? _)%float; simpl; set_solver. }
  assert (H3 : NO_AMBULANCES ∉ map f_type (detect_supply sup)).
  { unfold detect_supply. destruct (List.filter _ _); simpl; set_solver. }
  unfold detect_no_ambulances.
  destruct (available_ambulances ambs) as [|a l]; simpl; set_solver.
Qed.

(** Over any run of ticks, a type is alerted at most once, and not at all
    if it was active from the start. *)
Lemma run_alerts_bound ticks : forall self clock n ft,
  (alerts_of ft (concat (run self clock n ticks).1.1)
   + (if is_active ft self then 1 else 0) <= 1)%nat
  /\ (is_active ft self = true -> is_active ft (run self clock n ticks).1.2 = true).
Proof.
  induction ticks as [|s ticks IH]; intros self clock n ft.
  - simpl. split; [|done]. destruct (is_active ft self); unfold alerts_of; simpl; lia.
  - cbn [run]. unfold check_and_handle_failures.
    destruct (handle_all_spec (detect_failures (snap_hospitals s) (snap_ambulances s)
                (snap_supply s)) self clock n ft) as [H1 H2].
    destruct (handle_all self clock n _) as [[alerts self1] n1]. cbn [fst snd] in H1, H2.
    destruct (IH self1 clock n1 ft) as [IH1 IH2].
    destruct (run self1 clock n1 ticks) as [[later self2] n2]. cbn [fst snd concat] in *.
    rewrite alerts_of_app, H1. rewrite H2 in IH1, IH2.
    destruct (is_active ft self); simpl in *.
    + split; [lia|auto].
    + split; [|done]. destruct (bool_decide _); simpl in *; lia.
Qed.

(** C7. Once a failure type is active in the handler, no later tick alerts
    it again; over consecutive ticks without a resolution each type is
    alerted at most once; and when no ambulance is available and fuelled
    on every tick of a run started with no transport failure active,
    exactly one NO_AMBULANCES alert is emitted, on the first tick. *)
Theorem C7_one_alert_per_activation
    (self : FailureHandler.t) (clock : nat -> string) (n : nat)
    (ticks : list snapshot) (ft : FailureType) :
  let alerts := (run self clock n ticks).1.1 in
  (is_active ft self = true -> alerts_of ft (concat alerts) = 0%nat)
  /\ (alerts_of ft (concat alerts) <= 1)%nat
  /\ (ticks <> [] -> Forall no_ambulances ticks ->
      is_active NO_AMBULANCES self = false ->
      alerts_of NO_AMBULANCES (concat alerts) = 1%nat
      /\ alerts_of NO_AMBULANCES (default [] (head alerts)) = 1%nat).
Proof.
  cbn zeta. pose proof (run_alerts_bound ticks self clock n ft) as [Hb _].
  split_and!.
  - intros Hact. rewrite Hact in Hb. lia.
  - destruct (is_active ft self); lia.
  - intros Hne Hall Hfresh. destruct ticks as [|s ticks]; [done|].
    apply Forall_cons in Hall as [Hs Hall]. cbn [run]. unfold check_and_handle_failures.
    destruct (handle_all_spec (detect_failures (snap_hospitals s) (snap_ambulances s)
                (snap_supply s)) self clock n NO_AMBULANCES) as [H1 H2].
    destruct (handle_all self clock n _) as [[first self1] n1]. cbn [fst snd] in H1, H2.
    rewrite Hfresh in H1, H2.
    rewrite bool_decide_true in H1, H2 by (by apply detect_failures_no_ambulances).
    pose proof (run_alerts_bound ticks self1 clock n1 NO_AMBULANCES) as [Hb1 _].
    destruct (run self1 clock n1 ticks) as [[later self2] n2].
    cbn [fst snd concat head default] in *.
    rewrite H2 in Hb1. simpl in Hb1. rewrite alerts_of_app. split; [lia|done].
Qed.


Lemma C7_one_alert_per_activation_witness :
  alerts_of NO_AMBULANCES
    (concat (run FailureHandler.init Examples.clock_a 0
               [Examples.no_unit_tick; Examples.no_unit_tick; Examples.no_unit_tick]).1.1)
  = 1%nat
  /\ alerts_of NO_AMBULANCES
       (default [] (head (run FailureHandler.init Examples.clock_a 0
          [Examples.no_unit_tick; Examples.no_unit_tick; Examples.no_unit_tick]).1.1))
     = 1%nat.
Proof.
  destruct (C7_one_alert_per_activation FailureHandler.init Examples.clock_a 0
              [Examples.no_unit_tick; Examples.no_unit_tick; Examples.no_unit_tick]
              NO_AMBULANCES) as (_ & _ & H).
  apply H.
  - discriminate.
  - repeat constructor.
  - reflexivity.
Defined.

End monitor.

(** ** Hospital ledger *)

Section ledger.
Import HospitalAgent.

Ltac ledger_fields :=
  unfold ledger_ok;
  cbn [snd with_oxygen available_beds total_beds icu_available icu_beds oxygen_units].

Lemma can_accept_patient_true self esi_level :
  can_accept_patient self esi_level = Py.Ok true ->
  exists n, esi_level = Py.Int n
            /\ (if n <=? 2 then 0 < icu_available self else 0 < available_beds self).
Proof.
  unfold can_accept_patient. destruct esi_level as [n|s]; simpl; [|done].
  exists n. split; [done|]. destruct (n <=? 2); injection H as H.
  - apply andb_true_iff in H as [H _]. apply andb_true_iff in H as [H _]. lia.
  - apply andb_true_iff in H as [H _]. lia.
Qed.

Lemma accept_patient_ledger self patient_id esi_level now :
  ledger_ok self -> ledger_ok (snd (accept_patient self patient_id esi_level now)).
Proof.
  intros Hok. unfold accept_patient.
  destruct (can_accept_patient self esi_level) as [[|]|e] eqn:Hcan; [|done|done].
  apply can_accept_patient_true in Hcan as [n [-> Hcap]].
  unfold triage_name. destruct (Constants.ESI_LEVELS_name n); [|done].
  destruct Hok as (Hb & Hi & Ho). ledger_fields.
  destruct (n <=? 2); split_and!; try done; try lia.
Qed.

Lemma update_ledger self tick : ledger_ok self -> ledger_ok (snd (update self tick)).
Proof.
  intros (Hb & Hi & Ho). unfold update.
  set (self1 := with_oxygen self _).
  assert (Hok1 : ledger_ok self1).
  { unfold self1. ledger_fields. split_and!; try lia. apply py_max_0_nonneg. }
  destruct (_ && _); [|done].
  destruct (pop_last _) as [[discharged rest]|]; [|done].
  destruct Hok1 as (Hb1 & Hi1 & Ho1). ledger_fields.
  destruct (String.eqb (pr_unit discharged) "ICU"); split_and!; try done; try lia.
Qed.

Lemma _handle_supply_allocation_ledger self supply_type quantity :
  0 <= quantity -> ledger_ok self ->
  ledger_ok (_handle_supply_allocation self supply_type quantity).
Proof.
  intros Hq (Hb & Hi & Ho). unfold _handle_supply_allocation.
  destruct (String.eqb supply_type "oxygen"); [|done].
  ledger_fields. split_and!; try lia.
  apply float_add_nonneg; [done|]. by apply float_of_Z_nonneg.
Qed.

(** C5. The ledger invariant [0 <= available_beds <= total_beds],
    [0 <= icu_available <= icu_beds], [oxygen >= 0] is kept by admitting a
    patient, by the per-tick update and by booking a delivered supply of
    a quantity that is not negative. *)
Theorem C5_hospital_ledger_invariant (self : HospitalAgent.t) :
  ledger_ok self ->
  (forall patient_id esi_level now,
     ledger_ok (snd (accept_patient self patient_id esi_level now)))
  /\ (forall tick, ledger_ok (snd (update self tick)))
  /\ (forall supply_type quantity,
        0 <= quantity -> ledger_ok (_handle_supply_allocation self supply_type quantity)).
Proof.
  intros Hok. split_and!.
  - intros. by apply accept_patient_ledger.
  - intros. by apply update_ledger.
  - intros. by apply _handle_supply_allocation_ledger.
Qed.


Lemma C5_hospital_ledger_invariant_witness :
  ledger_ok Examples.hospital_b
  /\ ledger_ok (snd (accept_patient Examples.hospital_b "patient_003" (Py.Int 1)
                       "2026-01-01T00:00:00"))
  /\ ledger_ok (snd (update Examples.hospital_b 5))
  /\ ledger_ok (_handle_supply_allocation Examples.hospital_b "oxygen" 100).
Proof.
  assert (H : ledger_ok Examples.hospital_b).
  { unfold ledger_ok. split_and!; by vm_compute. }
  destruct (C5_hospital_ledger_invariant Examples.hospital_b H) as (Ha & Hu & Hs).
  split_and!; [exact H|apply Ha|apply Hu|apply Hs; by vm_compute].
Defined.

End ledger.

(** ** Ambulance assignment *)

Section dispatch.
Import NegotiationEngine.

Lemma leibniz_eqb_refl (x : float) : PrimFloat.Leibniz.eqb x x = true.
Proof. by apply FloatAxioms.Leibniz.eqb_spec. Qed.

Lemma ambulance_msg_eqb_refl a : ambulance_msg_eqb a a = true.
Proof.
  unfold ambulance_msg_eqb, loc_eqb.
  rewrite String.eqb_refl, Z.eqb_refl, leibniz_eqb_refl. simpl.
  destruct (am_location a) as [[x y]|]; [|done]. simpl. by rewrite !leibniz_eqb_refl.
Qed.


(** The scan keeps a unit of least ETA among those seen so far. *)
Lemma nearest_fold ploc hloc pool : forall seen best eta,
  (forall a, a ∈ seen -> (amb_eta ploc hloc a <? eta)%float = false) ->
  match best with
  | Some b => b ∈ seen /\ eta = amb_eta ploc hloc b /\ (eta <? infinity)%float = true
  | None => eta = infinity
  end ->
  let '(best', eta') := foldl (nearest_step ploc hloc) (best, eta) pool in
  (forall a, a ∈ seen ++ pool -> (amb_eta ploc hloc a <? eta')%float = false)
  /\ match best' with
     | Some b => b ∈ seen ++ pool /\ eta' = amb_eta ploc hloc b
                 /\ (eta' <? infinity)%float = true
     | None => eta' = infinity
     end.
Proof.
  induction pool as [|amb pool IH]; intros seen best eta Hmin Hbest.
  - simpl. rewrite app_nil_r. done.
  - cbn [foldl]. unfold nearest_step at 2. cbn [snd].
    destruct (amb_eta ploc hloc amb <? eta)%float eqn:Hlt.
    + specialize (IH (seen ++ [amb]) (Some amb) (amb_eta ploc hloc amb)).
      rewrite <- app_assoc in IH. apply IH.
      * intros a [Ha| ->%list_elem_of_singleton]%elem_of_app.
        -- destruct (amb_eta ploc hloc a <? amb_eta ploc hloc amb)%float eqn:E; [|done].
           rewrite <- (Hmin a Ha). symmetry. by eapply float_ltb_trans.
        -- apply float_ltb_irrefl.
      * split_and!; [set_solver|done|].
        destruct best as [b|]; [|by subst eta].
        destruct Hbest as (_ & _ & Hinf). by eapply float_ltb_trans.
    + specialize (IH (seen ++ [amb]) best eta).
      rewrite <- app_assoc in IH. apply IH.
      * intros a [Ha| ->%list_elem_of_singleton]%elem_of_app; [by apply Hmin|done].
      * destruct best as [b|]; [|done]. destruct Hbest as (Hb & ? & ?).
        split_and!; [set_solver|done|done].
Qed.

Lemma nearest_spec ploc hloc pool best eta :
  nearest ploc hloc pool = (Some best, eta) ->
  best ∈ pool /\ eta = amb_eta ploc hloc best /\ (eta <? infinity)%float = true
  /\ forall amb, amb ∈ pool -> (amb_eta ploc hloc amb <? eta)%float = false.
Proof.
  unfold nearest. intros H.
  pose proof (nearest_fold ploc hloc pool [] None infinity) as Hf.
  rewrite H in Hf. destruct Hf as [Hmin (Hb & He & Hi)]; [by intros a ?%elem_of_nil|done|].
  done.
Qed.








End dispatch.

(** ** Simulator *)

Section simulator.
Import Simulator.

(** C10. A step on a simulator that is not running returns the error
    dictionary and changes nothing: the simulator, tick counter included,
    is the one the call started from, and the clock is not read. *)
Theorem C10_step_when_not_running
    (self : Simulator.t) (clock : nat -> string) (n : nat) (inflow : list patient) :
  running self = false ->
  step self clock n inflow
  = (Py.Ok (ErrorDict "Simulation not running. Call initialize() first."), self, n).
Proof. intros H. unfold step. by rewrite H. Qed.

Lemma C10_step_when_not_running_witness :
  (running Simulator.init = false
   /\ step Simulator.init Examples.clock_a 0 [Examples.high_patient]
      = (Py.Ok (ErrorDict "Simulation not running. Call initialize() first."),
         Simulator.init, 0%nat))
  /\ (running (reset Examples.quiet) = false
      /\ step (reset Examples.quiet) Examples.clock_a 0 [Examples.high_patient]
         = (Py.Ok (ErrorDict "Simulation not running. Call initialize() first."),
            reset Examples.quiet, 0%nat)).
Proof.
  split.
  - split; [reflexivity|].
    apply (C10_step_when_not_running Simulator.init Examples.clock_a 0
             [Examples.high_patient]). reflexivity.
  - split; [reflexivity|].
    apply (C10_step_when_not_running (reset Examples.quiet) Examples.clock_a 0
             [Examples.high_patient]). reflexivity.
Defined.

(** C9, as stated, fails: a hospital section with zero total capacity and
    more free beds than beds is accepted, and the simulation is set
    running with the hospital holding those very values. *)
Lemma C9_initialize_accepts_hollow_capacity :
  let '(outcome, sim) := initialize Simulator.init Examples.hollow_config [] in
  outcome = Py.Ok {| ir_status := "initialized"; ir_hospitals := 1; ir_ambulances := 5;
                     ir_initial_patients := 0; ir_critical_patients := 0 |}
  /\ running sim = true
  /\ map (fun h => (HospitalAgent.total_beds h, HospitalAgent.available_beds h,
                    HospitalAgent.icu_beds h, HospitalAgent.icu_available h))
         (od_values (hospitals sim))
     = [(0, 5, 0, 3)].
Proof. vm_compute. repeat split; reflexivity. Qed.

(** C9, amended. Initialization validates no capacity: whenever the depot
    section carries its stock keys, [initialize] completes with status
    "initialized" and leaves the simulation running, and every hospital
    section (ids being distinct) yields an agent holding exactly the
    configured totals and free counts, whatever they are. *)
Theorem C9_initialize_validates_no_capacity
    (self : Simulator.t) (config : Scenario.t) (casualties : list patient)
    (depot : SupplyAgent.t) :
  create_supply (Scenario.SUPPLY_CONFIG config) = Py.Ok depot ->
  NoDup (map Scenario.hc_id (Scenario.HOSPITALS_CONFIG config)) ->
  let sim := snd (initialize self config casualties) in
  (exists report, fst (initialize self config casualties) = Py.Ok report
                  /\ ir_status report = "initialized")
  /\ running sim = true
  /\ forall c, c ∈ Scenario.HOSPITALS_CONFIG config ->
       exists h, od_get (Scenario.hc_id c) (hospitals sim) = Some h
                 /\ HospitalAgent.total_beds h = Scenario.hc_total_beds c
                 /\ HospitalAgent.available_beds h = Scenario.hc_available_beds c
                 /\ HospitalAgent.icu_beds h = Scenario.hc_icu_beds c
                 /\ HospitalAgent.icu_available h = Scenario.hc_icu_available c.
Proof.
  intros Hdepot Hnd. unfold initialize. rewrite Hdepot. cbn [fst snd running hospitals].
  split_and!; [by eexists|done|].
  intros c Hc. exists (create_hospital c). split; [|done].
  by apply (od_fill_get Scenario.hc_id create_hospital).
Qed.

Lemma C9_initialize_validates_no_capacity_witness :
  exists h,
    od_get "hospital_x"
      (hospitals (snd (initialize Simulator.init Examples.hollow_config [])))
    = Some h
    /\ HospitalAgent.total_beds h = 0
    /\ HospitalAgent.available_beds h = 5
    /\ HospitalAgent.icu_beds h = 0
    /\ HospitalAgent.icu_available h = 3.
Proof.
  assert (Hd : exists depot,
             create_supply (Scenario.SUPPLY_CONFIG Examples.hollow_config) = Py.Ok depot).
  { eexists. reflexivity. }
  destruct Hd as [depot Hd].
  assert (Hnd : NoDup (map Scenario.hc_id
                         (Scenario.HOSPITALS_CONFIG Examples.hollow_config))).
  { apply NoDup_singleton. }
  destruct (C9_initialize_validates_no_capacity Simulator.init Examples.hollow_config
              [] depot Hd Hnd) as (_ & _ & H).
  apply (H Examples.hollow_hospital). by left.
Defined.

(** ** The clock reaches nothing but the stamps *)

Lemma apply_assignments_raises pas : forall self clock n,
  Simulator.apply_assignments pas self clock n
  = (if forallb (fun pa => Py.is_empty (option_list
                   (od_get (NegotiationEngine.assigned_hospital pa)
                           (Simulator.hospitals self)))) pas
     then Py.Ok [] else Py.Raise Py.TypeError, self, n).
Proof.
  induction pas as [|pa rest IH]; intros self clock n; [done|].
  cbn [Simulator.apply_assignments forallb].
  destruct (od_get _ (Simulator.hospitals self)) as [h|]; [done|]. simpl. apply IH.
Qed.

Lemma allocate_supply_unstamped s ty q dest l now :
  SupplyAgent.allocate_supply (Unstamped.depot s) ty q dest l EmptyString
  = (match (SupplyAgent.allocate_supply s ty q dest l now).1 with
     | Py.Ok d => Py.Ok (Unstamped.delivery <$> d)
     | Py.Raise e => Py.Raise e
     end,
     Unstamped.depot (SupplyAgent.allocate_supply s ty q dest l now).2).
Proof.
  unfold SupplyAgent.allocate_supply, SupplyAgent.has_available_vehicles.
  cbn [Unstamped.depot SupplyAgent.inventory SupplyAgent.vehicles_available
       SupplyAgent.location SupplyAgent.active_deliveries].
  destruct (_ || _); [done|].
  destruct (SupplyAgent.inventory s !! ty); [|done].
  cbn [fst snd]. rewrite length_map. unfold Unstamped.depot. cbn.
  by rewrite map_app.
Qed.

Lemma process_loop_unstamped reqs : forall s clock n,
  SupplyAgent.process_loop reqs (Unstamped.depot s) Unstamped.blank n
  = (Unstamped.allocations (SupplyAgent.process_loop reqs s clock n).1.1,
     Unstamped.depot (SupplyAgent.process_loop reqs s clock n).1.2,
     (SupplyAgent.process_loop reqs s clock n).2).
Proof.
  induction reqs as [|req rest IH]; intros s clock n; [done|].
  cbn [SupplyAgent.process_loop]. unfold SupplyAgent.has_available_vehicles.
  cbn [Unstamped.depot SupplyAgent.vehicles_available SupplyAgent.inventory].
  destruct (negb _); [done|].
  destruct (0 <? _); [|apply IH].
  change (Unstamped.blank n) with EmptyString.
  rewrite (allocate_supply_unstamped s _ _ _ _ (clock n)).
  destruct (SupplyAgent.allocate_supply s _ _ _ _ (clock n)) as [[[d|]|e] s'];
    cbn [fst snd fmap option_fmap option_map]; [|apply IH|done].
  rewrite (IH s' clock (S n)).
  by destruct (SupplyAgent.process_loop rest s' clock (S n)) as [[[[ds processed]|e] s''] n'].
Qed.

Lemma process_pending_requests_unstamped s clock n :
  let run := SupplyAgent.process_pending_requests s clock n in
  SupplyAgent.process_pending_requests (Unstamped.depot s) Unstamped.blank n
  = (match run.1.1 with
     | Py.Ok ds => Py.Ok (map Unstamped.delivery ds)
     | Py.Raise e => Py.Raise e
     end,
     Unstamped.depot run.1.2, run.2).
Proof.
  cbn zeta. unfold SupplyAgent.process_pending_requests.
  change (SupplyAgent.pending_requests (Unstamped.depot s))
    with (SupplyAgent.pending_requests s).
  rewrite (process_loop_unstamped _ s clock n).
  by destruct (SupplyAgent.process_loop _ s clock n) as [[[[ds processed]|e] s'] n'].
Qed.

Lemma advance_unstamped d :
  SupplyAgent.advance (Unstamped.delivery d) = Unstamped.delivery (SupplyAgent.advance d).
Proof. reflexivity. Qed.

Lemma filter_map_unstamped (f : SupplyAgent.delivery -> bool) l :
  (forall d, f (Unstamped.delivery d) = f d) ->
  List.filter f (map Unstamped.delivery l) = map Unstamped.delivery (List.filter f l).
Proof.
  intros Hf. induction l as [|d l IH]; [done|]. simpl. rewrite Hf.
  destruct (f d); simpl; by rewrite IH.
Qed.

Lemma map_advance_unstamped l :
  map SupplyAgent.advance (map Unstamped.delivery l)
  = map Unstamped.delivery (map SupplyAgent.advance l).
Proof. induction l as [|d l IH]; [done|]. simpl. by rewrite IH. Qed.

Lemma update_get_state_unstamped s tick :
  SupplyAgent.get_state (SupplyAgent.update (Unstamped.depot s) tick).2
  = SupplyAgent.get_state (SupplyAgent.update s tick).2.
Proof.
  unfold SupplyAgent.update, SupplyAgent.get_state.
  cbn [snd SupplyAgent.inventory SupplyAgent.vehicles_available Unstamped.depot
       SupplyAgent.active_deliveries].
  rewrite map_advance_unstamped, filter_map_unstamped by done. by rewrite length_map.
Qed.

Lemma existsb_of_map {A B} (p : B -> bool) (f : A -> B) l :
  existsb p (map f l) = existsb (fun x => p (f x)) l.
Proof. induction l as [|x l IH]; [done|]. simpl. by rewrite IH. Qed.

Section two_clocks.
Variables clock1 clock2 : nat -> string.

Lemma handle_all_two_clocks failures : forall fh1 fh2 n,
  map FailureHandler.af_failure (FailureHandler.active_failures fh1)
  = map FailureHandler.af_failure (FailureHandler.active_failures fh2) ->
  map Unstamped.response (FailureHandler.handle_all fh1 clock1 n failures).1.1
  = map Unstamped.response (FailureHandler.handle_all fh2 clock2 n failures).1.1.
Proof.
  induction failures as [|f rest IH]; intros fh1 fh2 n Hfh; [done|].
  cbn [FailureHandler.handle_all].
  assert (Hact : FailureHandler.already_active fh1 f = FailureHandler.already_active fh2 f).
  { assert (H : forall fh, FailureHandler.already_active fh f
       = existsb (fun x => bool_decide (FailureHandler.f_type x = FailureHandler.f_type f))
           (map FailureHandler.af_failure (FailureHandler.active_failures fh))).
    { intros fh. unfold FailureHandler.already_active. by rewrite existsb_of_map. }
    by rewrite !H, Hfh. }
  rewrite Hact. destruct (FailureHandler.already_active fh2 f); [by apply IH|].
  unfold FailureHandler.handle_failure.
  match goal with
  | |- context [FailureHandler.handle_all ?a clock1 ?m rest] =>
      match goal with
      | |- context [FailureHandler.handle_all ?b clock2 m rest] =>
          specialize (IH a b m)
      end
  end.
  destruct (FailureHandler.handle_all _ clock1 _ rest) as [[rs1 fh1'] n1].
  destruct (FailureHandler.handle_all _ clock2 _ rest) as [[rs2 fh2'] n2].
  cbn [fst snd map] in *. unfold Unstamped.response at 1 3. cbn. f_equal.
  apply IH. cbn [FailureHandler.active_failures]. rewrite !map_app. by rewrite Hfh.
Qed.

End two_clocks.

Section step_two_clocks.
Variables clock1 clock2 : nat -> string.

Lemma process_pending_requests_two_clocks depot n :
  let run1 := SupplyAgent.process_pending_requests depot clock1 n in
  let run2 := SupplyAgent.process_pending_requests depot clock2 n in
  Unstamped.depot run1.1.2 = Unstamped.depot run2.1.2
  /\ run1.2 = run2.2
  /\ match run1.1.1, run2.1.1 with
     | Py.Ok _, Py.Ok _ => True
     | Py.Raise e1, Py.Raise e2 => e1 = e2
     | _, _ => False
     end.
Proof.
  cbn zeta.
  pose proof (process_pending_requests_unstamped depot clock1 n) as H1.
  pose proof (process_pending_requests_unstamped depot clock2 n) as H2.
  cbn zeta in H1, H2. rewrite H1 in H2. clear H1.
  destruct (SupplyAgent.process_pending_requests depot clock1 n) as [[r1 d1] n1].
  destruct (SupplyAgent.process_pending_requests depot clock2 n) as [[r2 d2] n2].
  cbn [fst snd] in *.
  pose proof (f_equal (fun x => x.1.1) H2) as Hr.
  pose proof (f_equal (fun x => x.1.2) H2) as Hd.
  pose proof (f_equal snd H2) as Hn. cbn [fst snd] in Hr, Hd, Hn.
  split_and!; [done|done|]. destruct r1, r2; try done. by injection Hr.
Qed.

Lemma finish_step_two_clocks self n d1 d2 gov ts1 ts2 actions decisions :
  Unstamped.depot d1 = Unstamped.depot d2 ->
  Unstamped.report (finish_step self clock1 n d1 gov ts1 actions decisions).1.1
  = Unstamped.report (finish_step self clock2 n d2 gov ts2 actions decisions).1.1.
Proof.
  intros Hd. unfold finish_step.
  assert (Hs : SupplyAgent.get_state (SupplyAgent.update d1 (tick self)).2
               = SupplyAgent.get_state (SupplyAgent.update d2 (tick self)).2).
  { rewrite <- (update_get_state_unstamped d1), <- (update_get_state_unstamped d2).
    by rewrite Hd. }
  destruct (update_ambulances (ambulances self) (tick self)) as [delivered ambulances'].
  rewrite Hs. unfold FailureHandler.check_and_handle_failures.
  pose proof (handle_all_two_clocks clock1 clock2
                (FailureHandler.detect_failures
                   (hospital_states (update_hospitals (hospitals self) (tick self)))
                   (ambulance_states ambulances')
                   (SupplyAgent.get_state (SupplyAgent.update d2 (tick self)).2))
                (failure_handler self) (failure_handler self) n eq_refl) as Hh.
  destruct (FailureHandler.handle_all (failure_handler self) clock1 n _) as [[rs1 fh1] n1].
  destruct (FailureHandler.handle_all (failure_handler self) clock2 n _) as [[rs2 fh2] n2].
  cbn [fst snd] in *. unfold Unstamped.report. cbn. by rewrite Hh.
Qed.

Lemma step_two_clocks self n inflow :
  Unstamped.outcome (step self clock1 n inflow).1.1
  = Unstamped.outcome (step self clock2 n inflow).1.1.
Proof.
  unfold step. destruct (negb (running self)); [done|].
  destruct (if _ =? 0 then _ else _) as [self1|e]; [|done].
  destruct (hospital_messages _) as [hms|e]; [|done].
  destruct (supply self1) as [depot|]; [|done].
  destruct (government self1) as [gov|]; [|done].
  destruct (NegotiationEngine.run_negotiation _ _ _ _ _ _) as [result engine].
  rewrite !apply_assignments_raises. destruct (forallb _ _); [|done].
  pose proof (process_pending_requests_two_clocks
                (queue_supply_requests (NegotiationEngine.supply_allocations result)
                   (hospitals (dispatch_ambulances
                      (NegotiationEngine.ambulance_assignments result)
                      (with_engine self1 engine))) depot) (S n)) as (Hd & Hn & Hr).
  cbn zeta in Hd, Hn, Hr.
  destruct (SupplyAgent.process_pending_requests _ clock1 (S n)) as [[r1 d1] n1].
  destruct (SupplyAgent.process_pending_requests _ clock2 (S n)) as [[r2 d2] n2].
  cbn [fst snd] in *. subst n2.
  destruct r1 as [ds1|e1], r2 as [ds2|e2]; try done; [|by subst].
  pose proof (finish_step_two_clocks
                (dispatch_ambulances (NegotiationEngine.ambulance_assignments result)
                   (with_engine self1 engine))
                n1 d1 d2 gov (clock1 n) (clock2 n) []
                (NegotiationEngine.decisions_explained result) Hd) as Hf.
  destruct (finish_step _ clock1 n1 d1 _ _ _ _) as [[rep1 s1] m1].
  destruct (finish_step _ clock2 n1 d2 _ _ _ _) as [[rep2 s2] m2].
  cbn [fst snd Unstamped.outcome] in *. by rewrite Hf.
Qed.

End step_two_clocks.

(** C4, as stated, fails: from one and the same simulator, with the same
    waiting patients and the same (empty) inflow, two steps taken at
    different wall-clock times return reports whose alerts differ. *)
Lemma C4_alerts_carry_the_wall_clock :
  exists r1 r2,
    (step Examples.quiet Examples.clock_a 0 []).1.1 = Py.Ok (Report r1)
    /\ (step Examples.quiet Examples.clock_b 0 []).1.1 = Py.Ok (Report r2)
    /\ sr_tick r1 = sr_tick r2
    /\ sr_actions r1 = sr_actions r2
    /\ map FailureHandler.r_timestamp (sr_alerts r1) = ["2026-01-01T00:00:00"]
    /\ map FailureHandler.r_timestamp (sr_alerts r2) = ["2026-01-01T00:00:05"]
    /\ sr_alerts r1 <> sr_alerts r2.
Proof.
  eexists. eexists. split; [vm_compute; reflexivity|].
  split; [vm_compute; reflexivity|].
  split; [reflexivity|]. split; [reflexivity|].
  split; [reflexivity|]. split; [reflexivity|].
  intros H. discriminate H.
Qed.

(** C4, amended. Two steps from the same simulator that receive the same
    inflow end alike whatever the clocks show: both raise the same
    exception, or both return the error dictionary, or both return
    reports that agree on the tick, the actions, the decisions and the
    alerts up to the wall-clock stamps of the report and of each alert. *)
Theorem C4_step_is_deterministic_up_to_stamps
    (self : Simulator.t) (clock1 clock2 : nat -> string) (n : nat)
    (inflow : list patient) :
  Unstamped.outcome (step self clock1 n inflow).1.1
  = Unstamped.outcome (step self clock2 n inflow).1.1.
Proof. apply step_two_clocks. Qed.

End simulator.

(** * Further properties of the code *)

Section engine_round.
Import NegotiationEngine.

(** The loop turns patients into assignments in order, skipping those for
    whom no hospital is found. *)
Lemma assign_loop_sublist patients : forall cap pri,
  map (fun a => (patient_id a, patient_severity a, patient_location a))
      (fst (assign_loop patients cap pri))
  `sublist_of` map (fun p => (p_id p, p_severity p, p_location p)) patients.
Proof.
  induction patients as [|p rest IH]; intros cap pri; simpl; [done|].
  destruct (_find_best_hospital p cap pri) as [best|].
  - match goal with |- context [assign_loop rest ?c pri] => specialize (IH c pri) end.
    destruct (assign_loop rest _ pri) as [res final]. simpl in *. by constructor.
  - apply sublist_cons. apply IH.
Qed.

Lemma assign_loop_hospital patients : forall cap pri a,
  a ∈ fst (assign_loop patients cap pri) -> assigned_hospital a ∈ od_keys cap.
Proof.
  induction patients as [|p rest IH]; intros cap pri a; simpl; [by intros ?%elem_of_nil|].
  destruct (_find_best_hospital p cap pri) as [best|] eqn:Hbest; [|apply IH].
  match goal with |- context [assign_loop rest ?c pri] => specialize (IH c pri a) end.
  destruct (assign_loop rest _ pri) as [res final]. simpl in *.
  intros [->|Ha]%elem_of_cons.
  - simpl. apply max_by_elem, candidates_of_elem in Hbest as [hd [Hin _]].
    unfold od_keys. apply list_elem_of_fmap. by exists (c_id best, hd).
  - apply IH in Ha. destruct (String.eqb _ _); by rewrite od_keys_alter in Ha.
Qed.

Lemma od_fill_keys {V B} (key : B -> string) (val : B -> V) l : forall d k,
  k ∈ od_keys (od_fill key val d l) -> k ∈ od_keys d \/ k ∈ map key l.
Proof.
  induction l as [|b l IH]; intros d k; simpl; [by left|].
  intros [Hk|Hk]%IH; [|right; by right].
  rewrite od_keys_set in Hk. destruct (decide _); [by left|].
  apply elem_of_app in Hk as [Hk| ->%list_elem_of_singleton]; [by left|right; by left].
Qed.

Lemma allocate_loop_length requests : forall available,
  (length (fst (allocate_loop requests available)) <= length requests)%nat.
Proof.
  induction requests as [|req rest IH]; intros available; simpl; [done|].
  destruct (String.eqb _ _); [etrans; [apply IH|lia]|].
  destruct (0 <? _); [|etrans; [apply IH|lia]].
  match goal with |- context [allocate_loop rest ?a] => specialize (IH a) end.
  destruct (allocate_loop rest _). simpl in *. lia.
Qed.

Lemma remove_length (b : ambulance_msg) pool :
  b ∈ pool -> S (length (Py.remove ambulance_msg_eqb b pool)) = length pool.
Proof.
  induction pool as [|y l IH]; intros Hin; [by apply elem_of_nil in Hin|].
  simpl. destruct (ambulance_msg_eqb y b) eqn:E; [done|].
  apply elem_of_cons in Hin as [->|Hin]; [by rewrite ambulance_msg_eqb_refl in E|].
  simpl. by rewrite IH.
Qed.

Lemma dispatch_loop_sublist assignments : forall pool locs,
  map (fun aa => (aa_patient_id aa, aa_hospital_id aa, aa_pickup_location aa))
      (dispatch_loop assignments pool locs)
  `sublist_of` map (fun a => (patient_id a, assigned_hospital a, patient_location a))
                   assignments.
Proof.
  induction assignments as [|a rest IH]; intros pool locs; simpl; [done|].
  destruct pool as [|y l] eqn:Hpool; [apply sublist_nil_l|]. rewrite <- Hpool.
  destruct (nearest _ _ pool) as [[b|] eta].
  - simpl. constructor. apply IH.
  - apply sublist_cons. apply IH.
Qed.

Lemma dispatch_loop_length assignments : forall pool locs,
  (length (dispatch_loop assignments pool locs) <= length pool)%nat.
Proof.
  induction assignments as [|a rest IH]; intros pool locs; simpl; [lia|].
  destruct pool as [|y l] eqn:Hpool; [done|]. rewrite <- Hpool.
  destruct (nearest _ _ pool) as [[b|] eta] eqn:Hn; [|apply IH].
  apply nearest_spec in Hn as (Hb & _). simpl.
  specialize (IH (Py.remove ambulance_msg_eqb b pool) locs).
  pose proof (remove_length b pool Hb). lia.
Qed.

(** X1. The matching loop queues the casualties by severity rank, keeping
    the order of arrival within a rank, and considers the first ten of the
    queue: the sort loses and duplicates nobody, every casualty it considers
    ranks at least as high as every casualty it leaves out, and its
    proposals are made for considered casualties only, in the order of the
    queue. *)
Theorem triage_window_prefers_higher_severity
    (patients : list patient) (hospitals : list hospital_msg)
    (ambulances : list ambulance_msg) (priorities : gmap string float) :
  let queue := sorted_patients patients in
  let considered := take 10 queue in
  let left_out := drop 10 queue in
  considered ++ left_out ≡ₚ patients
  /\ StronglySorted (fun p q => severity_rank p <= severity_rank q) queue
  /\ (forall k, List.filter (fun p => severity_rank p =? k) queue
                = List.filter (fun p => severity_rank p =? k) patients)
  /\ (forall p q, p ∈ considered -> q ∈ left_out -> severity_rank p <= severity_rank q)
  /\ map (fun a => (patient_id a, patient_severity a, patient_location a))
         (_assign_patients_to_hospitals patients hospitals ambulances priorities)
     `sublist_of` map (fun p => (p_id p, p_severity p, p_location p)) considered.
Proof.
  cbn zeta. unfold sorted_patients.
  pose proof (sorted_sorted severity_rank patients) as Hs.
  split_and!.
  - rewrite take_drop. apply sorted_Permutation.
  - exact Hs.
  - intros k. apply (sorted_stable severity_rank).
  - intros p q Hp Hq. rewrite <- (take_drop 10) in Hs.
    by apply (StronglySorted_split _ _ _ _ _ Hs).
  - apply assign_loop_sublist.
Qed.

End engine_round.

Lemma sublist_map_proj {A B C D} (f : C -> D) (g : A -> C) (g' : B -> C) l1 l2 :
  map g l1 `sublist_of` map g' l2 ->
  map (fun x => f (g x)) l1 `sublist_of` map (fun x => f (g' x)) l2.
Proof.
  intros H. rewrite <- (map_map g f l1), <- (map_map g' f l2).
  exact (fmap_sublist f _ _ H).
Qed.

Section engine_round2.
Import NegotiationEngine.

Lemma triage_window_prefers_higher_severity_witness :
  severity_rank Examples.critical_patient <= severity_rank (Cases.low_patient 9).
Proof.
  destruct (triage_window_prefers_higher_severity Cases.twelve_waiting
              [Examples.hospital_b_msg] [] ∅) as (_ & _ & _ & H & _).
  apply H.
  - vm_compute. left.
  - vm_compute. left.
Defined.

(** X2. A negotiation round proposes at most ten patient assignments and at
    most five supply grants, and never more than there are waiting
    casualties or requests; it dispatches at most one ambulance per proposal
    and per unit that reports a free slot; and it explains every decision
    exactly once. *)
Theorem negotiation_round_limits
    (e : NegotiationEngine.t) (hospital_messages : list hospital_msg)
    (ambulance_messages : list ambulance_msg) (supply_message : supply_msg)
    (priorities : gmap string float) (waiting : list patient) :
  let r := fst (run_negotiation e hospital_messages ambulance_messages supply_message
                  priorities waiting) in
  (length (patient_assignments r) <= Nat.min 10 (length waiting))%nat
  /\ (length (supply_allocations r)
      <= Nat.min 5 (length (flat_map hm_requests hospital_messages)))%nat
  /\ (length (ambulance_assignments r)
      <= Nat.min (length (patient_assignments r))
                 (length (available_pool ambulance_messages)))%nat
  /\ length (decisions_explained r)
     = (length (patient_assignments r) + length (supply_allocations r)
        + length (ambulance_assignments r))%nat.
Proof.
  cbn zeta. cbn [run_negotiation fst patient_assignments supply_allocations
                  ambulance_assignments decisions_explained].
  split_and!.
  - unfold _assign_patients_to_hospitals.
    pose proof (sublist_length _ _
      (assign_loop_sublist (take 10 (sorted_patients waiting))
         (build_hospital_capacity hospital_messages) priorities)) as H.
    rewrite !length_map, length_take in H.
    pose proof (Permutation_length (sorted_Permutation
      (fun p q => severity_order (p_severity p) <? severity_order (p_severity q))
      waiting)) as Hp.
    unfold sorted_patients in *. by rewrite <- Hp.
  - unfold _allocate_supplies.
    pose proof (allocate_loop_length (take 5 (sorted_requests hospital_messages))
                  (sm_inventory supply_message)) as H.
    rewrite length_take in H. unfold sorted_requests in H.
    pose proof (Permutation_length (sorted_Permutation
      (fun r1 r2 => key_lt (request_key r1) (request_key r2))
      (collect_requests hospital_messages))) as Hp.
    assert (Hc : length (collect_requests hospital_messages)
                 = length (flat_map hm_requests hospital_messages)).
    { unfold collect_requests. clear. induction hospital_messages as [|h hs IH]; simpl; [done|].
      by rewrite !length_app, length_map, IH. }
    rewrite <- Hc, <- Hp. exact H.
  - unfold _assign_ambulances.
    pose proof (sublist_length _ _
      (dispatch_loop_sublist
         (_assign_patients_to_hospitals waiting hospital_messages ambulance_messages
            priorities)
         (available_pool ambulance_messages) (hospital_locations hospital_messages))) as H1.
    rewrite !length_map in H1.
    pose proof (dispatch_loop_length
      (_assign_patients_to_hospitals waiting hospital_messages ambulance_messages
         priorities)
      (available_pool ambulance_messages) (hospital_locations hospital_messages)) as H2.
    lia.
  - unfold _generate_explanations.
    cbn [patient_assignments supply_allocations ambulance_assignments].
    rewrite !length_app, !length_map. lia.
Qed.

(** X3. When the waiting casualties have distinct ids, a round proposes at
    most one hospital and dispatches at most one ambulance per casualty;
    every proposal copies the id, the severity and the location of a waiting
    casualty and names a hospital that sent a message; and every dispatch
    serves a proposal of the same round. *)
Theorem round_assigns_each_waiting_patient_at_most_once
    (e : NegotiationEngine.t) (hospital_messages : list hospital_msg)
    (ambulance_messages : list ambulance_msg) (supply_message : supply_msg)
    (priorities : gmap string float) (waiting : list patient) :
  NoDup (map p_id waiting) ->
  let r := fst (run_negotiation e hospital_messages ambulance_messages supply_message
                  priorities waiting) in
  NoDup (map patient_id (patient_assignments r))
  /\ NoDup (map aa_patient_id (ambulance_assignments r))
  /\ (forall a, a ∈ patient_assignments r ->
        (exists p, p ∈ waiting /\ p_id p = patient_id a
                   /\ p_severity p = patient_severity a
                   /\ p_location p = patient_location a)
        /\ assigned_hospital a ∈ map hm_agent_id hospital_messages)
  /\ (forall aa, aa ∈ ambulance_assignments r ->
        exists a, a ∈ patient_assignments r /\ patient_id a = aa_patient_id aa
                  /\ assigned_hospital a = aa_hospital_id aa
                  /\ patient_location a = aa_pickup_location aa).
Proof.
  intros Hnd. cbn zeta.
  cbn [run_negotiation fst patient_assignments ambulance_assignments].
  set (pas := _assign_patients_to_hospitals waiting hospital_messages ambulance_messages
                priorities).
  pose proof (assign_loop_sublist (take 10 (sorted_patients waiting))
                (build_hospital_capacity hospital_messages) priorities) as Hsub.
  fold (_assign_patients_to_hospitals waiting hospital_messages ambulance_messages
          priorities) in Hsub. fold pas in Hsub.
  assert (Hids : map patient_id pas `sublist_of` map p_id (take 10 (sorted_patients waiting))).
  { exact (sublist_map_proj (fun x : string * string * loc => x.1.1) _ _ _ _ Hsub). }
  assert (Hnd1 : NoDup (map patient_id pas)).
  { eapply sublist_NoDup; [|exact Hids].
    eapply sublist_NoDup; [|apply (fmap_sublist p_id), sublist_take].
    unfold sorted_patients. change (@fmap list _ _ _ p_id) with (map p_id).
    by rewrite (sorted_Permutation _ waiting). }
  pose proof (dispatch_loop_sublist pas (available_pool ambulance_messages)
                (hospital_locations hospital_messages)) as Hsub2.
  fold (_assign_ambulances pas ambulance_messages hospital_messages) in Hsub2.
  split_and!.
  - exact Hnd1.
  - eapply sublist_NoDup; [exact Hnd1|].
    exact (sublist_map_proj (fun x : string * string * loc => x.1.1) _ _ _ _ Hsub2).
  - intros a Ha. split.
    + assert (Hin : (patient_id a, patient_severity a, patient_location a)
                    ∈ map (fun p => (p_id p, p_severity p, p_location p))
                          (take 10 (sorted_patients waiting))).
      { eapply elem_of_sublist; [|exact Hsub].
        apply list_elem_of_fmap. by exists a. }
      apply list_elem_of_fmap in Hin as [p [Heq Hp]]. injection Heq as H1 H2 H3.
      exists p. split_and!; try done.
      apply (fun H => elem_of_sublist _ _ _ H (sublist_take _ 10)) in Hp.
      unfold sorted_patients in Hp. by rewrite (sorted_Permutation _ waiting) in Hp.
    + apply assign_loop_hospital in Ha.
      apply od_fill_keys in Ha as [Ha|Ha]; [by apply elem_of_nil in Ha|done].
  - intros aa Haa.
    assert (Hin : (aa_patient_id aa, aa_hospital_id aa, aa_pickup_location aa)
                  ∈ map (fun a => (patient_id a, assigned_hospital a, patient_location a))
                        pas).
    { eapply elem_of_sublist; [|exact Hsub2]. apply list_elem_of_fmap. by exists aa. }
    apply list_elem_of_fmap in Hin as [a [Heq Ha]]. injection Heq as H1 H2 H3.
    by exists a.
Qed.

Lemma round_assigns_each_waiting_patient_at_most_once_witness :
  NoDup (map p_id Cases.twelve_waiting)
  /\ NoDup (map patient_id
              (patient_assignments
                 (run_negotiation NegotiationEngine.init [Examples.hospital_b_msg] []
                    Examples.depot_msg ∅ Cases.twelve_waiting).1)).
Proof.
  assert (H : NoDup (map p_id Cases.twelve_waiting)).
  { apply (bool_decide_unpack _). by vm_compute. }
  split; [exact H|].
  exact (proj1 (round_assigns_each_waiting_patient_at_most_once
                  NegotiationEngine.init [Examples.hospital_b_msg] []
                  Examples.depot_msg ∅ Cases.twelve_waiting H)).
Defined.

End engine_round2.

Section best_hospital.
Import NegotiationEngine.

Lemma foldl_best_from {A} (key : A -> float) l : forall x,
  let b := foldl (fun best y => if (key best <? key y)%float then y else best) x l in
  b = x \/ (key x <? key b)%float = true.
Proof.
  induction l as [|y l IH]; intros x; simpl; [by left|].
  destruct (key x <? key y)%float eqn:E.
  - destruct (IH y) as [->|H]; [by right|]. right. by eapply float_ltb_trans.
  - apply IH.
Qed.

Lemma foldl_best_max {A} (key : A -> float) l : forall x y,
  y ∈ x :: l ->
  (key (foldl (fun best y => if (key best <? key y)%float then y else best) x l)
   <? key y)%float = false.
Proof.
  induction l as [|z l IH]; intros x y Hy; simpl.
  - apply list_elem_of_singleton in Hy as ->. apply float_ltb_irrefl.
  - destruct (key x <? key z)%float eqn:E.
    + apply elem_of_cons in Hy as [->|Hy]; [|by apply IH].
      match goal with |- ?c = false => destruct c eqn:E2; [|done] end.
      rewrite <- (IH z z ltac:(by left)). symmetry. by eapply float_ltb_trans.
    + apply elem_of_cons in Hy as [->|Hy]; [apply IH; by left|].
      apply elem_of_cons in Hy as [->|Hy]; [|apply IH; by right].
      destruct (foldl_best_from key l x) as [Hb|Hb]; cbn zeta in Hb.
      * by rewrite Hb.
      * match goal with |- ?c = false => destruct c eqn:E2; [|done] end.
        rewrite <- E. symmetry. by eapply float_ltb_trans.
Qed.

Lemma max_by_max {A} (key : A -> float) l best y :
  Py.max_by key l = Some best -> y ∈ l -> (key best <? key y)%float = false.
Proof.
  destruct l as [|x l]; simpl; [done|]. intros [= <-]. apply foldl_best_max.
Qed.

Lemma candidates_of_spec p cap pri c :
  c ∈ candidates_of p cap pri
  <-> exists h hd, (h, hd) ∈ cap /\ no_capacity (p_severity p) hd = false
                   /\ c = score_hospital (p_location p) pri h hd.
Proof.
  unfold candidates_of. rewrite list_elem_of_omap. split.
  - intros [[h hd] [Hin Hsome]].
    destruct (no_capacity (p_severity p) hd) eqn:E; [done|].
    injection Hsome as <-. by exists h, hd.
  - intros (h & hd & Hin & Hcap & ->). exists (h, hd). by rewrite Hcap.
Qed.

(** X4. _find_best_hospital returns nothing exactly when no hospital of the
    round's capacity table has a free slot of the casualty's class;
    otherwise it returns a hospital that has one, scored by the scoring
    formula, and no hospital with a free slot of the class scores higher. *)
Theorem best_hospital_is_an_admissible_maximum
    (p : patient) (hospital_capacity : odict h_data) (priorities : gmap string float) :
  match _find_best_hospital p hospital_capacity priorities with
  | None =>
      forall h hd, (h, hd) ∈ hospital_capacity -> no_capacity (p_severity p) hd = true
  | Some best =>
      (exists hd, (c_id best, hd) ∈ hospital_capacity
                  /\ no_capacity (p_severity p) hd = false
                  /\ best = score_hospital (p_location p) priorities (c_id best) hd)
      /\ forall h hd, (h, hd) ∈ hospital_capacity ->
           no_capacity (p_severity p) hd = false ->
           (c_score best
            <? c_score (score_hospital (p_location p) priorities h hd))%float = false
  end.
Proof.
  unfold _find_best_hospital.
  destruct (Py.max_by c_score (candidates_of p hospital_capacity priorities))
    as [best|] eqn:Hbest.
  - split.
    + apply max_by_elem, candidates_of_spec in Hbest as (h & hd & Hin & Hcap & ->).
      by exists hd.
    + intros h hd Hin Hcap. eapply max_by_max; [exact Hbest|].
      apply candidates_of_spec. by exists h, hd.
  - intros h hd Hin. destruct (no_capacity (p_severity p) hd) eqn:Hcap; [done|].
    assert (Hc : score_hospital (p_location p) priorities h hd
                 ∈ candidates_of p hospital_capacity priorities).
    { apply candidates_of_spec. by exists h, hd. }
    destruct (candidates_of p hospital_capacity priorities); [|done].
    by apply elem_of_nil in Hc.
Qed.

Lemma best_hospital_is_an_admissible_maximum_witness :
  exists best,
    _find_best_hospital Examples.high_patient
      (build_hospital_capacity [Examples.asks_40; Examples.hospital_b_msg; Examples.asks_30])
      ∅ = Some best
    /\ forall h hd,
         (h, hd) ∈ build_hospital_capacity
                     [Examples.asks_40; Examples.hospital_b_msg; Examples.asks_30] ->
         no_capacity "high" hd = false ->
         (c_score best
          <? c_score (score_hospital (p_location Examples.high_patient) ∅ h hd))%float
         = false.
Proof.
  pose proof (best_hospital_is_an_admissible_maximum Examples.high_patient
                (build_hospital_capacity
                   [Examples.asks_40; Examples.hospital_b_msg; Examples.asks_30]) ∅) as H.
  destruct (_find_best_hospital Examples.high_patient _ ∅) as [best|] eqn:E.
  - exists best. split; [done|]. exact (proj2 H).
  - by vm_compute in E.
Defined.

End best_hospital.

Section supply_conservation.
Import NegotiationEngine.

Lemma granted_cons r g gs :
  granted r (g :: gs)
  = (if String.eqb (al_resource g) r then al_quantity g else 0) + granted r gs.
Proof. unfold granted. simpl. destruct (String.eqb _ _); lia. Qed.

Lemma allocate_loop_conserves requests : forall available r,
  granted r (fst (allocate_loop requests available))
  + default 0 (snd (allocate_loop requests available) !! r)
  = default 0 (available !! r).
Proof.
  induction requests as [|req rest IH]; intros available r; [simpl; lia|].
  cbn [allocate_loop].
  destruct (String.eqb _ "ambulance_diversion"); [apply IH|].
  destruct (0 <? _) eqn:Hpos; [|apply IH].
  match goal with |- context [allocate_loop rest ?a] => specialize (IH a r) end.
  destruct (allocate_loop rest _) as [gs final]. cbn [fst snd] in *.
  rewrite granted_cons. cbn [al_resource al_quantity].
  destruct (String.eqb_spec (rq_resource (tr_request req)) r) as [Heq|Hne].
  - rewrite Heq in *. rewrite lookup_insert_eq in IH. simpl in IH. lia.
  - rewrite lookup_insert_ne in IH by done. lia.
Qed.

Lemma allocate_loop_stocked requests : forall available g,
  g ∈ fst (allocate_loop requests available) ->
  al_resource g <> "ambulance_diversion"
  /\ is_Some (available !! al_resource g)
  /\ exists req, req ∈ requests
       /\ al_hospital_id g = tr_hospital_id req
       /\ al_resource g = rq_resource (tr_request req)
       /\ al_urgency g = rq_urgency (tr_request req).
Proof.
  induction requests as [|req rest IH]; intros available g; simpl;
    [by intros ?%elem_of_nil|].
  destruct (String.eqb_spec (rq_resource (tr_request req)) "ambulance_diversion")
    as [Heq|Hne].
  { intros Hg. destruct (IH _ _ Hg) as (H1 & H2 & H3). split_and!; [done|done|].
    destruct H3 as (r' & Hr & HP). exists r'. split; [by right|done]. }
  destruct (0 <? _) eqn:Hpos.
  - match goal with |- context [allocate_loop rest ?a] => specialize (IH a g) end.
    destruct (allocate_loop rest _) as [gs final]. simpl in *.
    apply Z.ltb_lt in Hpos.
    intros [->|Hg]%elem_of_cons; simpl.
    + split_and!; [done| |exists req; split; [by left|done]].
      destruct (available !! rq_resource (tr_request req)); [by eexists|simpl in Hpos; lia].
    + destruct (IH Hg) as (H1 & H2 & H3). split_and!; [done| |].
      * destruct (decide (al_resource g = rq_resource (tr_request req))) as [->|Hd].
        -- destruct (available !! rq_resource (tr_request req));
             [by eexists|simpl in Hpos; lia].
        -- by rewrite lookup_insert_ne in H2.
      * destruct H3 as (r' & Hr & HP). exists r'. split; [by right|done].
  - intros Hg. destruct (IH _ _ Hg) as (H1 & H2 & H3). split_and!; [done|done|].
    destruct H3 as (r' & Hr & HP). exists r'. split; [by right|done].
Qed.

Lemma allocate_loop_nonneg requests : forall available,
  (forall r q, available !! r = Some q -> 0 <= q) ->
  Forall (fun req => 0 <= rq_quantity (tr_request req)) requests ->
  Forall (fun g => 0 <= al_quantity g) (fst (allocate_loop requests available))
  /\ forall r q, snd (allocate_loop requests available) !! r = Some q -> 0 <= q.
Proof.
  induction requests as [|req rest IH]; intros available Hav Hq; simpl; [by split|].
  apply Forall_cons in Hq as [Hq Hrest].
  destruct (String.eqb _ "ambulance_diversion"); [by apply IH|].
  destruct (0 <? _) eqn:Hpos; [|by apply IH].
  apply Z.ltb_lt in Hpos.
  match goal with |- context [allocate_loop rest ?a] =>
    destruct (IH a) as [IH1 IH2]; [|done|] end.
  { intros r q. destruct (decide (r = rq_resource (tr_request req))) as [->|Hne].
    - rewrite lookup_insert_eq. intros [= <-]. lia.
    - rewrite lookup_insert_ne by done. apply Hav. }
  destruct (allocate_loop rest _) as [gs final]. simpl in *. split; [|done].
  constructor; [simpl; lia|done].
Qed.

(** X5. For every resource, what a round of _allocate_supplies grants plus
    what is left of its tentative inventory equals the stock the depot
    reported; every grant answers a request of some hospital for a resource
    the depot lists, and none is an ambulance diversion; with stock and
    requested quantities that are not negative, no grant is negative and the
    grants of a resource never exceed its stock. *)
Theorem supply_round_never_grants_beyond_stock
    (hospitals : list hospital_msg) (supply : supply_msg)
    (priorities : gmap string float) :
  let grants := _allocate_supplies hospitals supply priorities in
  let left :=
    snd (allocate_loop (take 5 (sorted_requests hospitals)) (sm_inventory supply)) in
  (forall r, granted r grants + default 0 (left !! r)
             = default 0 (sm_inventory supply !! r))
  /\ (forall g, g ∈ grants ->
        al_resource g <> "ambulance_diversion"
        /\ is_Some (sm_inventory supply !! al_resource g)
        /\ exists h req, h ∈ hospitals /\ req ∈ hm_requests h
             /\ al_hospital_id g = hm_agent_id h
             /\ al_resource g = rq_resource req)
  /\ ((forall r q, sm_inventory supply !! r = Some q -> 0 <= q) ->
      (forall h req, h ∈ hospitals -> req ∈ hm_requests h -> 0 <= rq_quantity req) ->
      (forall g, g ∈ grants -> 0 <= al_quantity g)
      /\ (forall r, 0 <= default 0 (left !! r)
                    /\ 0 <= granted r grants <= default 0 (sm_inventory supply !! r))).
Proof.
  cbn zeta. unfold _allocate_supplies.
  assert (Hreq : forall tr, tr ∈ take 5 (sorted_requests hospitals) ->
            exists h, h ∈ hospitals /\ tr_request tr ∈ hm_requests h
                      /\ tr_hospital_id tr = hm_agent_id h).
  { intros tr Htr. apply (fun H => elem_of_sublist _ _ _ H (sublist_take _ 5)) in Htr.
    unfold sorted_requests in Htr. rewrite (sorted_Permutation _ _) in Htr.
    unfold collect_requests in Htr. apply list_elem_of_In, in_flat_map in Htr.
    destruct Htr as (h & Hh & Htr). apply in_map_iff in Htr as (req & <- & Hreq).
    exists h. split_and!; [by apply list_elem_of_In|by apply list_elem_of_In|done]. }
  split_and!.
  - intros r. apply allocate_loop_conserves.
  - intros g Hg. apply allocate_loop_stocked in Hg as (H1 & H2 & tr & Htr & Hid & Hres & _).
    split_and!; [done|done|].
    destruct (Hreq tr Htr) as (h & Hh & Hin & Hhid).
    exists h, (tr_request tr). split_and!; [done|done|congruence|done].
  - intros Hstock Hq.
    destruct (allocate_loop_nonneg (take 5 (sorted_requests hospitals))
                (sm_inventory supply) Hstock) as [H1 H2].
    { apply Forall_forall. intros tr Htr. destruct (Hreq tr Htr) as (h & Hh & Hin & _).
      by eapply Hq. }
    split.
    + intros g Hg. rewrite Forall_forall in H1. by apply H1.
    + intros r.
      pose proof (allocate_loop_conserves (take 5 (sorted_requests hospitals))
                    (sm_inventory supply) r) as Hc.
      assert (Hl : 0 <= default 0
                (snd (allocate_loop (take 5 (sorted_requests hospitals))
                        (sm_inventory supply)) !! r)).
      { destruct (_ !! r) as [q|] eqn:E; simpl; [by eapply H2|done]. }
      assert (Hg : 0 <= granted r
                (fst (allocate_loop (take 5 (sorted_requests hospitals))
                        (sm_inventory supply)))).
      { clear -H1. induction H1 as [|g gs Hg _ IH]; [done|].
        rewrite granted_cons. destruct (String.eqb _ _); lia. }
      lia.
Qed.

Lemma supply_round_never_grants_beyond_stock_witness :
  0 <= granted "oxygen"
         (_allocate_supplies [Examples.asks_40; Examples.asks_30] Examples.depot_msg ∅)
    <= 50.
Proof.
  destruct (supply_round_never_grants_beyond_stock
              [Examples.asks_40; Examples.asks_30] Examples.depot_msg ∅)
    as (_ & _ & H).
  destruct H as [_ H].
  - intros r q Hq. unfold Examples.depot_msg in Hq. cbn [sm_inventory] in Hq.
    apply lookup_singleton_Some in Hq as [_ <-]. lia.
  - intros h req Hh Hreq.
    assert (Hq : rq_quantity req = 40 \/ rq_quantity req = 30); [|lia].
    apply elem_of_cons in Hh as [->|Hh]; [|apply list_elem_of_singleton in Hh as ->];
      apply list_elem_of_singleton in Hreq as ->; auto.
  - exact (proj2 (H "oxygen")).
Defined.

End supply_conservation.

(** ** The state checks of the constraint checker *)

Section constraints.
Import NegotiationEngine Constraints.

Lemma foldl_append self l : foldl append self l = {| violations := violations self ++ l |}.
Proof.
  revert self. induction l as [|v l IH]; intros self; simpl.
  - rewrite app_nil_r. by destruct self.
  - rewrite IH. unfold append. simpl. by rewrite <- app_assoc.
Qed.

Lemma foldl_checks {A} (f : A -> list violation) (l : list A) : forall self,
  foldl (fun self a => foldl append self (f a)) self l
  = {| violations := violations self ++ flat_map f l |}.
Proof.
  induction l as [|a l IH]; intros self; simpl.
  - rewrite app_nil_r. by destruct self.
  - rewrite IH, foldl_append. simpl. by rewrite <- app_assoc.
Qed.

Lemma foldl_checks_kv {V} (f : string -> V -> list violation) (l : odict V) : forall self,
  foldl (fun self '(k, v) => foldl append self (f k v)) self l
  = {| violations := violations self ++ flat_map (fun kv => f kv.1 kv.2) l |}.
Proof.
  induction l as [|[k v] l IH]; intros self; simpl.
  - rewrite app_nil_r. by destruct self.
  - rewrite IH, foldl_append. simpl. by rewrite <- app_assoc.
Qed.

Lemma check_all_constraints_violations self hospitals ambulances supply proposals :
  (check_all_constraints self hospitals ambulances supply proposals).1.2
  = flat_map (fun kv => hospital_violations kv.1 kv.2) hospitals
    ++ flat_map (fun kv => ambulance_violations kv.1 kv.2) ambulances
    ++ flat_map (fun kv => supply_violations kv.1 kv.2) (sd_inventory supply)
    ++ flat_map (fun p => allocation_violations p hospitals ambulances) proposals.
Proof.
  unfold check_all_constraints, _check_hospital_constraints,
    _check_ambulance_constraints, _check_supply_constraints,
    _check_allocation_constraints. cbn [fst snd].
  rewrite (foldl_checks (fun p => allocation_violations p hospitals ambulances)).
  rewrite (foldl_checks_kv supply_violations), (foldl_checks_kv ambulance_violations),
    (foldl_checks_kv hospital_violations).
  cbn [violations reset]. by rewrite <- !app_assoc.
Qed.

Lemma flat_map_nil_iff {A B} (f : A -> list B) l :
  flat_map f l = [] <-> Forall (fun a => f a = []) l.
Proof.
  induction l as [|a l IH]; simpl; [by split|].
  rewrite Forall_cons, <- IH. split.
  - by intros [? ?]%app_eq_nil.
  - by intros [-> ->].
Qed.

Lemma hospital_violations_nil h_id h :
  hospital_violations h_id h = [] <-> hospital_in_bounds h.
Proof.
  unfold hospital_violations, hospital_in_bounds.
  destruct (Z.ltb_spec (hs_available_beds h) 0), (Z.ltb_spec (hs_icu_available h) 0),
    (hs_oxygen_units h <? 20)%float; simpl; split; try done; try lia;
    intros (? & ? & ?); try done; lia.
Qed.

Lemma ambulance_violations_nil a_id a :
  ambulance_violations a_id a = [] <-> ambulance_in_bounds a.
Proof.
  unfold ambulance_violations, ambulance_in_bounds.
  destruct (Z.ltb_spec (as_capacity a) (as_current_load a)),
    (as_fuel a <? 15)%float; simpl; split; try done; try lia;
    intros (? & ?); try done; lia.
Qed.

Lemma supply_violations_nil ty q : supply_violations ty q = [] <-> 0 <= q.
Proof. unfold supply_violations. destruct (Z.ltb_spec q 0); split; try done; lia. Qed.

Lemma allocation_violations_nil p hospitals ambulances :
  allocation_violations p hospitals ambulances = [] <-> allocation_in_bounds hospitals p.
Proof.
  unfold allocation_violations, allocation_in_bounds.
  destruct (pa_type p) as [ty|]; [|by split].
  destruct (String.eqb_spec ty "patient_assignment") as [->|Hne];
    [|split; [intros _ [= ?]; congruence|done]].
  destruct (known_hospital _ hospitals) as [h|]; [|split; [by intros _ _ h [=]|done]].
  destruct (is_critical (pa_patient_severity p)); cbn [negb andb].
  - destruct (Z.leb_spec (hs_icu_available h) 0); split; try done.
    + intros H0. specialize (H0 eq_refl h eq_refl). lia.
    + intros _ _ h' [= <-]. lia.
  - destruct (Z.leb_spec (hs_available_beds h) 0); split; try done.
    + intros H0. specialize (H0 eq_refl h eq_refl). lia.
    + intros _ _ h' [= <-]. lia.
Qed.

(** X6. check_all_constraints answers valid exactly when no hospital has a
    negative bed or ICU counter or less than 20 units of oxygen, no
    ambulance carries more than its capacity or has fuel below 15, no stock
    is negative, and every proposal typed patient_assignment for a known
    hospital finds a free slot of its class there; the list it returns is
    the checker's own violation list, and a second check of the same state
    gives the same answer, earlier violations being discarded. *)
Theorem check_all_constraints_accepts_exactly_the_states_in_bounds
    (self : Constraints.t) (hospitals : odict hospital_state)
    (ambulances : odict ambulance_state) (supply : supply_dict)
    (proposals : list proposed_allocation) :
  let run := check_all_constraints self hospitals ambulances supply proposals in
  (run.1.1 = true
   <-> Forall (fun kv => hospital_in_bounds kv.2) hospitals
       /\ Forall (fun kv => ambulance_in_bounds kv.2) ambulances
       /\ Forall (fun kv => 0 <= kv.2) (sd_inventory supply)
       /\ Forall (allocation_in_bounds hospitals) proposals)
  /\ violations run.2 = run.1.2
  /\ check_all_constraints run.2 hospitals ambulances supply proposals = run.
Proof.
  cbn zeta. split_and!; [|done|done].
  pose proof (check_all_constraints_violations self hospitals ambulances supply proposals)
    as Hv.
  change ((check_all_constraints self hospitals ambulances supply proposals).1.1)
    with (Nat.eqb (length (check_all_constraints self hospitals ambulances supply
                             proposals).1.2) 0).
  rewrite Hv, Nat.eqb_eq, length_zero_iff_nil.
  rewrite !app_nil, !flat_map_nil_iff.
  assert (Hiff : forall {A} (P Q : A -> Prop) l,
            (forall a, P a <-> Q a) -> Forall P l <-> Forall Q l).
  { intros A P Q l HPQ. rewrite !Forall_forall. split; intros H a Ha; apply HPQ; auto. }
  rewrite (Hiff _ _ (fun kv => hospital_in_bounds kv.2) hospitals)
    by (intros; apply hospital_violations_nil).
  rewrite (Hiff _ _ (fun kv => ambulance_in_bounds kv.2) ambulances)
    by (intros; apply ambulance_violations_nil).
  rewrite (Hiff _ _ (fun kv => 0 <= kv.2) (sd_inventory supply))
    by (intros; apply supply_violations_nil).
  rewrite (Hiff _ _ (allocation_in_bounds hospitals) proposals)
    by (intros; apply allocation_violations_nil).
  done.
Qed.

Lemma check_all_constraints_valid_witness :
  (check_all_constraints Constraints.__init__ Cases.sound_hospitals [] Cases.stock
     [as_patient_assignment (Examples.proposal "patient_001")]).1.1 = true.
Proof.
  apply (check_all_constraints_accepts_exactly_the_states_in_bounds
           Constraints.__init__ Cases.sound_hospitals [] Cases.stock
           [as_patient_assignment (Examples.proposal "patient_001")]).
  split_and!.
  - repeat constructor; by vm_compute.
  - constructor.
  - repeat constructor; by vm_compute.
  - repeat constructor. intros _ h. vm_compute. intros [= <-]. reflexivity.
Defined.

Lemma severity_of_violations (found : list violation) :
  Forall (fun v => v_severity v = "critical" \/ v_severity v = "warning") found ->
  length found
  = (length (List.filter (fun v => String.eqb (v_severity v) "critical") found)
     + length (List.filter (fun v => String.eqb (v_severity v) "warning") found))%nat.
Proof.
  induction 1 as [|v l [Hv|Hv] _ IH]; simpl; [done| |]; rewrite Hv; simpl; lia.
Qed.

Lemma check_all_constraints_severities self hospitals ambulances supply proposals :
  Forall (fun v => v_severity v = "critical" \/ v_severity v = "warning")
         (check_all_constraints self hospitals ambulances supply proposals).1.2.
Proof.
  rewrite check_all_constraints_violations. rewrite !Forall_app.
  assert (Hone : forall l : list violation,
            Forall (fun v => v_severity v = "critical" \/ v_severity v = "warning") l ->
            forall b : bool,
              Forall (fun v => v_severity v = "critical" \/ v_severity v = "warning")
                     (if b then l else [])).
  { intros l Hl []; [done|constructor]. }
  split_and!; apply Forall_flat_map, Forall_forall.
  - intros [k h] _. unfold hospital_violations. cbn [fst snd].
    rewrite !Forall_app. split_and!; apply Hone; constructor; simpl; auto.
  - intros [k a] _. unfold ambulance_violations. cbn [fst snd].
    rewrite !Forall_app. split_and!; apply Hone; constructor; simpl; auto.
  - intros [k q] _. unfold supply_violations. cbn [fst snd].
    apply Hone; constructor; simpl; auto.
  - intros p _. unfold allocation_violations.
    destruct (pa_type p); [|constructor]. destruct (String.eqb _ _); [|constructor].
    destruct (known_hospital _ _); [|constructor].
    destruct (_ && _); [constructor; simpl; auto|].
    apply Hone; constructor; simpl; auto.
Qed.

(** X7. After a check, the summary's total is its critical count plus its
    warning count; the check answered valid exactly when the total is zero,
    whereas the summary's is_valid only asks for no critical violation: a
    state with warnings only is invalid for the check and valid for the
    summary. *)
Theorem violations_summary_splits_critical_and_warnings
    (self : Constraints.t) (hospitals : odict hospital_state)
    (ambulances : odict ambulance_state) (supply : supply_dict)
    (proposals : list proposed_allocation) :
  let run := check_all_constraints self hospitals ambulances supply proposals in
  let summary := get_violations_summary run.2 in
  total_violations summary = (critical_count summary + warning_count summary)%nat
  /\ (run.1.1 = true <-> total_violations summary = 0%nat)
  /\ (is_valid summary = true <-> critical_count summary = 0%nat)
  /\ (run.1.1 = true -> is_valid summary = true).
Proof.
  cbn zeta.
  pose proof (check_all_constraints_severities self hospitals ambulances supply proposals)
    as Hsev.
  pose proof (severity_of_violations _ Hsev) as Hsplit.
  unfold get_violations_summary.
  cbn [total_violations critical_count warning_count is_valid].
  change (violations (check_all_constraints self hospitals ambulances supply proposals).2)
    with ((check_all_constraints self hospitals ambulances supply proposals).1.2).
  change ((check_all_constraints self hospitals ambulances supply proposals).1.1)
    with (Nat.eqb (length (check_all_constraints self hospitals ambulances supply
                             proposals).1.2) 0).
  rewrite !Nat.eqb_eq. split_and!; [done|done|done|lia].
Qed.

Lemma violations_summary_witness :
  let run := check_all_constraints Constraints.__init__ Cases.thin_hospitals
               Cases.thin_ambulances Cases.stock [] in
  run.1.1 = false
  /\ total_violations (get_violations_summary run.2) = 2%nat
  /\ warning_count (get_violations_summary run.2) = 2%nat
  /\ is_valid (get_violations_summary run.2) = true.
Proof.
  cbn zeta.
  destruct (violations_summary_splits_critical_and_warnings Constraints.__init__
              Cases.thin_hospitals Cases.thin_ambulances Cases.stock [])
    as (H1 & H2 & H3 & _).
  cbn zeta in H1, H2, H3.
  assert (Hw : warning_count (get_violations_summary
            (check_all_constraints Constraints.__init__ Cases.thin_hospitals
               Cases.thin_ambulances Cases.stock []).2) = 2%nat) by (by vm_compute).
  assert (Hc : critical_count (get_violations_summary
            (check_all_constraints Constraints.__init__ Cases.thin_hospitals
               Cases.thin_ambulances Cases.stock []).2) = 0%nat) by (by vm_compute).
  rewrite Hw, Hc in H1. split_and!; [|done|done|by apply H3].
  destruct ((check_all_constraints _ _ _ _ _).1.1); [|done].
  destruct H2 as [H2 _]. specialize (H2 eq_refl). rewrite H1 in H2. discriminate.
Defined.

(** X8. The assignments the negotiation engine builds carry no [type] key,
    so check_all_constraints gives the same answer with them as with no
    proposal at all: it never examines them. *)
Theorem engine_assignments_pass_the_state_check_unexamined
    (self : Constraints.t) (hospitals : odict hospital_state)
    (ambulances : odict ambulance_state) (supply : supply_dict)
    (assignments : list assignment) :
  check_all_constraints self hospitals ambulances supply (map of_assignment assignments)
  = check_all_constraints self hospitals ambulances supply [].
Proof.
  assert (Hv : forall props,
            check_all_constraints self hospitals ambulances supply props
            = ((Nat.eqb (length (check_all_constraints self hospitals ambulances supply
                                   props).1.2) 0,
                (check_all_constraints self hospitals ambulances supply props).1.2),
               {| violations :=
                    (check_all_constraints self hospitals ambulances supply props).1.2 |})).
  { intros props. unfold check_all_constraints. cbn [fst snd].
    by destruct (foldl _ _ props). }
  rewrite (Hv (map of_assignment assignments)), (Hv []).
  rewrite !check_all_constraints_violations.
  replace (flat_map (fun p => allocation_violations p hospitals ambulances)
             (map of_assignment assignments)) with (@nil violation); [done|].
  clear. induction assignments as [|a l IH]; [done|exact IH].
Qed.

Lemma od_get_list_to_map {V} (d : odict V) k :
  (list_to_map d : gmap string V) !! k = od_get k d.
Proof.
  induction d as [|[k0 v] d IH]; simpl; [done|].
  destruct (String.eqb_spec k0 k) as [->|Hne].
  - by rewrite lookup_insert_eq.
  - by rewrite lookup_insert_ne.
Qed.

Lemma filter_loop_all_valid proposed : forall rb ri valid,
  ConstraintChecker.filter_loop proposed rb ri = (valid, []) ->
  Forall (fun a =>
            if String.eqb (patient_severity a) "critical"
            then 0 < default 0 (ri !! assigned_hospital a)
            else 0 < default 0 (rb !! assigned_hospital a)) proposed.
Proof.
  induction proposed as [|a rest IH]; intros rb ri valid Hloop; [constructor|].
  cbn [ConstraintChecker.filter_loop] in Hloop.
  assert (Hmono : forall (m : gmap string Z) k h,
            0 < default 0 (alter (fun n => n - 1) k m !! h) -> 0 < default 0 (m !! h)).
  { intros m k h. rewrite remaining_alter. destruct (decide _); [|done].
    destruct (m !! h); simpl; lia. }
  destruct (String.eqb (patient_severity a) "critical") eqn:Hsev.
  - destruct (0 <? default 0 (ri !! assigned_hospital a)) eqn:Hcap.
    + destruct (ConstraintChecker.filter_loop rest rb _) as [valid' rejected'] eqn:Hrest.
      injection Hloop as <- ->. apply IH in Hrest.
      apply Z.ltb_lt in Hcap. constructor; [by rewrite Hsev|].
      eapply Forall_impl; [exact Hrest|]. intros b. cbn beta.
      destruct (String.eqb (patient_severity b) "critical"); [exact (Hmono _ _ _)|done].
    + destruct (ConstraintChecker.filter_loop rest rb ri). done.
  - destruct (0 <? default 0 (rb !! assigned_hospital a)) eqn:Hcap.
    + destruct (ConstraintChecker.filter_loop rest _ ri) as [valid' rejected'] eqn:Hrest.
      injection Hloop as <- ->. apply IH in Hrest.
      apply Z.ltb_lt in Hcap. constructor; [by rewrite Hsev|].
      eapply Forall_impl; [exact Hrest|]. intros b. cbn beta.
      destruct (String.eqb (patient_severity b) "critical"); [done|exact (Hmono _ _ _)].
    + destruct (ConstraintChecker.filter_loop rest rb ri). done.
Qed.

(** X9. If filter_valid_allocations rejects none of a list of proposals,
    then each of them, typed as a patient assignment, passes
    _check_allocation_constraints against the same hospitals. *)
Theorem proposals_the_filter_accepts_pass_the_allocation_check
    (proposed : list assignment) (hospitals : odict hospital_state)
    (ambulances : gmap string ambulance_state) (ambulance_states : odict ambulance_state) :
  snd (ConstraintChecker.filter_valid_allocations proposed (list_to_map hospitals)
         ambulances) = [] ->
  Forall (fun a => allocation_violations (as_patient_assignment a) hospitals
                     ambulance_states = []) proposed.
Proof.
  unfold ConstraintChecker.filter_valid_allocations.
  destruct (ConstraintChecker.filter_loop proposed _ _) as [valid rejected] eqn:Hloop.
  cbn [snd]. intros ->. apply filter_loop_all_valid in Hloop.
  eapply Forall_impl; [exact Hloop|]. intros a Ha. cbn beta in Ha.
  apply allocation_violations_nil. intros _ h Hh.
  unfold known_hospital, as_patient_assignment in Hh. cbn in Hh.
  destruct (String.eqb (assigned_hospital a) EmptyString); [done|].
  unfold as_patient_assignment, is_critical. cbn [pa_patient_severity].
  rewrite !lookup_fmap, !od_get_list_to_map, Hh in Ha. simpl in Ha.
  by destruct (String.eqb (patient_severity a) "critical").
Qed.

Lemma proposals_the_filter_accepts_witness :
  Forall (fun a => allocation_violations (as_patient_assignment a)
                     Cases.sound_hospitals [] = [])
         [Examples.proposal "patient_001"; Examples.proposal "patient_002"].
Proof.
  apply (proposals_the_filter_accepts_pass_the_allocation_check
           [Examples.proposal "patient_001"; Examples.proposal "patient_002"]
           Cases.sound_hospitals ∅ []).
  vm_compute. reflexivity.
Defined.

End constraints.

(** ** Failure handler: detection, resolution and the summary *)

Section handling.
Import FailureHandler Monitor Handling FailureStatus.

Lemma is_active_elem ft self :
  is_active ft self = true
  <-> ft ∈ map (fun a => f_type (af_failure a)) (active_failures self).
Proof.
  unfold is_active. rewrite existsb_exists, list_elem_of_fmap. split.
  - intros (a & Ha & Ht). exists a. split; [by apply bool_decide_eq_true in Ht|].
    by apply list_elem_of_In.
  - intros (a & -> & Ha). exists a. split; [by apply list_elem_of_In|].
    by apply bool_decide_eq_true.
Qed.

(** One pass of the handler: the alerts are the entries it appends, and the
    history is left alone. *)
Lemma handle_all_appends failures : forall self clock n,
  let '(alerts, self', n') := handle_all self clock n failures in
  (exists added,
      active_failures self' = active_failures self ++ added
      /\ map (fun a => af_failure a) added = map r_failure alerts
      /\ Forall (fun a => af_resolved_at a = None) added)
  /\ failure_history self' = failure_history self
  /\ (one_entry_per_type self -> one_entry_per_type self')
  /\ Forall (fun r => r_failure r ∈ failures
                      /\ r_protocol r = pr_name (_init_protocols (f_type (r_failure r)))
                      /\ r_actions_taken r
                         = pr_actions (_init_protocols (f_type (r_failure r)))
                      /\ r_status r = "activated") alerts.
Proof.
  induction failures as [|f rest IH]; intros self clock n.
  - simpl. split_and!; [|done|done|done]. exists []. by rewrite app_nil_r.
  - cbn [handle_all]. destruct (already_active self f) eqn:Hact.
    { specialize (IH self clock n). destruct (handle_all self clock n rest) as [[al s2] n2].
      destruct IH as (H1 & H2 & H3 & H4). split_and!; try done.
      eapply Forall_impl; [exact H4|]. intros r (? & ?). split; [by right|done]. }
    unfold handle_failure.
    match goal with |- context [handle_all ?s clock ?m rest] =>
      specialize (IH s clock m); destruct (handle_all s clock m rest)
        as [[alerts self2] n2] end.
    cbn [active_failures failure_history] in IH.
    destruct IH as ((added & Hadd & Hmap & Hres) & Hhist & Hwf & Hprot).
    split_and!.
    + eexists (_ :: added). rewrite Hadd, <- app_assoc. split_and!; [done| |].
      * cbn [map af_failure r_failure]. by rewrite Hmap.
      * by constructor.
    + done.
    + intros Hnd. apply Hwf. unfold one_entry_per_type. cbn [active_failures].
      rewrite map_app. apply NoDup_app. split_and!; [done| |apply NoDup_singleton].
      intros ft Hft ->%list_elem_of_singleton. cbn [af_failure] in Hft.
      apply is_active_elem in Hft. rewrite already_active_is_active in Hact. congruence.
    + constructor; [split_and!; try done; by left|].
      eapply Forall_impl; [exact Hprot|]. intros r (? & ?). split; [by right|done].
Qed.

Lemma resolve_in_spec ft now l :
  match resolve_in ft now l with
  | Some (r, l') =>
      exists l1 a l2,
        l = l1 ++ a :: l2 /\ l' = l1 ++ l2
        /\ f_type (af_failure a) = ft
        /\ r = {| af_failure := af_failure a; af_handled_at := af_handled_at a;
                  af_protocol := af_protocol a; af_resolved_at := Some now |}
        /\ Forall (fun x => f_type (af_failure x) <> ft) l1
  | None => Forall (fun x => f_type (af_failure x) <> ft) l
  end.
Proof.
  induction l as [|a l IH]; simpl; [constructor|].
  destruct (bool_decide (f_type (af_failure a) = ft)) eqn:E.
  - apply bool_decide_eq_true in E. by exists [], a, l.
  - apply bool_decide_eq_false in E.
    destruct (resolve_in ft now l) as [[r l']|].
    + destruct IH as (l1 & b & l2 & -> & -> & Hb & -> & Hl1).
      exists (a :: l1), b, l2. split_and!; try done. by constructor.
    + by constructor.
Qed.

(** X10. resolve_failure returns whether the type is active. If it is not,
    nothing changes. If it is, one active entry of the type moves to the end
    of the history with its resolution stamp and the other types stay active
    or inactive as they were; when no type is active twice, the type is then
    no longer active, and the next check alerts it again exactly if its
    condition is detected. *)
Theorem resolve_failure_retires_the_active_entry
    (self : FailureHandler.t) (now : string) (ft : FailureType) :
  let '(found, self') := resolve_failure self now ft in
  found = is_active ft self
  /\ (found = false -> self' = self)
  /\ (found = true ->
      S (length (active_failures self')) = length (active_failures self)
      /\ (exists a, a ∈ active_failures self
            /\ f_type (af_failure a) = ft
            /\ failure_history self'
               = failure_history self
                 ++ [ {| af_failure := af_failure a; af_handled_at := af_handled_at a;
                         af_protocol := af_protocol a; af_resolved_at := Some now |} ])
      /\ (forall ft', ft' <> ft -> is_active ft' self' = is_active ft' self)
      /\ (one_entry_per_type self ->
          is_active ft self' = false /\ one_entry_per_type self'
          /\ forall clock n hs ambs sup,
               alerts_of ft (check_and_handle_failures self' clock n hs ambs sup).1.1
               = (if bool_decide (ft ∈ map f_type (detect_failures hs ambs sup))
                  then 1 else 0)%nat)).
Proof.
  unfold resolve_failure. pose proof (resolve_in_spec ft now (active_failures self)) as H.
  destruct (resolve_in ft now (active_failures self)) as [[r l']|].
  - destruct H as (l1 & a & l2 & Hl & -> & Ha & -> & Hl1).
    assert (Hact : is_active ft self = true).
    { apply is_active_elem. rewrite Hl, map_app. apply elem_of_app. right.
      cbn [map]. rewrite Ha. by left. }
    split_and!; [done|done|]. intros _. cbn [active_failures failure_history].
    split_and!.
    + rewrite Hl, !length_app. simpl. lia.
    + exists a. split_and!; [|done|done]. rewrite Hl. apply elem_of_app. right. by left.
    + intros ft' Hne. unfold is_active. cbn [active_failures].
      rewrite Hl, !existsb_app. simpl.
      by rewrite (bool_decide_false (f_type (af_failure a) = ft')) by congruence.
    + unfold one_entry_per_type. cbn [active_failures]. rewrite Hl, !map_app.
      cbn [map]. intros Hnd.
      apply NoDup_app in Hnd as (Hnd1 & Hdisj & Hnd2).
      apply NoDup_cons in Hnd2 as [Ha2 Hnd2].
      assert (Hgone : is_active ft
                {| active_failures := l1 ++ l2;
                   failure_history := failure_history self ++
                     [ {| af_failure := af_failure a; af_handled_at := af_handled_at a;
                          af_protocol := af_protocol a; af_resolved_at := Some now |} ] |}
              = false).
      { match goal with |- ?x = false => destruct x eqn:E; [|done] end. exfalso.
        apply is_active_elem in E. cbn [active_failures] in E.
        rewrite map_app in E. apply elem_of_app in E as [E|E].
        - apply list_elem_of_fmap in E as (x & Hx & Hin).
          rewrite Forall_forall in Hl1. by apply (Hl1 x).
        - by rewrite <- Ha in E. }
      split_and!.
      * exact Hgone.
      * apply NoDup_app. split_and!; [done| |done].
        intros x Hx1 Hx2. apply (Hdisj x Hx1). by right.
      * intros clock n hs ambs sup. unfold check_and_handle_failures.
        match goal with |- context [handle_all ?s clock n _] =>
          destruct (handle_all_spec (detect_failures hs ambs sup) s clock n ft) as [H1 _]
        end.
        rewrite H1, Hgone. done.
  - assert (Hact : is_active ft self = false).
    { destruct (is_active ft self) eqn:E; [|done]. exfalso.
      apply is_active_elem, list_elem_of_fmap in E as (x & Hx & Hin).
      rewrite Forall_forall in H. by apply (H x). }
    split_and!; [done|done|done].
Qed.

Lemma resolve_failure_retires_the_active_entry_witness :
  let alerted :=
    (check_and_handle_failures FailureHandler.init Examples.clock_a 0
       (snap_hospitals Examples.no_unit_tick) (snap_ambulances Examples.no_unit_tick)
       (snap_supply Examples.no_unit_tick)).1.2 in
  is_active NO_AMBULANCES alerted = true
  /\ is_active NO_AMBULANCES
       (resolve_failure alerted (Examples.clock_b 1) NO_AMBULANCES).2 = false.
Proof.
  cbn zeta.
  set (alerted := (check_and_handle_failures FailureHandler.init Examples.clock_a 0
                     (snap_hospitals Examples.no_unit_tick)
                     (snap_ambulances Examples.no_unit_tick)
                     (snap_supply Examples.no_unit_tick)).1.2).
  pose proof (resolve_failure_retires_the_active_entry alerted (Examples.clock_b 1)
                NO_AMBULANCES) as H.
  destruct (resolve_failure alerted (Examples.clock_b 1) NO_AMBULANCES) as [found self'].
  destruct H as (Hfound & _ & H).
  assert (Hact : is_active NO_AMBULANCES alerted = true) by (by vm_compute).
  split; [exact Hact|].
  rewrite Hact in Hfound. destruct (H Hfound) as (_ & _ & _ & Hone).
  apply Hone. vm_compute. repeat constructor. set_solver.
Defined.

Lemma detect_no_beds_types hs :
  map f_type (detect_no_beds hs) = [] \/ map f_type (detect_no_beds hs) = [NO_BEDS_ANYWHERE].
Proof. unfold detect_no_beds. destruct (_ && _); auto. Qed.

Lemma detect_oxygen_types hs :
  map f_type (detect_oxygen hs) = [] \/ map f_type (detect_oxygen hs) = [OXYGEN_EXHAUSTED].
Proof. unfold detect_oxygen. destruct (_ <=? _)%float; auto. Qed.

Lemma detect_no_ambulances_types ambs :
  map f_type (detect_no_ambulances ambs) = []
  \/ map f_type (detect_no_ambulances ambs) = [NO_AMBULANCES].
Proof. unfold detect_no_ambulances. destruct (Nat.eqb _ _); auto. Qed.

Lemma detect_supply_types sup :
  map f_type (detect_supply sup) = [] \/ map f_type (detect_supply sup) = [SUPPLY_DEPLETED].
Proof. unfold detect_supply. destruct (List.filter _ _); auto. Qed.

Lemma detect_failures_types hospitals ambulances supply :
  map f_type (detect_failures hospitals ambulances supply) `sublist_of` monitored.
Proof.
  unfold detect_failures, monitored. rewrite !map_app.
  destruct (detect_no_beds_types hospitals) as [-> | ->],
    (detect_oxygen_types hospitals) as [-> | ->],
    (detect_no_ambulances_types ambulances) as [-> | ->],
    (detect_supply_types supply) as [-> | ->]; simpl;
    repeat first [apply sublist_nil_l | apply sublist_skip | apply sublist_cons].
Qed.

(** X11. detect_failures reports at most four failures: each of the
    monitored conditions at most once, in the fixed order beds, oxygen,
    ambulances, supplies, and each with the severity of its protocol. *)
Theorem detect_failures_reports_each_monitored_condition_once
    (hospitals : odict hospital_state) (ambulances : odict ambulance_state)
    (supply : supply_state) :
  let detected := detect_failures hospitals ambulances supply in
  map f_type detected `sublist_of` monitored
  /\ NoDup (map f_type detected)
  /\ (length detected <= 4)%nat
  /\ Forall (fun f => f_severity f = pr_severity (_init_protocols (f_type f))) detected.
Proof.
  cbn zeta.
  pose proof (detect_failures_types
                hospitals ambulances supply) as Hsub.
  split_and!.
  - exact Hsub.
  - eapply sublist_NoDup; [|exact Hsub]. unfold monitored.
    repeat (apply NoDup_cons; split; [set_solver|]). apply NoDup_nil_2.
  - apply sublist_length in Hsub. by rewrite length_map in Hsub.
  - unfold detect_failures, detect_no_beds, detect_oxygen, detect_no_ambulances,
      detect_supply. rewrite !Forall_app. split_and!.
    + destruct (_ && _); by repeat constructor.
    + destruct (_ <=? _)%float; by repeat constructor.
    + destruct (Nat.eqb _ _); by repeat constructor.
    + destruct (List.filter _ _); by repeat constructor.
Qed.

Lemma sum_Z_from l : forall a, foldl Z.add a l = a + sum_Z l.
Proof.
  unfold sum_Z. induction l as [|x l IH]; intros a; cbn [foldl]; [lia|].
  rewrite (IH (a + x)), (IH (0 + x)). lia.
Qed.

Lemma sum_Z_zero l : Forall (fun x => 0 <= x) l -> (sum_Z l = 0 <-> Forall (fun x => x = 0) l).
Proof.
  induction 1 as [|x l Hx Hl IH].
  - split; [constructor|reflexivity].
  - assert (Hs : 0 <= sum_Z l).
    { clear -Hl. induction Hl as [|y l Hy _ IH]; [done|].
      unfold sum_Z. cbn [foldl]. rewrite sum_Z_from. lia. }
    unfold sum_Z at 1. cbn [foldl]. rewrite sum_Z_from. rewrite Forall_cons, <- IH. lia.
Qed.

(** X12. With bed and ICU counters that are not negative, NO_BEDS_ANYWHERE
    is reported exactly when every hospital of the snapshot has no free bed
    and no free ICU slot. *)
Theorem no_beds_anywhere_is_reported_exactly_when_every_counter_is_zero
    (hospitals : odict hospital_state) (ambulances : odict ambulance_state)
    (supply : supply_state) :
  Forall (fun kv => 0 <= hs_available_beds kv.2 /\ 0 <= hs_icu_available kv.2) hospitals ->
  NO_BEDS_ANYWHERE ∈ map f_type (detect_failures hospitals ambulances supply)
  <-> Forall (fun kv => hs_available_beds kv.2 = 0 /\ hs_icu_available kv.2 = 0) hospitals.
Proof.
  intros Hnn.
  assert (Hb : Forall (fun x => 0 <= x) (map hs_available_beds (od_values hospitals))).
  { unfold od_values. rewrite !Forall_map. eapply Forall_impl; [exact Hnn|]. by intros ? []. }
  assert (Hi : Forall (fun x => 0 <= x) (map hs_icu_available (od_values hospitals))).
  { unfold od_values. rewrite !Forall_map. eapply Forall_impl; [exact Hnn|]. by intros ? []. }
  assert (Hother : forall l, NO_BEDS_ANYWHERE ∈ l ++ map f_type
            (detect_oxygen hospitals ++ detect_no_ambulances ambulances
             ++ detect_supply supply) <-> NO_BEDS_ANYWHERE ∈ l).
  { intros l. rewrite elem_of_app, !map_app.
    destruct (detect_oxygen_types hospitals) as [-> | ->],
      (detect_no_ambulances_types ambulances) as [-> | ->],
      (detect_supply_types supply) as [-> | ->]; simpl; set_solver. }
  unfold detect_failures. rewrite map_app, Hother. unfold detect_no_beds.
  destruct (Z.eqb_spec (sum_Z (map hs_available_beds (od_values hospitals))) 0) as [H1|H1];
    destruct (Z.eqb_spec (sum_Z (map hs_icu_available (od_values hospitals))) 0) as [H2|H2];
    cbn [andb map f_type];
    rewrite sum_Z_zero in H1 by done; rewrite sum_Z_zero in H2 by done;
    unfold od_values in H1, H2; rewrite !Forall_map in H1, H2;
    rewrite Forall_forall in H1, H2; rewrite Forall_forall.
  - split; [|set_solver]. intros _ kv Hkv. split; [by apply H1|by apply H2].
  - split; [by intros ?%elem_of_nil|]. intros H. exfalso. apply H2.
    intros kv Hkv. by apply H.
  - split; [by intros ?%elem_of_nil|]. intros H. exfalso. apply H1.
    intros kv Hkv. by apply H.
  - split; [by intros ?%elem_of_nil|]. intros H. exfalso. apply H1.
    intros kv Hkv. by apply H.
Qed.

Lemma no_beds_anywhere_witness :
  NO_BEDS_ANYWHERE
  ∈ map f_type (detect_failures Cases.full_hospitals []
                  (Monitor.snap_supply Examples.no_unit_tick)).
Proof.
  apply (no_beds_anywhere_is_reported_exactly_when_every_counter_is_zero
           Cases.full_hospitals [] (Monitor.snap_supply Examples.no_unit_tick)).
  - repeat constructor; by vm_compute.
  - repeat constructor.
Defined.

(** What every sequence of calls keeps. *)
Lemma drive_ledger calls : forall self clock n,
  let '(alerts, resolved, self', n') := drive self clock n calls in
  (length (active_failures self') + resolved
   = length (active_failures self) + length alerts)%nat
  /\ length (failure_history self') = (length (failure_history self) + resolved)%nat
  /\ (one_entry_per_type self -> one_entry_per_type self')
  /\ (Forall (fun a => f_type (af_failure a) ∈ monitored) (active_failures self) ->
      Forall (fun a => f_type (af_failure a) ∈ monitored) (active_failures self'))
  /\ (Forall (fun a => af_resolved_at a = None) (active_failures self) ->
      Forall (fun a => af_resolved_at a = None) (active_failures self'))
  /\ (Forall (fun a => is_Some (af_resolved_at a)) (failure_history self) ->
      Forall (fun a => is_Some (af_resolved_at a)) (failure_history self')).
Proof.
  induction calls as [|[s|ft] rest IH]; intros self clock n.
  - simpl. split_and!; try done; lia.
  - cbn [drive]. unfold check_and_handle_failures.
    pose proof (handle_all_appends
                  (detect_failures (snap_hospitals s) (snap_ambulances s) (snap_supply s))
                  self clock n) as Hh.
    destruct (handle_all self clock n _) as [[alerts self1] n1].
    destruct Hh as ((added & Hadd & Hmap & Hres) & Hhist & Hwf & Hprot).
    specialize (IH self1 clock n1).
    destruct (drive self1 clock n1 rest) as [[[later resolved] self2] n2].
    destruct IH as (I1 & I2 & I3 & I4 & I5 & I6).
    assert (Hlen : length added = length alerts).
    { by rewrite <- (length_map (fun a => af_failure a) added), Hmap, length_map. }
    split_and!.
    + rewrite Hadd, length_app in I1. rewrite length_app. lia.
    + by rewrite <- Hhist.
    + auto.
    + intros Hm. apply I4. rewrite Hadd, Forall_app. split; [done|].
      apply Forall_forall. intros a Ha.
      assert (Hin : af_failure a ∈ map r_failure alerts).
      { rewrite <- Hmap. apply list_elem_of_fmap. by exists a. }
      apply list_elem_of_fmap in Hin as (r & -> & Hr).
      rewrite Forall_forall in Hprot. destruct (Hprot r Hr) as (Hdet & _).
      pose proof (detect_failures_types
                    (snap_hospitals s) (snap_ambulances s) (snap_supply s)) as Hsub.
      eapply elem_of_sublist; [|exact Hsub]. apply list_elem_of_fmap. by exists (r_failure r).
    + intros Hn. apply I5. rewrite Hadd, Forall_app. by split.
    + intros Hn. apply I6. by rewrite Hhist.
  - cbn [drive]. unfold resolve_failure.
    pose proof (resolve_in_spec ft (clock n) (active_failures self)) as Hr.
    destruct (resolve_in ft (clock n) (active_failures self)) as [[r l']|].
    + destruct Hr as (l1 & a & l2 & Hl & -> & Ha & -> & Hl1).
      match goal with |- context [drive ?s clock ?m rest] =>
        specialize (IH s clock m); destruct (drive s clock m rest)
          as [[[later resolved] self2] n2] end.
      cbn [active_failures failure_history] in IH.
      destruct IH as (I1 & I2 & I3 & I4 & I5 & I6).
      rewrite Hl. split_and!.
      * rewrite length_app in *. simpl. lia.
      * rewrite length_app in I2. simpl in I2. lia.
      * intros Hnd. apply I3. unfold one_entry_per_type in *.
        cbn [active_failures]. rewrite Hl, !map_app in Hnd. cbn [map] in Hnd.
        rewrite map_app.
        apply NoDup_app in Hnd as (Hnd1 & Hdisj & Hnd2).
        apply NoDup_cons in Hnd2 as [_ Hnd2].
        apply NoDup_app. split_and!; [done| |done].
        intros x Hx1 Hx2. apply (Hdisj x Hx1). by right.
      * intros Hm. apply I4. rewrite Forall_app in *. destruct Hm as [H1 H2].
        apply Forall_cons in H2 as [_ H2]. by split.
      * intros Hn. apply I5. rewrite Forall_app in *. destruct Hn as [H1 H2].
        apply Forall_cons in H2 as [_ H2]. by split.
      * intros Hn. apply I6. rewrite Forall_app. split; [done|].
        by repeat constructor.
    + specialize (IH self clock n).
      destruct (drive self clock n rest) as [[[later resolved] self2] n2].
      destruct IH as (I1 & I2 & I3 & I4 & I5 & I6). split_and!; try done.
Qed.

(** X13. Over any sequence of checks and resolutions on a new handler, the
    active failures and the handled failures of the summary add up to the
    alerts raised, total_handled is the number of resolutions that found
    their failure, the critical count does not exceed the active count, at
    most four failures are active and no type twice, active entries carry no
    resolution stamp and entries of the history carry one. *)
Theorem failure_summary_accounts_for_every_alert
    (calls : list call) (clock : nat -> string) (n : nat) :
  let '(alerts, resolved, self, _) := drive FailureHandler.init clock n calls in
  let summary := get_failure_summary self in
  (fs_active_failures summary + fs_total_handled summary = length alerts)%nat
  /\ fs_total_handled summary = resolved
  /\ (fs_critical_count summary <= fs_active_failures summary <= 4)%nat
  /\ NoDup (map se_type (fs_failures summary))
  /\ Forall (fun a => af_resolved_at a = None) (get_active_failures self)
  /\ Forall (fun a => is_Some (af_resolved_at a)) (failure_history self).
Proof.
  pose proof (drive_ledger calls FailureHandler.init clock n) as H.
  destruct (drive FailureHandler.init clock n calls) as [[[alerts resolved] self] n'].
  destruct H as (H1 & H2 & H3 & H4 & H5 & H6). cbn zeta.
  unfold get_failure_summary, get_active_failures.
  cbn [fs_active_failures fs_total_handled fs_critical_count fs_failures].
  cbn [FailureHandler.init active_failures failure_history length] in H1, H2.
  specialize (H3 (NoDup_nil_2)). specialize (H4 (Forall_nil_2 _)).
  specialize (H5 (Forall_nil_2 _)). specialize (H6 (Forall_nil_2 _)).
  split_and!; try done.
  - lia.
  - apply filter_length_le.
  - assert (Hsub : map (fun a => f_type (af_failure a)) (active_failures self) ⊆+ monitored).
    { apply NoDup_submseteq; [exact H3|]. intros x Hx.
      apply list_elem_of_fmap in Hx as (a & -> & Ha).
      rewrite Forall_forall in H4. by apply H4. }
    apply submseteq_length in Hsub. by rewrite length_map in Hsub.
  - rewrite map_map. exact H3.
Qed.

End handling.

(** ** Hospital agent: discharge, the message path, diversion *)

Section hospital.
Import HospitalAgent.

Lemma pop_last_snoc {A} (l : list A) x r : pop_last l = Some (x, r) -> l = r ++ [x].
Proof.
  revert x r. induction l as [|y l IH]; intros x r; simpl; [done|].
  destruct (pop_last l) as [[z r']|] eqn:E.
  - intros [= <- <-]. by rewrite (IH z r').
  - intros [= <- <-]. destruct l as [|w l]; [done|]. simpl in E.
    by destruct (pop_last l) as [[]|].
Qed.

Lemma pop_last_None {A} (l : list A) : pop_last l = None -> l = [].
Proof.
  destruct l as [|y l]; [done|]. simpl. by destruct (pop_last l) as [[]|].
Qed.

(** X14. On a tick divisible by five with patients admitted,
    HospitalAgent.update discharges exactly one patient, one whose ESI level
    is the lowest among the admitted, that is the most acute; it frees a
    slot of that patient's unit without exceeding the size of the unit and
    leaves the others sorted by decreasing ESI level. On any other tick
    nobody is discharged and the counters stay. *)
Theorem update_discharges_the_most_acute_patient (self : HospitalAgent.t) (tick : Z) :
  let '(actions, self') := update self tick in
  if (tick mod 5 =? 0) && negb (Py.is_empty (patients_admitted self))
  then
    exists discharged,
      actions = [PatientDischarged (pr_id discharged) (esi_level discharged)]
      /\ patients_admitted self' ++ [discharged] ≡ₚ patients_admitted self
      /\ (forall p, p ∈ patients_admitted self -> esi_level discharged <= esi_level p)
      /\ StronglySorted (fun p q => esi_level q <= esi_level p) (patients_admitted self')
      /\ (if String.eqb (pr_unit discharged) "ICU"
          then icu_available self' = Z.min (icu_available self + 1) (icu_beds self)
               /\ available_beds self' = available_beds self
          else available_beds self' = Z.min (available_beds self + 1) (total_beds self)
               /\ icu_available self' = icu_available self)
  else
    actions = [] /\ patients_admitted self' = patients_admitted self
    /\ available_beds self' = available_beds self
    /\ icu_available self' = icu_available self.
Proof.
  unfold update. cbn [with_oxygen patients_admitted].
  destruct ((tick mod 5 =? 0) && negb (Py.is_empty (patients_admitted self))) eqn:Hgo;
    [|done].
  pose proof (sorted_sorted (fun p => - esi_level p) (patients_admitted self)) as Hs.
  cbn beta in Hs.
  pose proof (sorted_Permutation (fun p q => - esi_level p <? - esi_level q)
                (patients_admitted self)) as Hp.
  destruct (pop_last _) as [[discharged rest]|] eqn:Hpop.
  - apply pop_last_snoc in Hpop. rewrite Hpop in Hs, Hp.
    exists discharged. cbn [patients_admitted available_beds icu_available icu_beds
                            total_beds].
    split_and!.
    + done.
    + done.
    + intros p Hp'. rewrite <- Hp in Hp'.
      apply elem_of_app in Hp' as [Hr| ->%list_elem_of_singleton]; [|lia].
      pose proof (StronglySorted_split _ _ _ p discharged Hs Hr ltac:(by left)) as Hle.
      cbn beta in Hle. lia.
    + clear -Hs. induction rest as [|x rest IH]; [constructor|].
      simpl in Hs. apply StronglySorted_inv in Hs as [Hs Hx].
      apply SSorted_cons; [by apply IH|].
      rewrite Forall_app in Hx. destruct Hx as [Hx _].
      eapply Forall_impl; [exact Hx|]. simpl. intros; lia.
    + by destruct (String.eqb _ _).
  - apply pop_last_None in Hpop. rewrite Hpop in Hp.
    apply Permutation_nil in Hp. apply andb_true_iff in Hgo as [_ Hne].
    by rewrite Hp in Hne.
Qed.

Lemma message_esi_listed severity esi :
  match esi with Some n => 0 <= n <= 5 | None => True end ->
  exists name, Constants.ESI_LEVELS_name (message_esi severity esi) = Some name.
Proof.
  assert (Hsev : exists name,
            Constants.ESI_LEVELS_name (default 3 (Constants.SEVERITY_TO_ESI severity))
            = Some name).
  { unfold Constants.SEVERITY_TO_ESI.
    repeat (destruct (String.eqb severity _); [by eexists|]). by eexists. }
  unfold message_esi. destruct esi as [n|]; [|done]. intros Hn.
  destruct (Z.eqb_spec n 0); [done|].
  assert (n = 1 \/ n = 2 \/ n = 3 \/ n = 4 \/ n = 5) as [->|[->|[->|[->| ->]]]] by lia;
    by eexists.
Qed.

(** X15. A patient-assignment message to a hospital that cannot accept the
    ESI level changes nothing. When the hospital can accept it, the patient
    is admitted, to the ICU for ESI 1 and 2 and to a general bed otherwise,
    unless the level is not in the ESI table: then KeyError is raised and
    nothing changes. With the esi_level of the message absent or between 0
    and 5 no exception is raised. *)
Theorem patient_assignment_message_raises_only_on_an_unlisted_level
    (self : HospitalAgent.t) (patient_id severity : string) (esi_level : option Z)
    (now : string) :
  let esi := message_esi severity esi_level in
  let '(outcome, self') :=
    receive_message self (PatientAssignmentMsg patient_id severity esi_level) now in
  (can_accept_patient self (Py.Int esi) = Py.Ok false ->
   outcome = Py.Ok tt /\ self' = self)
  /\ (can_accept_patient self (Py.Int esi) = Py.Ok true ->
      match Constants.ESI_LEVELS_name esi with
      | Some name =>
          outcome = Py.Ok tt
          /\ patients_admitted self'
             = patients_admitted self
               ++ [ {| pr_id := patient_id; HospitalAgent.esi_level := esi;
                       admitted_at := now; triage_category := name;
                       pr_unit := if esi <=? 2 then "ICU" else "General" |} ]
          /\ (if esi <=? 2
              then icu_available self' = icu_available self - 1
                   /\ available_beds self' = available_beds self
              else available_beds self' = available_beds self - 1
                   /\ icu_available self' = icu_available self)
      | None => outcome = Py.Raise Py.KeyError /\ self' = self
      end)
  /\ (match esi_level with Some n => 0 <= n <= 5 | None => True end ->
      outcome = Py.Ok tt).
Proof.
  cbn zeta. cbn [receive_message]. unfold _handle_patient_assignment.
  set (esi := message_esi severity esi_level).
  pose proof (message_esi_listed severity esi_level) as Hlisted. fold esi in Hlisted.
  assert (Hcan : exists b, can_accept_patient self (Py.Int esi) = Py.Ok b).
  { unfold can_accept_patient. simpl. destruct (esi <=? 2); by eexists. }
  destruct Hcan as [b Hcan]. rewrite Hcan. destruct b.
  - unfold accept_patient. rewrite Hcan. cbn [triage_name].
    destruct (Constants.ESI_LEVELS_name esi) as [name|] eqn:Hname.
    + split_and!; [done| |done]. intros _. cbn [patients_admitted icu_available
        available_beds]. split_and!; [done|done|]. by destruct (esi <=? 2).
    + split_and!; [done|done|]. intros Hn. destruct (Hlisted Hn) as [name Hn']. congruence.
  - split_and!; done.
Qed.

Lemma patient_assignment_message_raises_witness :
  can_accept_patient Examples.hospital_b (Py.Int 7) = Py.Ok true
  /\ receive_message Examples.hospital_b
       (PatientAssignmentMsg "patient_007" "high" (Some 7)) "2026-01-01T00:00:00"
     = (Py.Raise Py.KeyError, Examples.hospital_b).
Proof.
  pose proof (patient_assignment_message_raises_only_on_an_unlisted_level
                Examples.hospital_b "patient_007" "high" (Some 7) "2026-01-01T00:00:00")
    as H.
  cbn zeta in H.
  destruct (receive_message Examples.hospital_b _ _) as [outcome self'].
  destruct H as (_ & H & _).
  assert (Hc : can_accept_patient Examples.hospital_b (Py.Int 7) = Py.Ok true)
    by (by vm_compute).
  split; [exact Hc|]. destruct (H Hc) as [-> ->]. reflexivity.
Defined.

(** X16. A hospital with no free ICU slot requires diversion. A hospital
    that requires diversion accepts no patient of any ESI level, ignores
    patient-assignment messages and asks for patient diversion, while, if it
    has free general beds, the message it sends still advertises them and
    the negotiation engine counts them as capacity for every severity but
    critical. *)
Theorem hospital_on_diversion_admits_nobody (self : HospitalAgent.t) :
  (icu_available self = 0 -> requires_diversion self = true)
  /\ (requires_diversion self = true ->
      (forall esi, can_accept_patient self (Py.Int esi) = Py.Ok false)
      /\ (forall patient_id esi now,
            accept_patient self patient_id (Py.Int esi) now = (Py.Ok false, self))
      /\ (forall patient_id severity esi now,
            receive_message self (PatientAssignmentMsg patient_id severity esi) now
            = (Py.Ok tt, self))
      /\ (forall requests, _generate_requests self = Py.Ok requests ->
            {| rq_resource := "patient_diversion"; rq_quantity := 1;
               rq_urgency := "critical" |} ∈ requests)
      /\ (forall m severity,
            generate_message self = Py.Ok m -> 0 < available_beds self ->
            severity <> "critical" ->
            exists hd,
              od_get (agent_id self) (NegotiationEngine.build_hospital_capacity [m])
              = Some hd
              /\ NegotiationEngine.no_capacity severity hd = false)).
Proof.
  split.
  - intros H. unfold requires_diversion. rewrite H. simpl. by rewrite orb_true_r.
  - intros Hdiv.
    assert (Hcan : forall esi, can_accept_patient self (Py.Int esi) = Py.Ok false).
    { intros esi. unfold can_accept_patient. simpl. rewrite Hdiv. simpl.
      rewrite !andb_false_r. by destruct (esi <=? 2). }
    split_and!.
    + exact Hcan.
    + intros. unfold accept_patient. by rewrite Hcan.
    + intros. cbn [receive_message]. unfold _handle_patient_assignment. by rewrite Hcan.
    + intros requests. unfold _generate_requests. rewrite Hdiv.
      destruct (_ && _).
      * destruct (_ =? 0)%float; [done|]. intros [= <-]. set_solver.
      * intros [= <-]. set_solver.
    + intros m severity Hm Hbeds Hsev. unfold generate_message in Hm.
      destruct (_generate_requests self) as [requests|]; [|done].
      cbn [Py.bind] in Hm. injection Hm as <-.
      unfold NegotiationEngine.build_hospital_capacity, od_fill. cbn [foldl od_set hm_agent_id].
      cbn [od_get]. rewrite String.eqb_refl. eexists. split; [done|].
      unfold NegotiationEngine.no_capacity. cbn.
      destruct (String.eqb_spec severity "critical"); [done|]. lia.
Qed.

Lemma hospital_on_diversion_admits_nobody_witness :
  let hospital_c :=
    default Examples.hospital_b (od_get "hospital_c" (Simulator.hospitals Cases.staffed)) in
  icu_available hospital_c = 0
  /\ available_beds hospital_c = 20
  /\ can_accept_patient hospital_c (Py.Int 5) = Py.Ok false.
Proof.
  cbn zeta.
  set (hospital_c := default Examples.hospital_b
                       (od_get "hospital_c" (Simulator.hospitals Cases.staffed))).
  destruct (hospital_on_diversion_admits_nobody hospital_c) as [Hzero Hdiv].
  assert (Hicu : icu_available hospital_c = 0) by (by vm_compute).
  split_and!; [exact Hicu|by vm_compute|].
  exact (proj1 (Hdiv (Hzero Hicu)) 5).
Defined.

End hospital.

(** ** Supply agent: the fleet and the stock *)

Section depot.
Import SupplyAgent.

Lemma shipped_app ty ds1 ds2 : shipped ty (ds1 ++ ds2) = shipped ty ds1 + shipped ty ds2.
Proof.
  unfold shipped. induction ds1 as [|d ds1 IH]; simpl; [done|].
  destruct (String.eqb _ _); lia.
Qed.

Lemma shipped_cons ty d ds :
  shipped ty (d :: ds)
  = (if String.eqb (d_supply_type d) ty then d_quantity d else 0) + shipped ty ds.
Proof. unfold shipped. simpl. destruct (String.eqb _ _); lia. Qed.

(** One allocation made with a quantity the stock covers. *)
Lemma allocate_supply_covered self ty q dest l now :
  0 < q <= default 0 (inventory self !! ty) -> 0 < vehicles_available self ->
  exists d,
    allocate_supply self ty q dest l now
    = (Py.Ok (Some d),
       {| agent_id := agent_id self; name := name self; location := location self;
          inventory := <[ty := default 0 (inventory self !! ty) - q]> (inventory self);
          delivery_vehicles := delivery_vehicles self;
          vehicles_available := vehicles_available self - 1;
          active_deliveries := active_deliveries self ++ [d];
          completed_deliveries := completed_deliveries self;
          pending_requests := pending_requests self |})
    /\ d_supply_type d = ty /\ d_quantity d = q /\ d_destination_id d = dest
    /\ d_status d = "in_transit".
Proof.
  intros Hq Hv. unfold allocate_supply, has_available_vehicles.
  destruct (Z.ltb_spec (default 0 (inventory self !! ty)) q); [lia|].
  destruct (Z.ltb_spec 0 (vehicles_available self)); [|lia]. cbn [negb orb].
  destruct (inventory self !! ty) as [stock|] eqn:E; [|simpl in Hq; lia].
  eexists. split; [reflexivity|]. done.
Qed.

(** The loop over the pending requests. *)
Lemma process_loop_spec requests : forall self clock n,
  exists ds processed self' n',
    process_loop requests self clock n = (Py.Ok (ds, processed), self', n')
    /\ active_deliveries self' = active_deliveries self ++ ds
    /\ vehicles_available self' = vehicles_available self - Z.of_nat (length ds)
    /\ (0 <= vehicles_available self -> 0 <= vehicles_available self')
    /\ delivery_vehicles self' = delivery_vehicles self
    /\ completed_deliveries self' = completed_deliveries self
    /\ pending_requests self' = pending_requests self
    /\ (forall ty, default 0 (inventory self' !! ty) + shipped ty ds
                   = default 0 (inventory self !! ty))
    /\ (forall ty, 0 <= default 0 (inventory self !! ty) ->
                   0 <= default 0 (inventory self' !! ty))
    /\ Forall (fun d => 0 < d_quantity d /\ d_status d = "in_transit") ds
    /\ length processed = length ds
    /\ processed `sublist_of` requests.
Proof.
  induction requests as [|req rest IH]; intros self clock n.
  - exists [], [], self, n. cbn [process_loop]. rewrite app_nil_r.
    split_and!; try done; try (intros; unfold shipped; simpl; lia).
  - cbn [process_loop]. unfold has_available_vehicles.
    destruct (Z.ltb_spec 0 (vehicles_available self)) as [Hv|Hv]; cbn [negb].
    2:{ exists [], [], self, n. rewrite app_nil_r.
        split_and!; try done; try (intros; unfold shipped; simpl; lia).
        apply sublist_nil_l. }
    destruct (Z.ltb_spec 0 (Z.min (sr_quantity req)
                              (default 0 (inventory self !! sr_supply_type req))))
      as [Hq|Hq].
    2:{ destruct (IH self clock n) as (ds & processed & self' & n' & Hrun & H).
        exists ds, processed, self', n'. rewrite Hrun.
        destruct H as (? & ? & ? & ? & ? & ? & ? & ? & ? & ? & ?).
        split_and!; try done. by apply sublist_cons. }
    assert (Hcov : 0 < Z.min (sr_quantity req)
                         (default 0 (inventory self !! sr_supply_type req))
                   <= default 0 (inventory self !! sr_supply_type req)) by lia.
    destruct (allocate_supply_covered self (sr_supply_type req)
                (Z.min (sr_quantity req) (default 0 (inventory self !! sr_supply_type req)))
                (requester_id req) (requester_location req) (clock n) Hcov Hv)
      as (d & Halloc & Hty & Hqty & _ & Hst).
    rewrite Halloc.
    match goal with |- context [process_loop rest ?s clock (S n)] =>
      destruct (IH s clock (S n)) as (ds & processed & self' & n' & Hrun & H) end.
    rewrite Hrun.
    cbn [active_deliveries vehicles_available delivery_vehicles completed_deliveries
         pending_requests inventory] in H.
    destruct H as (Ha & Hveh & Hnn & Hfleet & Hc & Hp & Hinv & Hpos & Hds & Hlen & Hsub).
    exists (d :: ds), (req :: processed), self', n'.
    split_and!; try done.
    + by rewrite Ha, <- app_assoc.
    + rewrite Hveh. simpl length. lia.
    + intros H0. apply Hnn. lia.
    + intros ty. rewrite shipped_cons, Hty. specialize (Hinv ty).
      destruct (String.eqb_spec (sr_supply_type req) ty) as [<-|Hne].
      * rewrite lookup_insert_eq in Hinv. simpl in Hinv. lia.
      * rewrite lookup_insert_ne in Hinv by done. lia.
    + intros ty Hty0. apply Hpos.
      destruct (decide (sr_supply_type req = ty)) as [<-|Hne].
      * rewrite lookup_insert_eq. simpl. lia.
      * by rewrite lookup_insert_ne.
    + constructor; [split; [lia|done]|done].
    + simpl. by rewrite Hlen.
    + by constructor.
Qed.

Lemma process_pending_requests_aux self clock n :
  exists deliveries self' n',
    process_pending_requests self clock n = (Py.Ok deliveries, self', n')
    /\ (fleet_accounted self -> fleet_accounted self').
Proof.
  unfold process_pending_requests.
  destruct (process_loop_spec (pending_requests self) self clock n)
    as (ds & processed & self' & n' & Hrun & Ha & Hveh & Hnn & Hfleet & _).
  rewrite Hrun. exists ds. eexists. exists n'. split; [reflexivity|].
  unfold fleet_accounted.
  cbn [with_pending vehicles_available active_deliveries delivery_vehicles].
  intros [H0 H1]. split; [by apply Hnn|]. rewrite Ha, length_app, Hveh, Hfleet. lia.
Qed.

(** X17. process_pending_requests never raises. It starts at most one
    delivery per pending request, each of a positive quantity and in
    transit, and appends them to the active deliveries; for every kind of
    supply the stock left plus the quantity shipped equals the stock before,
    a stock that was not negative stays so, and the fleet stays accounted
    for. *)
Theorem process_pending_requests_ships_only_what_is_in_stock
    (self : SupplyAgent.t) (clock : nat -> string) (n : nat) :
  exists deliveries self' n',
    process_pending_requests self clock n = (Py.Ok deliveries, self', n')
    /\ active_deliveries self' = active_deliveries self ++ deliveries
    /\ (forall ty, default 0 (inventory self' !! ty) + shipped ty deliveries
                   = default 0 (inventory self !! ty))
    /\ (forall ty, 0 <= default 0 (inventory self !! ty) ->
                   0 <= default 0 (inventory self' !! ty))
    /\ Forall (fun d => 0 < d_quantity d /\ d_status d = "in_transit") deliveries
    /\ (fleet_accounted self -> fleet_accounted self')
    /\ (length deliveries <= length (pending_requests self))%nat.
Proof.
  unfold process_pending_requests.
  destruct (process_loop_spec (pending_requests self) self clock n)
    as (ds & processed & self' & n' & Hrun & Ha & Hveh & Hnn & Hfleet & Hc & Hp & Hinv
        & Hpos & Hds & Hlen & Hsub).
  rewrite Hrun. exists ds. eexists. exists n'. split; [reflexivity|].
  cbn [with_pending active_deliveries inventory].
  split_and!; try done.
  - unfold fleet_accounted.
    cbn [with_pending vehicles_available active_deliveries delivery_vehicles].
    intros [H0 H1]. split; [by apply Hnn|]. rewrite Ha, length_app, Hveh, Hfleet. lia.
  - apply sublist_length in Hsub. lia.
Qed.

Lemma process_pending_requests_witness :
  fleet_accounted Cases.busy_depot
  /\ exists deliveries self' n',
       process_pending_requests Cases.busy_depot Examples.clock_a 0
       = (Py.Ok deliveries, self', n')
       /\ default 0 (inventory self' !! "oxygen") + shipped "oxygen" deliveries = 200
       /\ fleet_accounted self'.
Proof.
  assert (Hfleet : fleet_accounted Cases.busy_depot) by (by vm_compute).
  split; [exact Hfleet|].
  destruct (process_pending_requests_ships_only_what_is_in_stock Cases.busy_depot
              Examples.clock_a 0)
    as (deliveries & self' & n' & Hrun & _ & Hstock & _ & _ & Hkeep & _).
  exists deliveries, self', n'. split_and!; [exact Hrun|exact (Hstock "oxygen")|].
  exact (Hkeep Hfleet).
Defined.

(** X18. A depot created with a number of vehicles that is not negative has
    its fleet accounted for: the free vehicles and the active deliveries add
    up to the fleet. allocate_supply, process_pending_requests and update
    keep it so; update leaves the inventory as it is, reports one completion
    per delivery that has arrived and keeps no arrived delivery among the
    active ones. *)
Theorem depot_fleet_stays_accounted (self : SupplyAgent.t) :
  (forall agent_id name location food water oxygen medicine vehicles,
     0 <= vehicles ->
     fleet_accounted (__init__ agent_id name location food water oxygen medicine vehicles))
  /\ (fleet_accounted self ->
      (forall ty q dest l now, fleet_accounted (allocate_supply self ty q dest l now).2)
      /\ (forall clock n, fleet_accounted (process_pending_requests self clock n).1.2)
      /\ (forall tick,
            fleet_accounted (update self tick).2
            /\ inventory (update self tick).2 = inventory self
            /\ Forall (fun d => arrived d = false) (active_deliveries (update self tick).2)
            /\ length (update self tick).1
               = length (List.filter arrived (map advance (active_deliveries self))))).
Proof.
  split.
  - intros. unfold fleet_accounted, __init__. simpl. lia.
  - intros Hok. split_and!.
    + intros ty q dest l now. unfold allocate_supply, has_available_vehicles.
      destruct (Z.ltb_spec (default 0 (inventory self !! ty)) q); [done|].
      destruct (Z.ltb_spec 0 (vehicles_available self)); [|done]. cbn [negb orb].
      destruct (inventory self !! ty); [|done].
      destruct Hok as [Hv0 Hv1]. unfold fleet_accounted.
      cbn [snd vehicles_available active_deliveries delivery_vehicles].
      rewrite length_app. simpl. lia.
    + intros clock n.
      destruct (process_pending_requests_aux self clock n) as (ds & s' & n' & Hrun & Hf).
      rewrite Hrun. by apply Hf.
    + intros tick. unfold update. cbn [fst snd inventory active_deliveries].
      split_and!; [|done| |by rewrite length_map].
      * destruct Hok as [Hv0 Hv1]. unfold fleet_accounted.
        cbn [vehicles_available active_deliveries delivery_vehicles].
        pose proof (filter_length arrived (map advance (active_deliveries self))) as Hl.
        rewrite length_map in Hl. split; lia.
      * apply Forall_forall. intros d Hd.
        apply list_elem_of_In, List.filter_In in Hd as [_ Hd].
        by apply negb_true_iff in Hd.
Qed.

Lemma depot_fleet_stays_accounted_witness :
  fleet_accounted Cases.busy_depot
  /\ fleet_accounted
       (update (process_pending_requests Cases.busy_depot Examples.clock_a 0).1.2 1).2.
Proof.
  assert (Hfleet : fleet_accounted Cases.busy_depot) by (by vm_compute).
  split; [exact Hfleet|].
  destruct (depot_fleet_stays_accounted Cases.busy_depot) as [_ H].
  destruct (H Hfleet) as (_ & Hrun & _).
  destruct (depot_fleet_stays_accounted
              (process_pending_requests Cases.busy_depot Examples.clock_a 0).1.2)
    as [_ H'].
  destruct (H' (Hrun Examples.clock_a 0%nat)) as (_ & _ & Hupd).
  exact (proj1 (Hupd 1)).
Defined.

End depot.

(** ** Ambulances: missions and deliveries *)

Section units.
Import AmbulanceAgent.

Lemma on_mission_status unit p h l :
  status (on_mission unit p h l) = "en_route_pickup"
  /\ is_available (on_mission unit p h l) = false
  /\ target_hospital (on_mission unit p h l) = Some h
  /\ destination (on_mission unit p h l) = Some l
  /\ target_patient (on_mission unit p h l) = Some p
  /\ current_patients (on_mission unit p h l) = current_patients unit
  /\ fuel (on_mission unit p h l) = fuel unit.
Proof.
  unfold on_mission, assign_mission, _calculate_eta, is_available. cbn.
  split_and!; try done. by rewrite andb_false_r.
Qed.

Lemma _move_toward_keeps self target :
  let self' := (_move_toward self target).2 in
  status self' = status self /\ current_patients self' = current_patients self
  /\ patients_delivered self' = patients_delivered self
  /\ target_patient self' = target_patient self
  /\ target_hospital self' = target_hospital self
  /\ agent_id self' = agent_id self /\ fuel self' = fuel self
  /\ capacity self' = capacity self.
Proof.
  unfold _move_toward. destruct (_ <? 5)%float; cbn; [done|].
  unfold _calculate_eta. cbn. by destruct (destination self).
Qed.

(** X19. AmbulanceAgent.update raises patients_delivered by exactly the
    number of deliveries it reports. An idle unit does nothing. Deliveries
    are reported only by a unit on its way to the hospital, one per patient
    on board, and leave it idle and empty with its fuel untouched; a pickup
    is reported only by a unit on its way to the pickup, which takes its
    target patient on board and heads for the hospital. A unit that is not
    idle after the update has fuel that is not negative. *)
Theorem ambulance_update_counts_every_delivery_it_reports
    (self : AmbulanceAgent.t) (tick : Z) :
  let '(actions, self') := update self tick in
  patients_delivered self'
  = patients_delivered self + Z.of_nat (length (List.filter is_delivery actions))
  /\ (status self = "idle" -> actions = [] /\ self' = self)
  /\ (forall p h a, PatientDelivered p h a ∈ actions ->
        status self = "en_route_hospital" /\ status self' = "idle"
        /\ current_patients self' = [] /\ destination self' = None
        /\ fuel self' = fuel self
        /\ actions = map (fun q => PatientDelivered (p_id q) (target_hospital self)
                                     (agent_id self))
                         (current_patients self))
  /\ (forall p a, PatientPickedUp p a ∈ actions ->
        status self = "en_route_pickup" /\ status self' = "en_route_hospital"
        /\ exists q, target_patient self = Some q /\ p_id q = p
                     /\ current_patients self' = current_patients self ++ [q])
  /\ (status self' <> "idle" -> (0 <=? fuel self')%float = true).
Proof.
  unfold update, move.
  pose proof (fun d => _move_toward_keeps self d) as Hkeep. cbn zeta in Hkeep.
  destruct (destination self) as [d|] eqn:Hd.
  - specialize (Hkeep d).
    destruct (String.eqb_spec (status self) "en_route_pickup") as [Hs|Hs].
    + destruct (_move_toward self d) as [arrived self1]. cbn [snd] in Hkeep.
      destruct Hkeep as (H1 & H2 & H3 & H4 & H5 & H6 & H7 & H8).
      destruct arrived.
      * destruct (target_patient self1) as [p|] eqn:Hp.
        -- unfold burn_fuel, pick_up. cbn [status]. cbn [String.eqb Ascii.eqb Bool.eqb negb].
           cbn. split_and!.
           ++ lia.
           ++ intros Hi. congruence.
           ++ intros ? ? ? [Hc|Hc%elem_of_nil]%elem_of_cons; done.
           ++ intros p0 a0 [[= -> ->]|Hc%elem_of_nil]%elem_of_cons; [|done].
              split_and!; [done|done|]. exists p. split_and!; [congruence|done|by rewrite H2].
           ++ intros _. apply py_max_0_nonneg.
        -- unfold burn_fuel. rewrite H1, Hs. cbn. split_and!.
           ++ lia.
           ++ intros Hi. congruence.
           ++ by intros ? ? ? ?%elem_of_nil.
           ++ by intros ? ? ?%elem_of_nil.
           ++ intros _. apply py_max_0_nonneg.
      * unfold burn_fuel. rewrite H1, Hs. cbn. split_and!.
        -- lia.
        -- intros Hi. congruence.
        -- by intros ? ? ? ?%elem_of_nil.
        -- by intros ? ? ?%elem_of_nil.
        -- intros _. apply py_max_0_nonneg.
    + destruct (String.eqb_spec (status self) "en_route_hospital") as [Hs2|Hs2].
      * destruct (_move_toward self d) as [arrived self1]. cbn [snd] in Hkeep.
        destruct Hkeep as (H1 & H2 & H3 & H4 & H5 & H6 & H7 & H8).
        destruct arrived.
        -- unfold burn_fuel, deliver_all. cbn.
           assert (Hall : List.filter is_delivery
                     (map (fun p => PatientDelivered (p_id p) (target_hospital self1)
                                      (agent_id self1)) (current_patients self1))
                   = map (fun p => PatientDelivered (p_id p) (target_hospital self1)
                                     (agent_id self1)) (current_patients self1)).
           { clear. induction (current_patients self1) as [|q l IH]; simpl; [done|].
             by rewrite IH. }
           rewrite Hall, length_map, H2, H3. split_and!.
           ++ done.
           ++ intros Hi. congruence.
           ++ intros p h a Hin. split_and!; try done. by rewrite H5, H6.
           ++ intros p a Hin. apply list_elem_of_fmap in Hin as (q & Hq & _). done.
           ++ done.
        -- unfold burn_fuel. rewrite H1, Hs2. cbn. split_and!.
           ++ lia.
           ++ intros Hi. congruence.
           ++ by intros ? ? ? ?%elem_of_nil.
           ++ by intros ? ? ?%elem_of_nil.
           ++ intros _. apply py_max_0_nonneg.
      * unfold burn_fuel. cbn [fst snd].
        destruct (String.eqb_spec (status self) "idle") as [Hi|Hi]; cbn [negb].
        -- split_and!; try done; [simpl; lia| |]; by intros; decompose_list_elem_of.
        -- cbn. split_and!; try done; [lia| | |intros _; apply py_max_0_nonneg];
             by intros; decompose_list_elem_of.
  - unfold burn_fuel. cbn [fst snd].
    destruct (String.eqb_spec (status self) "idle") as [Hi|Hi]; cbn [negb].
    + split_and!; try done; [simpl; lia| |]; by intros; decompose_list_elem_of.
    + cbn. split_and!; try done; [lia| | |intros _; apply py_max_0_nonneg];
        by intros; decompose_list_elem_of.
Qed.

Lemma ambulance_update_witness :
  status Examples.low_fuel_unit = "idle"
  /\ update Examples.low_fuel_unit 1 = ([], Examples.low_fuel_unit).
Proof.
  pose proof (ambulance_update_counts_every_delivery_it_reports Examples.low_fuel_unit 1)
    as H.
  destruct (update Examples.low_fuel_unit 1) as [actions self'].
  destruct H as (_ & H & _).
  assert (Hidle : status Examples.low_fuel_unit = "idle") by reflexivity.
  split; [exact Hidle|]. by destruct (H Hidle) as [-> ->].
Defined.

End units.

(** ** Simulator: dispatch, commitment and start-up *)

Section orchestration.
Import Simulator.

Lemma dispatch_ambulances_frame aas : forall self,
  let self' := dispatch_ambulances aas self in
  hospitals self' = hospitals self
  /\ waiting_patients self' = waiting_patients self
  /\ tick self' = tick self /\ running self' = running self
  /\ supply self' = supply self /\ government self' = government self
  /\ failure_handler self' = failure_handler self
  /\ negotiation_engine self' = negotiation_engine self
  /\ od_keys (ambulances self') = od_keys (ambulances self).
Proof.
  induction aas as [|aa rest IH]; intros self; [done|].
  cbn [dispatch_ambulances].
  match goal with |- context [dispatch_ambulances rest ?s] =>
    specialize (IH s); set (s1 := s) in * end.
  assert (H1 : hospitals s1 = hospitals self /\ waiting_patients s1 = waiting_patients self
               /\ tick s1 = tick self /\ running s1 = running self
               /\ supply s1 = supply self /\ government s1 = government self
               /\ failure_handler s1 = failure_handler self
               /\ negotiation_engine s1 = negotiation_engine self
               /\ od_keys (ambulances s1) = od_keys (ambulances self)).
  { unfold s1.
    destruct (od_get (NegotiationEngine.aa_ambulance_id aa) (ambulances self))
      as [amb|] eqn:Hamb; [|done].
    destruct (od_get (NegotiationEngine.aa_hospital_id aa) (hospitals self)); [|done].
    destruct (AmbulanceAgent.is_available amb); [|done].
    destruct (find_patient _ _); [|done].
    cbn [with_ambulances hospitals waiting_patients tick running supply government
         failure_handler negotiation_engine ambulances].
    split_and!; try done. rewrite od_keys_set.
    rewrite decide_True; [done|].
    apply od_get_Some_elem in Hamb. unfold od_keys. apply list_elem_of_fmap.
    by eexists (_, _). }
  cbn zeta in IH. destruct IH as (? & ? & ? & ? & ? & ? & ? & ? & ?).
  destruct H1 as (? & ? & ? & ? & ? & ? & ? & ? & ?). split_and!; congruence.
Qed.

(** X20. When the step dispatches the ambulances of a round, the hospitals
    and the waiting list stay as they are, a unit that is not available is
    left untouched, and every unit is either left untouched or put, once, on
    the mission of a dispatch of the round that names it, for a casualty of
    the waiting list and a hospital of the ledger; after that it is no
    longer available. *)
Theorem dispatch_tasks_only_available_units_and_each_at_most_once
    (aas : list NegotiationEngine.amb_assignment) (self : Simulator.t)
    (id : string) (unit : AmbulanceAgent.t) :
  od_get id (ambulances self) = Some unit ->
  let self' := dispatch_ambulances aas self in
  hospitals self' = hospitals self
  /\ waiting_patients self' = waiting_patients self
  /\ (AmbulanceAgent.is_available unit = false -> od_get id (ambulances self') = Some unit)
  /\ (od_get id (ambulances self') = Some unit
      \/ exists aa p hospital,
           aa ∈ aas /\ NegotiationEngine.aa_ambulance_id aa = id
           /\ AmbulanceAgent.is_available unit = true
           /\ find_patient (NegotiationEngine.aa_patient_id aa) (waiting_patients self)
              = Some p
           /\ od_get (NegotiationEngine.aa_hospital_id aa) (hospitals self) = Some hospital
           /\ od_get id (ambulances self')
              = Some (on_mission unit p (NegotiationEngine.aa_hospital_id aa)
                        (HospitalAgent.location hospital))
           /\ AmbulanceAgent.is_available
                (on_mission unit p (NegotiationEngine.aa_hospital_id aa)
                   (HospitalAgent.location hospital)) = false).
Proof.
  intros Hget. cbn zeta.
  destruct (dispatch_ambulances_frame aas self) as (Hh & Hw & _). split_and!; [done|done| |].
  - revert self Hget Hh Hw. induction aas as [|aa rest IH]; intros self Hget _ _ Hbusy;
      [done|].
    cbn [dispatch_ambulances]. apply IH.
    + destruct (od_get (NegotiationEngine.aa_ambulance_id aa) (ambulances self))
        as [amb|] eqn:Hamb; [|done].
      destruct (od_get (NegotiationEngine.aa_hospital_id aa) (hospitals self)); [|done].
      destruct (AmbulanceAgent.is_available amb) eqn:Hav; [|done].
      destruct (find_patient _ _); [|done].
      cbn [ambulances with_ambulances]. rewrite od_get_set.
      destruct (decide (id = NegotiationEngine.aa_ambulance_id aa)) as [->|Hne]; [|done].
      congruence.
    + apply dispatch_ambulances_frame.
    + apply dispatch_ambulances_frame.
    + done.
  - revert self Hget Hh Hw. induction aas as [|aa rest IH]; intros self Hget _ _;
      [by left|].
    cbn [dispatch_ambulances].
    destruct (od_get (NegotiationEngine.aa_ambulance_id aa) (ambulances self))
      as [amb|] eqn:Hamb.
    2:{ destruct (IH self Hget) as [Hsame|(aa' & p & h & Hin & ?)];
          [apply dispatch_ambulances_frame|apply dispatch_ambulances_frame|by left|].
        right. exists aa', p, h. split; [by right|done]. }
    destruct (od_get (NegotiationEngine.aa_hospital_id aa) (hospitals self))
      as [hospital|] eqn:Hhosp.
    2:{ destruct (IH self Hget) as [Hsame|(aa' & p & h & Hin & ?)];
          [apply dispatch_ambulances_frame|apply dispatch_ambulances_frame|by left|].
        right. exists aa', p, h. split; [by right|done]. }
    destruct (AmbulanceAgent.is_available amb) eqn:Hav.
    2:{ destruct (IH self Hget) as [Hsame|(aa' & p & h & Hin & ?)];
          [apply dispatch_ambulances_frame|apply dispatch_ambulances_frame|by left|].
        right. exists aa', p, h. split; [by right|done]. }
    destruct (find_patient _ _) as [p|] eqn:Hp.
    2:{ destruct (IH self Hget) as [Hsame|(aa' & p & h & Hin & ?)];
          [apply dispatch_ambulances_frame|apply dispatch_ambulances_frame|by left|].
        right. exists aa', p, h. split; [by right|done]. }
    fold (on_mission amb p (NegotiationEngine.aa_hospital_id aa)
            (HospitalAgent.location hospital)).
    set (s1 := with_ambulances self _).
    destruct (decide (id = NegotiationEngine.aa_ambulance_id aa)) as [->|Hne].
    + rewrite Hamb in Hget. injection Hget as ->.
      right. exists aa, p, hospital.
      destruct (on_mission_status unit p (NegotiationEngine.aa_hospital_id aa)
                  (HospitalAgent.location hospital)) as (_ & Hbusy & _).
      split_and!; try done; [by left|].
      (* the unit, now busy, is left alone by the rest of the loop *)
      assert (Hs1 : od_get (NegotiationEngine.aa_ambulance_id aa) (ambulances s1)
                    = Some (on_mission unit p (NegotiationEngine.aa_hospital_id aa)
                              (HospitalAgent.location hospital))).
      { unfold s1. cbn [ambulances with_ambulances]. rewrite od_get_set.
        by rewrite decide_True. }
      clearbody s1. clear -Hs1 Hbusy. revert s1 Hs1.
      induction rest as [|aa' rest IH]; intros s1 Hs1; [done|].
      cbn [dispatch_ambulances]. apply IH.
      destruct (od_get (NegotiationEngine.aa_ambulance_id aa') (ambulances s1))
        as [amb'|] eqn:Hamb'; [|done].
      destruct (od_get (NegotiationEngine.aa_hospital_id aa') (hospitals s1)); [|done].
      destruct (AmbulanceAgent.is_available amb') eqn:Hav'; [|done].
      destruct (find_patient _ _); [|done].
      cbn [ambulances with_ambulances]. rewrite od_get_set.
      destruct (decide (NegotiationEngine.aa_ambulance_id aa
                        = NegotiationEngine.aa_ambulance_id aa')) as [Heq|Hne]; [|done].
      rewrite <- Heq in Hamb'. congruence.
    + assert (Hs1 : od_get id (ambulances s1) = Some unit).
      { unfold s1. cbn [ambulances with_ambulances]. rewrite od_get_set.
        by rewrite decide_False. }
      assert (Hsh : hospitals s1 = hospitals self) by done.
      assert (Hsw : waiting_patients s1 = waiting_patients self) by done.
      clearbody s1.
      destruct (IH s1 Hs1) as [Hsame|(aa' & p' & h' & Hin & Hid & Hav' & Hp' & Hh' & Hres)];
        [apply dispatch_ambulances_frame|apply dispatch_ambulances_frame|by left|].
      rewrite Hsw in Hp'. rewrite Hsh in Hh'.
      destruct Hres as [Hres1 Hres2].
      right. exists aa', p', h'. split_and!; try done. by right.
Qed.

Lemma dispatch_tasks_only_available_units_witness :
  exists unit,
    od_get "AMB-1" (ambulances Cases.staffed) = Some unit
    /\ waiting_patients (dispatch_ambulances Cases.dispatches Cases.staffed)
       = waiting_patients Cases.staffed.
Proof.
  destruct (od_get "AMB-1" (ambulances Cases.staffed)) as [unit|] eqn:E.
  - exists unit. split; [reflexivity|].
    exact (proj1 (proj2 (dispatch_tasks_only_available_units_and_each_at_most_once
                           Cases.dispatches Cases.staffed "AMB-1" unit E))).
  - by vm_compute in E.
Defined.

End orchestration.

Section orchestration2.
Import Simulator.

Lemma delivered_actions_no_commitment actions :
  Forall (fun a => is_commitment a = false) (delivered_actions actions).
Proof.
  unfold delivered_actions. induction actions as [|[p a|p h a] l IH]; simpl; [done|done|].
  by constructor.
Qed.

Lemma update_ambulances_no_commitment ambs tick :
  Forall (fun a => is_commitment a = false) (update_ambulances ambs tick).1.
Proof.
  induction ambs as [|[k a] ambs IH]; simpl; [done|].
  destruct (AmbulanceAgent.update a tick) as [actions a'].
  destruct (update_ambulances ambs tick) as [more ambs']. simpl in *.
  apply Forall_app. split; [apply delivered_actions_no_commitment|done].
Qed.

(** X21. Whenever step returns a report, the report holds no
    patient_assigned action and the round proposed no assignment for a
    hospital of the ledger; the tick advanced by one, the waiting list grew
    at most by the arrivals of a tick divisible by three, and the hospitals
    only went through their own update. *)
Theorem step_never_commits_a_patient_to_a_hospital
    (self : Simulator.t) (clock : nat -> string) (n : nat) (inflow : list patient)
    (r : step_result) (self' : Simulator.t) (n' : nat) :
  step self clock n inflow = (Py.Ok (Report r), self', n') ->
  Forall (fun a => is_commitment a = false) (sr_actions r)
  /\ sr_tick r = tick self + 1
  /\ tick self' = tick self + 1
  /\ waiting_patients self'
     = (if (tick self + 1) mod 3 =? 0 then waiting_patients self ++ inflow
        else waiting_patients self)
  /\ hospitals self' = update_hospitals (hospitals self) (tick self + 1)
  /\ Forall (fun pa => od_get (NegotiationEngine.assigned_hospital pa) (hospitals self)
                       = None)
       (NegotiationEngine.patient_assignments
          (default (NegotiationEngine.Build_round_result 0 [] [] [] [])
             (last (NegotiationEngine.negotiation_rounds (negotiation_engine self'))))).
Proof.
  unfold step. destruct (running self); cbn [negb]; [|done].
  set (s0 := with_tick self (tick self + 1)).
  assert (Hs0 : tick s0 = tick self + 1 /\ hospitals s0 = hospitals self
                /\ waiting_patients s0 = waiting_patients self) by done.
  destruct Hs0 as (Ht0 & Hh0 & Hw0).
  destruct (if tick s0 mod 3 =? 0 then _ else _) as [s1|e] eqn:Hin; [|done].
  assert (Hs1 : tick s1 = tick self + 1 /\ hospitals s1 = hospitals self
                /\ waiting_patients s1
                   = (if (tick self + 1) mod 3 =? 0 then waiting_patients self ++ inflow
                      else waiting_patients self)).
  { rewrite Ht0 in Hin. destruct ((tick self + 1) mod 3 =? 0).
    - destruct (government s0); [|done]. by injection Hin as <-.
    - by injection Hin as <-. }
  destruct Hs1 as (Ht1 & Hh1 & Hw1). clearbody s0. clear Hin.
  destruct (hospital_messages _) as [hms|e]; [|done].
  destruct (supply s1) as [depot|]; [|done].
  destruct (government s1) as [gov|]; [|done].
  destruct (NegotiationEngine.run_negotiation _ _ _ _ _ _) as [result engine] eqn:Hneg.
  rewrite apply_assignments_raises.
  destruct (forallb _ _) eqn:Hall; [|done].
  pose proof (dispatch_ambulances_frame
                (NegotiationEngine.ambulance_assignments result) (with_engine s1 engine))
    as Hframe.
  cbn zeta in Hframe. set (s2 := dispatch_ambulances _ _) in *.
  destruct Hframe as (Hh2 & Hw2 & Ht2 & _ & _ & _ & _ & He2 & _).
  cbn [with_engine hospitals waiting_patients tick negotiation_engine] in Hh2, Hw2, Ht2, He2.
  destruct (SupplyAgent.process_pending_requests _ clock (S n)) as [[res depot'] n1].
  destruct res as [ds|e]; [|done].
  unfold finish_step.
  pose proof (update_ambulances_no_commitment (ambulances s2) (tick s2)) as Hdel.
  destruct (update_ambulances (ambulances s2) (tick s2)) as [delivered ambs'].
  destruct (FailureHandler.check_and_handle_failures _ _ _ _ _ _) as [[failures fh] n2].
  intros [= <- <- <-]. cbn [sr_actions sr_tick tick waiting_patients hospitals
    with_failure_handler with_government with_supply with_ambulances with_hospitals
    negotiation_engine app].
  split_and!; [exact Hdel|congruence|congruence|congruence|congruence|].
  rewrite He2. unfold NegotiationEngine.run_negotiation in Hneg.
  injection Hneg as <- <-. cbn [NegotiationEngine.negotiation_rounds].
  rewrite last_snoc. cbn [default NegotiationEngine.patient_assignments].
  apply Forall_forall. intros pa Hpa.
  rewrite forallb_forall in Hall. specialize (Hall pa).
  cbn [with_engine hospitals] in Hall. rewrite <- Hh1.
  unfold id in Hpa. apply list_elem_of_In in Hpa. specialize (Hall Hpa).
  by destruct (od_get _ (hospitals s1)).
Qed.

Lemma step_never_commits_witness :
  exists r self' n',
    step Examples.quiet Examples.clock_a 0 [] = (Py.Ok (Report r), self', n')
    /\ Forall (fun a => is_commitment a = false) (sr_actions r)
    /\ tick self' = 1.
Proof.
  destruct (step Examples.quiet Examples.clock_a 0 []) as [[[[msg|r]|e] self'] n'] eqn:E.
  - by vm_compute in E.
  - exists r, self', n'. split; [reflexivity|].
    destruct (step_never_commits_a_patient_to_a_hospital _ _ _ _ _ _ _ E)
      as (Hnone & _ & Htick & _).
    split; [exact Hnone|exact Htick].
  - by vm_compute in E.
Defined.

(** X22. If the depot section of the scenario lacks one of the keys
    food_units, water_units, oxygen_units and medicine_units, as the shipped
    one does, initialize raises KeyError and leaves the simulator stopped at
    tick 0, with no depot, no government agent and nobody waiting; every
    step after that returns the error entry of a simulation that is not
    running. *)
Theorem initialize_without_the_stock_keys_leaves_the_simulator_stopped
    (self : Simulator.t) (config : Scenario.t) (casualties : list patient) :
  Scenario.sc_food_units (Scenario.SUPPLY_CONFIG config) = None
  \/ Scenario.sc_water_units (Scenario.SUPPLY_CONFIG config) = None
  \/ Scenario.sc_oxygen_units (Scenario.SUPPLY_CONFIG config) = None
  \/ Scenario.sc_medicine_units (Scenario.SUPPLY_CONFIG config) = None ->
  let '(outcome, sim) := initialize self config casualties in
  outcome = Py.Raise Py.KeyError
  /\ running sim = false
  /\ supply sim = None /\ government sim = None /\ waiting_patients sim = []
  /\ tick sim = 0
  /\ forall clock n inflow,
       step sim clock n inflow
       = (Py.Ok (ErrorDict "Simulation not running. Call initialize() first."), sim, n).
Proof.
  intros Hkeys. unfold initialize.
  assert (Hsup : create_supply (Scenario.SUPPLY_CONFIG config) = Py.Raise Py.KeyError).
  { unfold create_supply.
    destruct (Scenario.sc_food_units _), (Scenario.sc_water_units _),
      (Scenario.sc_oxygen_units _), (Scenario.sc_medicine_units _);
      try done; naive_solver. }
  rewrite Hsup. split_and!; try done.
Qed.

Lemma initialize_shipped_scenario_witness :
  let '(outcome, sim) :=
    initialize Simulator.init Scenario.flood_in_district_x [Examples.high_patient] in
  outcome = Py.Raise Py.KeyError /\ running sim = false.
Proof.
  pose proof (initialize_without_the_stock_keys_leaves_the_simulator_stopped
                Simulator.init Scenario.flood_in_district_x [Examples.high_patient]
                (or_introl eq_refl)) as H.
  destruct (initialize Simulator.init Scenario.flood_in_district_x
              [Examples.high_patient]) as [outcome sim].
  destruct H as (H1 & H2 & _). by split.
Defined.

End orchestration2.

(** ** The endpoint that runs several ticks *)

Section endpoint.
Import Simulator Main.

Lemma step_tick self clock n inflow result self' n' :
  step self clock n inflow = (Py.Ok result, self', n') ->
  running self' = running self
  /\ tick self' = (if running self then tick self + 1 else tick self).
Proof.
  unfold step. destruct (running self) eqn:Hrun; cbn [negb];
    [|by intros [= <- <- <-]].
  set (s0 := with_tick self (tick self + 1)).
  assert (Hs0 : tick s0 = tick self + 1 /\ running s0 = true) by done.
  clearbody s0. destruct Hs0 as [Ht0 Hr0].
  destruct (if tick s0 mod 3 =? 0 then _ else _) as [s1|e] eqn:Hin; [|done].
  assert (Hs1 : tick s1 = tick self + 1 /\ running s1 = true).
  { destruct (tick s0 mod 3 =? 0).
    - destruct (government s0); [|done]. by injection Hin as <-.
    - by injection Hin as <-. }
  destruct Hs1 as [Ht1 Hr1]. clear Hin.
  destruct (hospital_messages _) as [hms|e]; [|done].
  destruct (supply s1) as [depot|]; [|done].
  destruct (government s1) as [gov|]; [|done].
  destruct (NegotiationEngine.run_negotiation _ _ _ _ _ _) as [res engine].
  rewrite apply_assignments_raises. destruct (forallb _ _); [|done].
  pose proof (dispatch_ambulances_frame
                (NegotiationEngine.ambulance_assignments res) (with_engine s1 engine))
    as Hframe.
  cbn zeta in Hframe. set (s2 := dispatch_ambulances _ _) in *.
  destruct Hframe as (_ & _ & Ht2 & Hr2 & _).
  cbn [with_engine tick running] in Ht2, Hr2.
  destruct (SupplyAgent.process_pending_requests _ clock (S n)) as [[r depot'] n1].
  destruct r as [ds|e]; [|done].
  unfold finish_step.
  destruct (update_ambulances (ambulances s2) (tick s2)) as [delivered ambs'].
  destruct (FailureHandler.check_and_handle_failures _ _ _ _ _ _) as [[failures fh] n2].
  intros [= <- <- <-]. cbn. split; congruence.
Qed.

Lemma run_loop_spec todo : forall k simulator clock n inflows results simulator' n',
  run_loop todo k simulator clock n inflows = (Py.Ok results, simulator', n') ->
  length results = todo
  /\ running simulator' = running simulator
  /\ tick simulator'
     = (if running simulator then tick simulator + Z.of_nat todo else tick simulator)
  /\ (running simulator = false ->
      simulator' = simulator /\ n' = n
      /\ results
         = replicate todo (ErrorDict "Simulation not running. Call initialize() first.")).
Proof.
  induction todo as [|todo IH]; intros k simulator clock n inflows results simulator' n'.
  - cbn [run_loop]. intros [= <- <- <-]. split_and!; try done.
    destruct (running simulator); lia.
  - cbn [run_loop].
    destruct (step simulator clock n (inflows k)) as [[[result|e] s1] n1] eqn:Hstep;
      [|done].
    destruct (run_loop todo (S k) s1 clock n1 inflows) as [[[rs|e] s2] n2] eqn:Hrest;
      [|done].
    intros [= <- <- <-].
    destruct (step_tick _ _ _ _ _ _ _ Hstep) as [Hr1 Ht1].
    destruct (IH _ _ _ _ _ _ _ _ Hrest) as (Hlen & Hr2 & Ht2 & Hidle).
    split_and!.
    + simpl. by rewrite Hlen.
    + congruence.
    + rewrite Ht2, Hr1, Ht1. destruct (running simulator); lia.
    + intros Hoff. unfold step in Hstep. rewrite Hoff in Hstep. cbn [negb] in Hstep.
      injection Hstep as <- <- <-. destruct (Hidle Hoff) as (-> & -> & ->). done.
Qed.

(** X23. The run endpoint rejects a number of ticks outside 1..20 with
    status 400 and leaves the simulator alone. When it returns, it has made
    exactly that many steps and reports the simulator's tick as final_tick;
    the tick has advanced by the number of ticks if the simulator was
    running and not at all otherwise. On a simulator that is not running it
    returns success with one error entry per tick. *)
Theorem run_simulation_advances_the_tick_by_the_ticks_it_runs
    (ticks : Z) (simulator : Simulator.t) (clock : nat -> string) (n : nat)
    (inflows : nat -> list patient) :
  let '(response, simulator', n') := run_simulation ticks simulator clock n inflows in
  ((ticks < 1 \/ 20 < ticks) ->
   response = HTTPException 400 "Ticks must be between 1 and 20"
   /\ simulator' = simulator /\ n' = n)
  /\ (forall success executed final results,
        response = Returned success executed final results ->
        1 <= ticks <= 20 /\ success = true /\ executed = ticks
        /\ Z.of_nat (length results) = ticks
        /\ final = tick simulator'
        /\ tick simulator'
           = (if running simulator then tick simulator + ticks else tick simulator))
  /\ (1 <= ticks <= 20 -> running simulator = false ->
      response
      = Returned true ticks (tick simulator)
          (replicate (Z.to_nat ticks)
             (ErrorDict "Simulation not running. Call initialize() first."))
      /\ simulator' = simulator /\ n' = n).
Proof.
  unfold run_simulation.
  destruct (Z.ltb_spec ticks 1) as [H1|H1]; cbn [orb].
  { split_and!; [done|done|lia]. }
  destruct (Z.ltb_spec 20 ticks) as [H2|H2].
  { split_and!; [done|done|lia]. }
  destruct (run_loop (Z.to_nat ticks) 0 simulator clock n inflows)
    as [[[results|e] s1] n1] eqn:Hrun.
  - destruct (run_loop_spec _ _ _ _ _ _ _ _ _ Hrun) as (Hlen & Hr & Ht & Hidle).
    split_and!.
    + lia.
    + intros ? ? ? ? [= <- <- <- <-]. split_and!; try done; try lia.
      rewrite Ht. destruct (running simulator); lia.
    + intros _ Hoff. destruct (Hidle Hoff) as (-> & -> & ->). done.
  - split_and!; [lia|done|].
    intros _ Hoff. exfalso. clear -Hrun Hoff.
    revert Hrun. generalize 0%nat. induction (Z.to_nat ticks) as [|todo IH]; intros k;
      cbn [run_loop]; [done|].
    unfold step. rewrite Hoff. cbn [negb].
    destruct (run_loop todo (S k) simulator clock n inflows) as [[[rs|e'] s2] n2] eqn:E;
      [done|]. intros Heq. rewrite Heq in E. by apply (IH (S k)).
Qed.

Lemma run_simulation_witness :
  run_simulation 3 Simulator.init Examples.clock_a 0 (fun _ => [Examples.high_patient])
  = (Returned true 3 0
       (replicate 3 (ErrorDict "Simulation not running. Call initialize() first.")),
     Simulator.init, 0%nat).
Proof.
  pose proof (run_simulation_advances_the_tick_by_the_ticks_it_runs 3 Simulator.init
                Examples.clock_a 0 (fun _ => [Examples.high_patient])) as H.
  destruct (run_simulation 3 Simulator.init Examples.clock_a 0 _)
    as [[response self'] n'].
  destruct H as (_ & _ & H).
  destruct H as (-> & -> & ->); [lia|reflexivity|reflexivity].
Defined.

End endpoint.

(** ** The logger's timeline *)

Section timeline.
Import SimulationLogger Logging.
Context {datetime : Type}.
Variable isoformat : datetime -> string.
Variable elapsed_ms : datetime -> datetime -> Z.
Implicit Types (self : t datetime) (clock : nat -> datetime).

Lemma log_event_spec self clock n category event_type data agent_id :
  let '(e, self', _) :=
    log_event isoformat elapsed_ms self clock n category event_type data agent_id in
  events self' = events self ++ [e]
  /\ e_id e = Z.of_nat (length (events self))
  /\ e_tick e = current_tick self /\ e_category e = category
  /\ current_tick self' = current_tick self.
Proof.
  unfold log_event. by destruct (_get_elapsed_ms _ _ _ _) as [elapsed n'].
Qed.

(** What a call does to the list of events and to the current tick. *)
Lemma make_spec self clock n c :
  let self' := (make isoformat elapsed_ms self clock n c).1 in
  (c = Reset /\ events self' = [] /\ current_tick self' = 0)
  \/ (exists tick, c = SetTick tick /\ events self' = events self
                   /\ current_tick self' = tick)
  \/ (exists e, events self' = events self ++ [e]
                /\ e_id e = Z.of_nat (length (events self))
                /\ e_tick e = current_tick self
                /\ current_tick self' = current_tick self
                /\ c <> Reset /\ forall tick, c <> SetTick tick).
Proof.
  destruct c; cbn [make];
    try (left; by split_and!);
    try (right; left; eexists; by split_and!);
    right; right.
  - unfold start.
    pose proof (log_event_spec
      {| events := events self; start_time := Some (clock n);
         current_tick := current_tick self |} clock (S n) "simulation" "start"
      (Message "Simulation started") None) as H.
    destruct (log_event _ _ _ _ _ _ _ _ _) as [[e self'] n']. cbn [fst].
    destruct H as (? & ? & ? & ? & ?). exists e. by split_and!.
  - pose proof (log_event_spec self clock n category event_type data agent_id) as H.
    destruct (log_event _ _ _ _ _ _ _ _ _) as [[e self'] n']. cbn [fst snd].
    destruct H as (? & ? & ? & ? & ?). exists e. by split_and!.
  - unfold log_patient_assignment.
    pose proof (log_event_spec self clock n "allocation" "patient_assigned"
                  (PatientAssignment patient_id hospital_id severity) None) as H.
    destruct (log_event _ _ _ _ _ _ _ _ _) as [[e self'] n']. cbn [fst snd].
    destruct H as (? & ? & ? & ? & ?). exists e. by split_and!.
  - unfold log_ambulance_dispatch.
    pose proof (log_event_spec self clock n "dispatch" "ambulance_dispatched"
                  (AmbulanceDispatch ambulance_id patient_id hospital_id eta)
                  (Some ambulance_id)) as H.
    destruct (log_event _ _ _ _ _ _ _ _ _) as [[e self'] n']. cbn [fst snd].
    destruct H as (? & ? & ? & ? & ?). exists e. by split_and!.
  - unfold log_supply_allocation.
    pose proof (log_event_spec self clock n "supply" "allocated"
                  (SupplyAllocation supply_type quantity hospital_id) None) as H.
    destruct (log_event _ _ _ _ _ _ _ _ _) as [[e self'] n']. cbn [fst snd].
    destruct H as (? & ? & ? & ? & ?). exists e. by split_and!.
  - unfold log_negotiation_round.
    pose proof (log_event_spec self clock n "negotiation" "round_complete"
                  (RoundComplete round_num decisions duration_ms) None) as H.
    destruct (log_event _ _ _ _ _ _ _ _ _) as [[e self'] n']. cbn [fst snd].
    destruct H as (? & ? & ? & ? & ?). exists e. by split_and!.
  - unfold log_overload_prevented.
    pose proof (log_event_spec self clock n "prevention" "overload_prevented"
                  (OverloadPrevented hospital_id action) (Some hospital_id)) as H.
    destruct (log_event _ _ _ _ _ _ _ _ _) as [[e self'] n']. cbn [fst snd].
    destruct H as (? & ? & ? & ? & ?). exists e. by split_and!.
  - unfold log_failure.
    pose proof (log_event_spec self clock n "failure" failure_type (Details details)
                  None) as H.
    destruct (log_event _ _ _ _ _ _ _ _ _) as [[e self'] n']. cbn [fst snd].
    destruct H as (? & ? & ? & ? & ?). exists e. by split_and!.
  - unfold log_recovery.
    pose proof (log_event_spec self clock n "recovery" failure_type
                  (Resolution resolution) None) as H.
    destruct (log_event _ _ _ _ _ _ _ _ _) as [[e self'] n']. cbn [fst snd].
    destruct H as (? & ? & ? & ? & ?). exists e. by split_and!.
Qed.

Lemma drive_snoc self clock n calls c :
  drive isoformat elapsed_ms self clock n (calls ++ [c])
  = (let '(self', n') := drive isoformat elapsed_ms self clock n calls in
     make isoformat elapsed_ms self' clock n' c).
Proof. unfold drive. rewrite foldl_app. simpl. by destruct (foldl _ _ _). Qed.

Lemma ticks_set_snoc calls c :
  ticks_set (calls ++ [c])
  = ticks_set calls ++ match c with SetTick tick => [tick] | _ => [] end.
Proof. unfold ticks_set. rewrite flat_map_app. simpl. by rewrite app_nil_r. Qed.

Lemma seq_ids_snoc (l : list event) e :
  map e_id l = map Z.of_nat (seq 0 (length l)) ->
  e_id e = Z.of_nat (length l) ->
  map e_id (l ++ [e]) = map Z.of_nat (seq 0 (length (l ++ [e]))).
Proof.
  intros Hl He. rewrite length_app, seq_app, !map_app, Hl. simpl. by rewrite He.
Qed.

(** X24. Whatever calls are made on a new logger, the id of every logged
    event is its position in the event list, so the ids are distinct; every
    event carries tick 0 or a tick given to set_tick; and there are at most
    as many events as calls. *)
Theorem logged_event_ids_are_their_positions
    (calls : list call) (clock : nat -> datetime) (n : nat) :
  let self := (drive isoformat elapsed_ms __init__ clock n calls).1 in
  map e_id (events self) = map Z.of_nat (seq 0 (length (events self)))
  /\ (forall i e, events self !! i = Some e -> e_id e = Z.of_nat i)
  /\ NoDup (map e_id (events self))
  /\ Forall (fun e => e_tick e = 0 \/ e_tick e ∈ ticks_set calls) (events self)
  /\ (length (events self) <= length calls)%nat.
Proof.
  cbn zeta.
  assert (H : let self := (drive isoformat elapsed_ms __init__ clock n calls).1 in
              map e_id (events self) = map Z.of_nat (seq 0 (length (events self)))
              /\ Forall (fun e => e_tick e = 0 \/ e_tick e ∈ ticks_set calls)
                   (events self)
              /\ (current_tick self = 0 \/ current_tick self ∈ ticks_set calls)
              /\ (length (events self) <= length calls)%nat).
  { induction calls as [|c calls IH] using rev_ind.
    - cbn. split_and!; [done|constructor|by left|lia].
    - rewrite drive_snoc. cbn zeta in *.
      destruct (drive isoformat elapsed_ms __init__ clock n calls) as [self n'].
      cbn [fst] in IH. destruct IH as (Hids & Hticks & Hcur & Hlen).
      assert (Hmono : Forall (fun e => e_tick e = 0 \/ e_tick e ∈ ticks_set (calls ++ [c]))
                        (events self)).
      { eapply Forall_impl; [exact Hticks|]. intros e [?|?]; [by left|right].
        rewrite ticks_set_snoc. apply elem_of_app. by left. }
      rewrite length_app. cbn [length].
      pose proof (make_spec self clock n' c) as Hmake. cbn zeta in Hmake.
      destruct (make isoformat elapsed_ms self clock n' c) as [self' n''].
      cbn [fst] in *.
      destruct Hmake as [(-> & He & Hc)|[(tick & -> & He & Hc)|(e & He & Hid & Ht & Hc & _)]].
      + rewrite He, Hc. split_and!; [done|constructor|by left|simpl; lia].
      + rewrite He, Hc. split_and!; [done|done| |lia].
        right. rewrite ticks_set_snoc. apply elem_of_app. right. by left.
      + rewrite He, Hc. split_and!.
        * by apply seq_ids_snoc.
        * apply Forall_app. split; [done|]. constructor; [|constructor].
          rewrite Ht. destruct Hcur as [?|?]; [by left|right].
          rewrite ticks_set_snoc. apply elem_of_app. by left.
        * destruct Hcur as [?|?]; [by left|right].
          rewrite ticks_set_snoc. apply elem_of_app. by left.
        * rewrite length_app. simpl. lia. }
  cbn zeta in H. destruct H as (Hids & Hticks & _ & Hlen).
  split_and!; [done| | |done|done].
  - intros i e Hi.
    assert (Hm : map e_id (events (drive isoformat elapsed_ms __init__ clock n calls).1)
                 !! i = Some (e_id e)) by (by rewrite list_lookup_fmap, Hi).
    rewrite Hids, list_lookup_fmap in Hm.
    apply fmap_Some in Hm as (j & Hj & ->).
    apply lookup_seq in Hj as [-> _]. done.
  - rewrite Hids. apply NoDup_fmap; [intros ? ? ?; lia|apply NoDup_seq].
Qed.

(** *** Grouping by tick *)

Lemma timeline_append_keys tick e timeline :
  map fst (timeline_append tick e timeline)
  = map fst timeline ++ (if decide (tick ∈ map fst timeline) then [] else [tick]).
Proof.
  induction timeline as [|[t es] timeline IH]; cbn [timeline_append map fst app].
  - destruct (decide (tick ∈ [])) as [H|_]; [by apply elem_of_nil in H|done].
  - destruct (Z.eqb_spec t tick) as [->|Hne]; cbn [timeline_append map fst app].
    + rewrite decide_True by (by left). by rewrite app_nil_r.
    + rewrite IH. f_equal.
      destruct (decide (tick ∈ map fst timeline)) as [Hin|Hnin].
      * rewrite decide_True by (by right). done.
      * rewrite decide_False; [done|]. intros [?|?]%elem_of_cons; congruence.
Qed.

Lemma timeline_append_elem tick e timeline t es :
  NoDup (map fst timeline) ->
  (t, es) ∈ timeline_append tick e timeline ->
  (t <> tick /\ (t, es) ∈ timeline)
  \/ (t = tick /\ ((exists es0, (tick, es0) ∈ timeline /\ es = es0 ++ [e])
                   \/ (es = [e] /\ tick ∉ map fst timeline))).
Proof.
  induction timeline as [|[t0 es0] timeline IH]; simpl; intros Hnd Hin.
  - apply list_elem_of_singleton in Hin as [= -> ->]. right. split; [done|right].
    split; [done|]. apply not_elem_of_nil.
  - apply NoDup_cons in Hnd as [Ht0 Hnd].
    destruct (Z.eqb_spec t0 tick) as [->|Hne].
    + apply elem_of_cons in Hin as [[= -> ->]|Hin].
      * right. split; [done|left]. exists es0. split; [by left|done].
      * left. split; [|by right]. intros ->. apply Ht0.
        apply list_elem_of_fmap. by exists (tick, es).
    + apply elem_of_cons in Hin as [[= -> ->]|Hin].
      * left. split; [done|by left].
      * destruct (IH Hnd Hin) as [[? ?]|[-> [(es1 & ? & ->)|[-> ?]]]].
        -- left. split; [done|by right].
        -- right. split; [done|left]. exists es1. split; [by right|done].
        -- right. split; [done|right]. split; [done|].
           intros [?|?]%elem_of_cons; [simpl in *; congruence|done].
Qed.

Lemma timeline_append_concat tick e timeline :
  concat (map snd (timeline_append tick e timeline)) ≡ₚ e :: concat (map snd timeline).
Proof.
  induction timeline as [|[t0 es0] timeline IH]; simpl; [done|].
  destruct (t0 =? tick); simpl.
  - rewrite <- app_assoc. simpl. by rewrite <- Permutation_middle.
  - rewrite IH. by rewrite <- Permutation_middle.
Qed.

Lemma grouped_spec l :
  NoDup (map fst (grouped l))
  /\ (forall t es, (t, es) ∈ grouped l ->
        es = List.filter (fun e => e_tick e =? t) l /\ es <> [])
  /\ (forall e, e ∈ l -> e_tick e ∈ map fst (grouped l))
  /\ concat (map snd (grouped l)) ≡ₚ l.
Proof.
  unfold grouped. induction l as [|e l IH] using rev_ind.
  - cbn. split_and!; [constructor|by intros ? ? ?%elem_of_nil|by intros ? ?%elem_of_nil|done].
  - rewrite foldl_app. cbn [foldl]. destruct IH as (Hnd & Hgroups & Hcover & Hall).
    set (timeline := foldl _ [] l) in *.
    split_and!.
    + rewrite timeline_append_keys. destruct (decide _) as [?|Hnin].
      * by rewrite app_nil_r.
      * apply NoDup_app. split_and!; [done| |apply NoDup_singleton].
        intros x Hx ->%list_elem_of_singleton. done.
    + intros t es Hin. rewrite List.filter_app. cbn [List.filter].
      destruct (timeline_append_elem _ _ _ _ _ Hnd Hin)
        as [[Hne Hold]|[-> [(es0 & Hold & ->)|[-> Hnew]]]].
      * destruct (Hgroups _ _ Hold) as [-> Hn]. split; [|done].
        destruct (Z.eqb_spec (e_tick e) t) as [?|?]; [congruence|].
        by rewrite app_nil_r.
      * destruct (Hgroups _ _ Hold) as [-> Hn]. rewrite Z.eqb_refl.
        split; [done|]. by intros [? ?]%app_nil.
      * rewrite Z.eqb_refl. split; [|done].
        assert (Hnone : List.filter (fun e0 => e_tick e0 =? e_tick e) l = []); [|by rewrite Hnone].
        destruct (List.filter _ l) as [|x rest] eqn:Hf; [done|].
        exfalso. apply Hnew.
        assert (Hx : In x (List.filter (fun e0 => e_tick e0 =? e_tick e) l))
          by (rewrite Hf; by left).
        apply List.filter_In in Hx as [Hx Hxt]. apply Z.eqb_eq in Hxt.
        rewrite <- Hxt. apply Hcover. by apply list_elem_of_In.
    + intros e' He'. rewrite timeline_append_keys. apply elem_of_app.
      apply elem_of_app in He' as [He'|He'].
      * left. by apply Hcover.
      * apply list_elem_of_singleton in He' as ->.
        destruct (decide _) as [?|?]; [by left|right; by left].
    + rewrite timeline_append_concat, Hall. by rewrite <- Permutation_cons_append.
Qed.

Lemma StronglySorted_strict {A} (key : A -> Z) (l : list A) :
  StronglySorted (fun a b => key a <= key b) l -> NoDup (map key l) ->
  StronglySorted Z.lt (map key l).
Proof.
  induction l as [|x l IH]; simpl; intros Hs Hnd; [constructor|].
  apply StronglySorted_inv in Hs as [Hs Hx]. apply NoDup_cons in Hnd as [Hnin Hnd].
  constructor; [by apply IH|].
  rewrite List.Forall_forall in Hx. apply List.Forall_forall. intros k Hk.
  apply List.in_map_iff in Hk as (y & <- & Hy).
  assert (key x <= key y) by (by apply Hx).
  assert (key x <> key y); [|lia].
  intros Heq. apply Hnin. rewrite Heq. apply list_elem_of_fmap. exists y.
  split; [done|by apply list_elem_of_In].
Qed.

Lemma concat_snd_Permutation {A B} (l k : list (A * list B)) :
  l ≡ₚ k -> concat (map snd l) ≡ₚ concat (map snd k).
Proof.
  induction 1 as [|x l k _ IH|x y l|l k m _ IH1 _ IH2]; simpl.
  - done.
  - by rewrite IH.
  - rewrite !app_assoc. by rewrite (Permutation_app_comm x.2 y.2).
  - by rewrite IH1.
Qed.

(** X25. get_timeline lists the ticks that have events in strictly
    increasing order; the entry of a tick holds exactly the events
    get_events_by_tick returns for it, in the order they were logged, and is
    never empty; every event's tick has an entry, and the entries together
    hold every event once. *)
Theorem get_timeline_groups_the_events_by_tick (self : t datetime) :
  let timeline := get_timeline self in
  StronglySorted Z.lt (map tl_tick timeline)
  /\ Forall (fun g => tl_events g = get_events_by_tick self (tl_tick g)
                      /\ tl_events g <> []) timeline
  /\ (forall e, e ∈ events self -> e_tick e ∈ map tl_tick timeline)
  /\ concat (map tl_events timeline) ≡ₚ events self.
Proof.
  cbn zeta. unfold get_timeline. cbn zeta.
  destruct (grouped_spec (events self)) as (Hnd & Hgroups & Hcover & Hall).
  set (sorted := Py.sorted (fun a b => a.1 <? b.1) (grouped (events self))).
  assert (Hperm : sorted ≡ₚ grouped (events self)) by apply sorted_Permutation.
  assert (Hticks : map tl_tick
                     (map (fun '(tick, events) =>
                             {| tl_tick := tick; tl_events := events |}) sorted)
                   = map fst sorted).
  { rewrite map_map. apply map_ext. by intros [? ?]. }
  assert (Hevents : map tl_events
                      (map (fun '(tick, events) =>
                              {| tl_tick := tick; tl_events := events |}) sorted)
                    = map snd sorted).
  { rewrite map_map. apply map_ext. by intros [? ?]. }
  assert (Hkeys : map fst sorted ≡ₚ map fst (grouped (events self)))
    by exact (fmap_Permutation fst _ _ Hperm).
  split_and!.
  - rewrite Hticks. apply StronglySorted_strict.
    + apply (sorted_sorted fst).
    + by rewrite Hkeys.
  - apply Forall_forall. intros g Hg.
    apply list_elem_of_fmap in Hg as ([tick es] & -> & Hg). cbn [tl_tick tl_events].
    rewrite Hperm in Hg. exact (Hgroups _ _ Hg).
  - intros e He. rewrite Hticks, Hkeys. by apply Hcover.
  - rewrite Hevents, (concat_snd_Permutation _ _ Hperm). exact Hall.
Qed.

(** *** Counting by category *)

Lemma od_set_sum k (v : Z) (d : odict Z) :
  foldr Z.add 0 (od_values (od_set k v d))
  = foldr Z.add 0 (od_values d) + v - default 0 (od_get k d).
Proof.
  unfold od_values. induction d as [|[k0 v0] d IH]; simpl; [lia|].
  destruct (String.eqb k0 k); simpl; [lia|]. rewrite IH. lia.
Qed.

Lemma counted_snoc l e :
  counted (l ++ [e])
  = od_set (e_category e) (default 0 (od_get (e_category e) (counted l)) + 1) (counted l).
Proof. unfold counted. by rewrite foldl_app. Qed.

Lemma counted_spec l :
  NoDup (od_keys (counted l))
  /\ (forall c, od_get c (counted l)
                = (if decide (List.filter (fun e => String.eqb (e_category e) c) l = [])
                   then None
                   else Some (Z.of_nat (length (List.filter
                                (fun e => String.eqb (e_category e) c) l)))))
  /\ foldr Z.add 0 (od_values (counted l)) = Z.of_nat (length l).
Proof.
  induction l as [|e l IH] using rev_ind.
  - cbn. split_and!; [constructor|done|done].
  - rewrite counted_snoc. destruct IH as (Hnd & Hget & Hsum).
    split_and!.
    + by apply od_keys_set_NoDup.
    + intros c. rewrite od_get_set, List.filter_app. cbn [List.filter].
      destruct (decide (c = e_category e)) as [->|Hne].
      * rewrite String.eqb_refl. rewrite decide_False by (by intros [? ?]%app_nil).
        rewrite Hget. rewrite length_app. cbn [length].
        destruct (decide _) as [->|_]; simpl; f_equal; lia.
      * destruct (String.eqb_spec (e_category e) c) as [?|_]; [congruence|].
        rewrite app_nil_r. apply Hget.
    + rewrite od_set_sum, Hsum, length_app. cbn [length].
      destruct (od_get _ (counted l)); simpl; lia.
Qed.

(** X26. In get_summary, total_events is the number of events, the count of
    a category is the number of events get_events_by_category returns for
    it, a category is absent exactly when it has no event, no category is
    listed twice, and the counts add up to total_events. *)
Theorem get_summary_counts_the_events_of_each_category
    (self : t datetime) (clock : nat -> datetime) (n : nat) :
  let s := (get_summary isoformat elapsed_ms self clock n).1 in
  total_events s = Z.of_nat (length (events self))
  /\ (forall c, default 0 (od_get c (events_by_category s))
                = Z.of_nat (length (get_events_by_category self c)))
  /\ (forall c, od_get c (events_by_category s) = None
                <-> get_events_by_category self c = [])
  /\ NoDup (od_keys (events_by_category s))
  /\ foldr Z.add 0 (od_values (events_by_category s)) = total_events s.
Proof.
  cbn zeta. unfold get_summary. cbn zeta.
  destruct (_get_elapsed_ms _ _ _ _) as [elapsed n']. cbn [fst total_events events_by_category].
  destruct (counted_spec (events self)) as (Hnd & Hget & Hsum).
  unfold get_events_by_category.
  split_and!; [done| | |done|done].
  - intros c. rewrite Hget. destruct (decide _) as [->|_]; done.
  - intros c. rewrite Hget. destruct (decide _) as [?|?]; split; done.
Qed.

(** X27. get_recent_events returns a suffix of the event list: for a
    positive limit the last limit events, or all of them if there are fewer;
    for a negative limit the list without its first -limit events; and for
    limit 0 every event, not none. *)
Theorem get_recent_events_with_limit_zero_returns_every_event
    (self : t datetime) (limit : Z) :
  let recent := get_recent_events self limit in
  recent `suffix_of` events self
  /\ (limit = 0 -> recent = events self)
  /\ (0 < limit ->
      recent = drop (length (events self) - Z.to_nat limit) (events self)
      /\ length recent = Nat.min (Z.to_nat limit) (length (events self)))
  /\ (limit < 0 ->
      recent = drop (Z.to_nat (- limit)) (events self)
      /\ length recent = (length (events self) - Z.to_nat (- limit))%nat).
Proof.
  cbn zeta. unfold get_recent_events, last_items. split_and!.
  - apply suffix_drop.
  - intros ->. cbn [Z.opp Z.ltb Z.compare]. by rewrite Z.min_l by lia.
  - intros Hpos. destruct (Z.ltb_spec (- limit) 0) as [_|?]; [|lia].
    assert (Heq : Z.to_nat (Z.max (- limit + Z.of_nat (length (events self))) 0)
                  = (length (events self) - Z.to_nat limit)%nat) by lia.
    rewrite Heq. split; [done|]. rewrite length_drop. lia.
  - intros Hneg. destruct (Z.ltb_spec (- limit) 0) as [?|_]; [lia|].
    split.
    + destruct (Z.le_gt_cases (- limit) (Z.of_nat (length (events self)))) as [Hle|Hgt].
      * by rewrite Z.min_l.
      * rewrite Z.min_r by lia. rewrite Nat2Z.id.
        rewrite !drop_ge; [done|lia|lia].
    + rewrite length_drop. lia.
Qed.

End timeline.
